(** * news_agent.py: the content-fetch-and-normalise pipeline

    A shallow embedding of [clean_filename], [fetch_smart_content],
    [get_ai_summary] and the per-URL body of [fetch_mode] from
    [src/news_agent.py], with the properties the specification states
    about them.

    Conventions of the embedding.
    - A Python [str] is a list of Unicode code points ([list N]); [len] is
      [length].  The builtin string methods the program calls are written
      out below ([Module Py]).  What depends on the Unicode character
      database outside ASCII ([str.isalnum], [str.lower]) is taken from a
      record [UnicodeData] that every definition using it receives.
    - A call into a third-party library (requests, pypdf, newspaper,
      BeautifulSoup's parser, the OpenAI client) is a field of the record
      [Libraries]: it may return or raise.  The tree operations of
      BeautifulSoup that the program performs on a parsed document are
      written out ([Module Bs4]).
    - Python exceptions are the [Raise] outcome of the monad [M], which
      also threads the [World]: the files and the log of library calls.
    - [print] is advisory console output and is left out. *)

From Stdlib Require Import String Ascii.
From Stdlib Require Import List NArith ZArith Bool Arith Lia.
Import ListNotations.

Local Open Scope N_scope.
Local Open Scope list_scope.

(** ** Python strings *)

Module Py.

Definition str := list N.

(** A literal: the code points of an ASCII Rocq string. *)
Definition py (s : string) : str :=
  map N_of_ascii (list_ascii_of_string s).

Definition NL : N := 10.
Definition CR : N := 13.
Definition SPACE : N := 32.

Definition in_range (lo hi c : N) : bool := (lo <=? c) && (c <=? hi).

(** [str.isspace] on one code point (CPython's [Py_UNICODE_ISSPACE]);
    this is the set [strip], [lstrip] and [rstrip] remove. *)
Definition isspace (c : N) : bool :=
  in_range 9 13 c || in_range 28 32 c || (c =? 133) || (c =? 160)
  || (c =? 5760) || in_range 8192 8202 c || (c =? 8232) || (c =? 8233)
  || (c =? 8239) || (c =? 8287) || (c =? 12288).

(** The line boundaries of [str.splitlines] ([Py_UNICODE_ISLINEBREAK]). *)
Definition is_linebreak (c : N) : bool :=
  in_range 10 13 c || in_range 28 30 c || (c =? 133)
  || (c =? 8232) || (c =? 8233).

Definition is_ascii (c : N) : bool := c <? 128.

Definition ascii_isalnum (c : N) : bool :=
  in_range 48 57 c || in_range 65 90 c || in_range 97 122 c.

Definition ascii_lower (c : N) : N :=
  if in_range 65 90 c then c + 32 else c.

(** The part of the Unicode character database the program consults
    outside ASCII. [uc_lower before c after] is the lower-casing of the
    non-ASCII code point [c] between [before] and [after] (the context
    matters for the final sigma). *)
Record UnicodeData := {
  uc_isalnum : N -> bool;
  uc_lower : str -> N -> str -> str
}.

Definition isalnum (U : UnicodeData) (c : N) : bool :=
  if is_ascii c then ascii_isalnum c else uc_isalnum U c.

Fixpoint lower_from (U : UnicodeData) (before : str) (s : str) : str :=
  match s with
  | [] => []
  | c :: r =>
      (if is_ascii c then [ascii_lower c] else uc_lower U (rev before) c r)
      ++ lower_from U (c :: before) r
  end.

(** [s.lower()] *)
Definition lower (U : UnicodeData) (s : str) : str := lower_from U [] s.

Fixpoint lstrip (s : str) : str :=
  match s with
  | [] => []
  | c :: r => if isspace c then lstrip r else s
  end.

Definition rstrip (s : str) : str := rev (lstrip (rev s)).

Definition strip (s : str) : str := rstrip (lstrip s).

(** [s.startswith(sub)] *)
Fixpoint startswith (s sub : str) {struct sub} : bool :=
  match sub, s with
  | [], _ => true
  | _ :: _, [] => false
  | a :: sub', b :: s' => (a =? b) && startswith s' sub'
  end.

(** [s.endswith(sub)] *)
Definition endswith (s sub : str) : bool := startswith (rev s) (rev sub).

(** [sub in s] *)
Fixpoint contains (sub s : str) : bool :=
  startswith s sub ||
  match s with
  | [] => false
  | _ :: r => contains sub r
  end.

Definition cons_head (c : N) (l : list str) : list str :=
  match l with
  | [] => [[c]]
  | x :: xs => (c :: x) :: xs
  end.

(** [s.split(sep)] for a non-empty [sep]: occurrences are found from the
    left and do not overlap; [skip] counts the characters of a separator
    still to be passed over. *)
Fixpoint split_from (sep : str) (skip : nat) (s : str) : list str :=
  match s with
  | [] => [[]]
  | c :: r =>
      match skip with
      | S k => split_from sep k r
      | O =>
          if startswith s sep
          then [] :: split_from sep (pred (length sep)) r
          else cons_head c (split_from sep 0 r)
      end
  end.

Definition split (s sep : str) : list str := split_from sep 0 s.

(** [s.replace(old, new)] for a non-empty [old]. *)
Fixpoint replace_from (old new : str) (skip : nat) (s : str) : str :=
  match s with
  | [] => []
  | c :: r =>
      match skip with
      | S k => replace_from old new k r
      | O =>
          if startswith s old
          then new ++ replace_from old new (pred (length old)) r
          else c :: replace_from old new 0 r
      end
  end.

Definition replace (s old new : str) : str := replace_from old new 0 s.

(** Lines of [s] for a set [brk] of boundary characters: a carriage
    return followed by a line feed is one boundary, and a final boundary
    opens no empty last line. *)
Fixpoint lines_from (brk : N -> bool) (after_cr : bool) (s : str)
  : list str :=
  match s with
  | [] => []
  | c :: r =>
      if after_cr && (c =? NL) then lines_from brk false r
      else if brk c then [] :: lines_from brk (c =? CR) r
      else cons_head c (lines_from brk false r)
  end.

(** [s.splitlines()] *)
Definition splitlines (s : str) : list str := lines_from is_linebreak false s.

(** [for line in f] over a text file opened with universal newlines,
    each line without its end. *)
Definition file_lines (s : str) : list str :=
  lines_from (fun c => (c =? NL) || (c =? CR)) false s.

(** [sep.join(parts)] *)
Fixpoint join (sep : str) (parts : list str) : str :=
  match parts with
  | [] => []
  | [x] => x
  | x :: rest => x ++ sep ++ join sep rest
  end.

(** Truthiness of a string: [if s] holds for a non-empty one. *)
Definition truthy (s : str) : bool :=
  match s with [] => false | _ :: _ => true end.

Fixpoint eqb (a b : str) : bool :=
  match a, b with
  | [], [] => true
  | x :: a', y :: b' => (x =? y) && eqb a' b'
  | _, _ => false
  end.

End Py.

Import Py.

(** ** clean_filename (news_agent.py, lines 27-30) *)

Definition keepcharacters : list N := [32; 46; 95].   (* ' ', '.', '_' *)

Definition kept (U : UnicodeData) (c : N) : bool :=
  isalnum U c || existsb (N.eqb c) keepcharacters.

Definition clean_filename (U : UnicodeData) (title : str) : str :=
  let safe_title := rstrip (filter (kept U) title) in
  firstn 60 (replace safe_title (py " ") (py "_")).

(** ** Outcomes of library calls, and what they return *)

Inductive outcome (A : Type) : Type :=
| Ok (a : A)
| Raise.
Arguments Ok {A} a.
Arguments Raise {A}.

Definition bytes := list Byte.byte.

(** The part of a [requests.Response] the program reads. *)
Record Response := {
  status_code : N;
  headers_content_type : option str;   (* the Content-Type header, if sent *)
  content : bytes
}.

(** [response.headers.get('Content-Type', '')] *)
Definition headers_get_content_type (r : Response) : str :=
  match headers_content_type r with
  | Some v => v
  | None => []
  end.

(** A [pypdf.PdfReader]: for each page in document order the outcome of
    [page.extract_text()], and the document information. *)
Record DocumentInformation := {
  info_title : option str
}.

Record Reader := {
  pages : list (outcome str);
  metadata : option DocumentInformation
}.

(** A parsed [newspaper.Article]. *)
Record Article := {
  article_title : str;
  article_text : str
}.

(** ** BeautifulSoup documents *)

Module Bs4.

(** A page element is a string or a tag.  [shown] tells apart the strings
    [get_text()] collects ([NavigableString], [CData]) from those it
    passes over (comments, declarations, doctypes and the like). *)
#[local] Unset Elimination Schemes.
Inductive node : Type :=
| Str (shown : bool) (s : str)
| Tag (name : str) (contents : list node).
#[local] Set Elimination Schemes.

(** The [BeautifulSoup] object: the top-level elements of the document. *)
Definition soup := list node.

(** [name in names] *)
Definition name_in (names : list str) (name : str) : bool :=
  existsb (eqb name) names.

(** [for t in soup(names): t.extract()]: every tag whose name is listed is
    taken out of the tree together with its subtree.  ([find_all] lists the
    matches in document order; a match found inside an earlier match is
    already detached from the document when its turn comes.) *)
Fixpoint extract_named (names : list str) (n : node) : list node :=
  match n with
  | Str _ _ => [n]
  | Tag name cs =>
      if name_in names name then []
      else [Tag name (flat_map (extract_named names) cs)]
  end.

Definition extract_all (names : list str) (doc : soup) : soup :=
  flat_map (extract_named names) doc.

(** [get_text()] with its default separator: the shown strings of the
    subtree, in document order, joined by the empty string. *)
Fixpoint node_text (n : node) : str :=
  match n with
  | Str true s => s
  | Str false _ => []
  | Tag _ cs => flat_map node_text cs
  end.

Definition get_text (doc : soup) : str := flat_map node_text doc.

Definition first_some {A : Type} (l : list (option A)) : option A :=
  fold_right (fun o acc => match o with Some _ => o | None => acc end) None l.

(** [find(name)]: the first tag of that name in document order. *)
Fixpoint find_in (name : str) (n : node) : option node :=
  match n with
  | Str _ _ => None
  | Tag nm cs =>
      if eqb nm name then Some n
      else first_some (map (find_in name) cs)
  end.

Definition find (name : str) (doc : soup) : option node :=
  first_some (map (find_in name) doc).

(** The [.string] of an element: a string is its own; a tag with exactly
    one child has that child's; any other tag has none. *)
Fixpoint string_of (n : node) : option str :=
  match n with
  | Str _ s => Some s
  | Tag _ [c] => string_of c
  | Tag _ _ => None
  end.

End Bs4.

Import Bs4.

(** ** The libraries, the configuration and the world *)

Inductive prompt_type := article | digest | review.

Record Libraries := {
  (* requests.get(url, headers=HEADERS, timeout=15) *)
  requests_get : str -> outcome Response;
  (* response.raise_for_status() *)
  raise_for_status : Response -> outcome unit;
  (* PdfReader(io.BytesIO(content)) *)
  PdfReader : bytes -> outcome Reader;
  (* a = Article(url); a.download(input_html=content); a.parse() *)
  Article_parse : str -> bytes -> outcome Article;
  (* BeautifulSoup(content, 'html.parser') *)
  BeautifulSoup : bytes -> outcome soup;
  (* client.chat.completions.create(model, messages)
       .choices[0].message.content, for a model, a system and a user text *)
  chat_completions_create : str -> str -> str -> outcome (option str);
  (* datetime.date.today(), as printed *)
  date_today : str
}.

Record Config := {
  AGGREGATED_FILE : str;
  ARTICLES_DIR : str
}.

Inductive call : Type :=
| CallGet (url : str)
| CallPdfReader (content : bytes)
| CallArticle (url : str) (content : bytes)
| CallBeautifulSoup (content : bytes)
| CallChat (model system user : str)
| CallWrite (path text : str).

Record World := {
  files : list (str * str);    (* path and text, the latest write first *)
  calls : list call            (* in the order made *)
}.

Definition log (c : call) (w : World) : World :=
  {| files := files w; calls := calls w ++ [c] |}.

(** ** The monad: a world threaded through, and exceptions *)

Definition M (A : Type) : Type := World -> outcome A * World.

Definition ret {A : Type} (a : A) : M A := fun w => (Ok a, w).

Definition bind {A B : Type} (m : M A) (k : A -> M B) : M B :=
  fun w =>
    match m w with
    | (Ok a, w') => k a w'
    | (Raise, w') => (Raise, w')
    end.

(** [try: m except Exception: handler] *)
Definition try_except {A : Type} (m handler : M A) : M A :=
  fun w =>
    match m w with
    | (Ok a, w') => (Ok a, w')
    | (Raise, w') => handler w'
    end.

(** A library call: it is logged, then returns or raises. *)
Definition invoke {A : Type} (c : call) (o : outcome A) : M A :=
  fun w => (o, log c w).

(** An outcome that leaves no trace in the world. *)
Definition lift {A : Type} (o : outcome A) : M A := fun w => (o, w).

Notation "x <- m ;; k" := (bind m (fun x => k))
  (at level 61, m at next level, right associativity).

(** ** The program *)

Section Program.

Variable U : UnicodeData.
Variable L : Libraries.
Variable C : Config.

(** *** fetch_smart_content (lines 32-98) *)

Inductive ContentKind := PDF | HTML.

(** The two length gates: line 73 accepts the primary extractor's text
    above the first, line 143 refuses a fetched text below the second. *)
Definition PRIMARY_MIN_LENGTH : nat := 300.
Definition USABLE_MIN_LENGTH : nat := 100.

(** Line 47, with the header as lower-cased on line 44. *)
Definition is_pdf (url content_type : str) : bool :=
  endswith (lower U url) (py ".pdf")
  || contains (py "application/pdf") content_type.

Definition classify (url : str) (response : Response) : ContentKind :=
  let content_type := lower U (headers_get_content_type response) in
  if is_pdf url content_type then PDF else HTML.

Definition FetchResult : Type := option str * option str.

Definition sentinel : FetchResult := (None, None).

(** Lines 52-54: [text = ""; for page in reader.pages:
    text += page.extract_text() + "\n"], from the text gathered so far. *)
Fixpoint extract_pages (ps : list (outcome str)) (text : str) : M str :=
  match ps with
  | [] => ret text
  | page :: rest =>
      t <- lift page ;;
      extract_pages rest (text ++ t ++ [NL])
  end.

(** Lines 57-59. *)
Definition pdf_title (reader : Reader) : str :=
  match metadata reader with
  | Some info =>
      match info_title info with
      | Some t => if truthy t then t else py "PDF Document"
      | None => py "PDF Document"
      end
  | None => py "PDF Document"
  end.

(** PATH A, lines 49-64. *)
Definition pdf_extract (response : Response) : M FetchResult :=
  try_except
    (reader <- invoke (CallPdfReader (content response))
                      (PdfReader L (content response)) ;;
     text <- extract_pages (pages reader) [] ;;
     ret (Some (pdf_title reader), Some text))
    (ret sentinel).

(** PATH B, lines 68-76: the accepted article, or nothing when the
    extractor raised or its text is no longer than 300 characters. *)
Definition primary_extract (url : str) (response : Response)
  : M (option FetchResult) :=
  try_except
    (a <- invoke (CallArticle url (content response))
                 (Article_parse L url (content response)) ;;
     if (PRIMARY_MIN_LENGTH <? length (article_text a))%nat
     then ret (Some (Some (article_title a), Some (article_text a)))
     else ret None)
    (ret None).

Definition killed : list str :=
  [py "script"; py "style"; py "nav"; py "footer"; py "header"].

(** Lines 89-91. *)
Definition normalize (text : str) : str :=
  let lines := map strip (splitlines text) in
  let chunks :=
    flat_map (fun line => map strip (split line (py "  "))) lines in
  join [NL] (filter truthy chunks).

(** Line 93. *)
Definition soup_title (doc : soup) : option str :=
  match find (py "title") doc with
  | Some t => string_of t
  | None => Some (py "Web_Capture")
  end.

(** Lines 83-94, on the parsed document. *)
Definition scrape (doc : soup) : FetchResult :=
  let doc := extract_all killed doc in
  let text := get_text doc in
  let clean_text := normalize text in
  (soup_title doc, Some clean_text).

(** PATH C, lines 79-94. *)
Definition fallback_extract (response : Response) : M FetchResult :=
  doc <- invoke (CallBeautifulSoup (content response))
                (BeautifulSoup L (content response)) ;;
  ret (scrape doc).

Definition fetch_smart_content (url : str) : M FetchResult :=
  try_except
    (response <- invoke (CallGet url) (requests_get L url) ;;
     _ <- lift (raise_for_status L response) ;;
     match classify url response with
     | PDF => pdf_extract response
     | HTML =>
         r <- primary_extract url response ;;
         match r with
         | Some res => ret res
         | None => fallback_extract response
         end
     end)
    (ret sentinel).

(** *** get_ai_summary (lines 100-118) *)

Definition system_prompts (p : prompt_type) : str :=
  match p with
  | article => py "Summarize this content. Include title, author/source, key facts, and methodology (if applicable). If it is a legal document/PDF, summarize the ruling or key filings. Format as Markdown."
  | digest => py "Synthesize these summaries into a 'Daily Intelligence Brief'. Focus on narrative flows and conflicting reports."
  | review => py "Write a 'Weekly Strategic Review' based on these summaries. Ignore noise; identify macro-trends."
  end.

Definition get_ai_summary (text model : str) (p : prompt_type)
  : M (option str) :=
  let system := system_prompts p in
  let user := firstn (N.to_nat 25000) text in
  try_except
    (invoke (CallChat model system user)
            (chat_completions_create L model system user))
    (ret None).

(** *** fetch_mode (lines 120-181) *)

(** [os.path.join(a, b)] on a POSIX system. *)
Definition os_path_join (a b : str) : str :=
  if startswith b (py "/") then b
  else if endswith a (py "/") || negb (truthy a) then a ++ b
  else a ++ py "/" ++ b.

Definition lookup (path : str) (fs : list (str * str)) : option str :=
  match List.find (fun e => eqb (fst e) path) fs with
  | Some e => Some (snd e)
  | None => None
  end.

(** [os.path.exists(path)] *)
Definition os_path_exists (path : str) : M bool :=
  fun w => (Ok (match lookup path (files w) with
                | Some _ => true
                | None => false
                end), w).

(** [with open(path, 'w') as f: f.write(text)] *)
Definition write_file (path text : str) : M unit :=
  fun w =>
    (Ok tt, {| files := (path, text) :: files w;
               calls := calls w ++ [CallWrite path text] |}).

(** Line 143: [not text or len(text) < 100]. *)
Definition too_short (text : option str) : bool :=
  match text with
  | None => true
  | Some t => negb (truthy t) || (length t <? USABLE_MIN_LENGTH)%nat
  end.

(** Line 148: [not title or title == "PDF Document"]. *)
Definition unnamed (title : option str) : bool :=
  match title with
  | None => true
  | Some t => negb (truthy t) || eqb t (py "PDF Document")
  end.

(** Line 150. *)
Definition url_name (url : str) : str :=
  replace (replace (last (split url (py "/")) []) (py ".pdf") [])
          (py ".html") [].

(** Lines 148-150: the title the note is filed under. *)
Definition note_title (url : str) (title : option str) : str :=
  match title with
  | Some t => if unnamed title then url_name url else t
  | None => url_name url
  end.

(** Lines 162-175. *)
Definition note_content (url title summary text : str) : str :=
  py "---" ++ [NL] ++
  py "url: " ++ url ++ [NL] ++
  py "date: " ++ date_today L ++ [NL] ++
  py "tags: [article, ai-summary]" ++ [NL] ++
  py "status: read" ++ [NL] ++
  py "---" ++ [NL] ++
  py "# " ++ title ++ [NL] ++
  [NL] ++
  py "## AI Summary" ++ [NL] ++
  summary ++ [NL] ++
  [NL] ++
  py "## Extracted Text" ++ [NL] ++
  firstn (N.to_nat 5000) text ++ py "... [Truncated for Notes]" ++ [NL].

(** The body of the loop, lines 137-181, for one URL. *)
Definition fetch_mode_url (url : str) : M unit :=
  try_except
    (res <- fetch_smart_content url ;;
     let '(title, text) := res in
     if too_short text then ret tt
     else
       let text := match text with Some t => t | None => [] end in
       let title := note_title url title in
       let safe_title := clean_filename U title in
       let note_path := os_path_join (ARTICLES_DIR C) (safe_title ++ py ".md") in
       present <- os_path_exists note_path ;;
       if present then ret tt
       else
         summary <- get_ai_summary text (py "gpt-4o-mini") article ;;
         match summary with
         | None => ret tt
         | Some s =>
             if truthy s
             then write_file note_path (note_content url title s text)
             else ret tt
         end)
    (ret tt).

(** Lines 129-133: the URLs of the table rows of the aggregated file. *)
Definition row_url (line : str) : list str :=
  if contains (py "|") line && contains (py "http") line then
    let parts := map strip (split line (py "|")) in
    if (4 <=? length parts)%nat then [nth 3 parts []] else []
  else [].

Fixpoint for_each (urls : list str) : M unit :=
  match urls with
  | [] => ret tt
  | url :: rest => _ <- fetch_mode_url url ;; for_each rest
  end.

Definition fetch_mode : M unit :=
  fun w =>
    match lookup (AGGREGATED_FILE C) (files w) with
    | None => (Ok tt, w)
    | Some text =>
        let urls_to_process := flat_map row_url (file_lines text) in
        for_each (firstn 5 urls_to_process) w
    end.

End Program.

(** * extract_urls.py: the table fetch_mode reads *)

(** An entry of the table: date, source note, URL. *)
Definition entry : Type := str * str * str.

Definition entry_url (e : entry) : str := snd e.

(** Line 80 of extract_urls.py: the heading and the head of the table. *)
Definition table_header : str :=
  py "# Aggregated URLs" ++ [NL; NL] ++
  py "| Date | Source Note | URL |" ++ [NL] ++
  py "| :--- | :--- | :--- |" ++ [NL].

(** Line 82: the row of an entry. *)
Definition table_row (e : entry) : str :=
  let '(date, source, url) := e in
  py "| " ++ date ++ py " | " ++ source ++ py " | " ++ url ++ py " |"
  ++ [NL].

(** Lines 79-82: the text written to the aggregated file for the sorted
    entries. *)
Definition write_table (sorted_entries : list entry) : str :=
  table_header ++ concat (map table_row sorted_entries).

(** * news_agent.py: digest_mode and review_mode *)

(** What the two modes read of a note loaded by [frontmatter.load]. *)
Record Post := {
  post_date_str : str;            (* str(post.get('date')) *)
  post_date_day : outcome Z;      (* post.get('date') as a day, after lines
                                     226-228; raises when it is neither a
                                     date nor a string that parses as one *)
  post_url_str : str;             (* post.get('url'), as formatted *)
  post_content : str              (* post.content *)
}.

(** The notes directory, the calendar and the articles directory as the
    two modes find them. *)
Record Desk := {
  NOTES_DIR : str;
  today : Z;                           (* datetime.date.today(), as a day *)
  strftime : str -> Z -> str;          (* day.strftime(format) *)
  articles_dir_exists : bool;          (* os.path.exists(ARTICLES_DIR) *)
  listdir : list str;                  (* os.listdir(ARTICLES_DIR) *)
  frontmatter_loads : str -> outcome Post   (* the parse of a note's text *)
}.

Section Modes.

Variable L : Libraries.
Variable C : Config.
Variable D : Desk.

(** [frontmatter.load(path)] *)
Definition frontmatter_load (path : str) : M Post :=
  fun w => (match lookup path (files w) with
            | Some text => frontmatter_loads D text
            | None => Raise
            end, w).

(** [str(x)] of an optional string, as an f-string prints it. *)
Definition str_of_option (x : option str) : str :=
  match x with
  | Some s => s
  | None => py "None"
  end.

(** [with open(path, 'a') as f: f.write(text)] *)
Definition append_file (path text : str) : M unit :=
  fun w =>
    let old := match lookup path (files w) with
               | Some t => t
               | None => []
               end in
    (Ok tt, {| files := (path, old ++ text) :: files w;
               calls := calls w ++ [CallWrite path text] |}).

(** *** digest_mode (lines 186-210) *)

(** Lines 194-200, for one file name. *)
Definition digest_file (today_str filename summaries : str) : M str :=
  if endswith filename (py ".md") then
    let path := os_path_join (ARTICLES_DIR C) filename in
    try_except
      (post <- frontmatter_load path ;;
       if eqb (post_date_str post) today_str
       then ret (summaries ++ [NL; NL] ++ py "Source: " ++ post_url_str post
                 ++ [NL] ++ firstn 2000 (post_content post))
       else ret summaries)
      (ret summaries)
  else ret summaries.

Fixpoint digest_files (today_str : str) (filenames : list str)
  (summaries : str) : M str :=
  match filenames with
  | [] => ret summaries
  | filename :: rest =>
      summaries <- digest_file today_str filename summaries ;;
      digest_files today_str rest summaries
  end.

Definition digest_mode : M unit :=
  let today_str := strftime D (py "%Y-%m-%d") (today D) in
  let daily_note_path :=
    os_path_join (NOTES_DIR D) (today_str ++ py ".md") in
  summaries <- (if articles_dir_exists D
                then digest_files today_str (listdir D) []
                else ret []) ;;
  if negb (truthy summaries) then ret tt
  else
    digest <- get_ai_summary L summaries (py "gpt-4o") digest ;;
    append_file daily_note_path
      ([NL; NL] ++ py "# " ++ [129504] ++ py " AI Daily Digest" ++ [NL]
       ++ str_of_option digest ++ [NL]).

(** *** review_mode (lines 212-240) *)

(** Lines 222-231, for one file name. *)
Definition review_file (start_week : Z) (filename combined_text : str)
  : M str :=
  if endswith filename (py ".md") then
    let path := os_path_join (ARTICLES_DIR C) filename in
    try_except
      (post <- frontmatter_load path ;;
       p_date <- lift (post_date_day post) ;;
       if ((start_week <=? p_date) && (p_date <=? today D))%Z
       then ret (combined_text ++ [NL; NL] ++ py "Title: " ++ filename
                 ++ [NL] ++ py "Summary: " ++ firstn 1500 (post_content post))
       else ret combined_text)
      (ret combined_text)
  else ret combined_text.

Fixpoint review_files (start_week : Z) (filenames : list str)
  (combined_text : str) : M str :=
  match filenames with
  | [] => ret combined_text
  | filename :: rest =>
      combined_text <- review_file start_week filename combined_text ;;
      review_files start_week rest combined_text
  end.

Definition review_mode : M unit :=
  let start_week := (today D - 7)%Z in
  let fname := py "Week-Review-" ++ strftime D (py "%Y%m%d") start_week
               ++ py "-" ++ strftime D (py "%Y%m%d") (today D) ++ py ".md" in
  let review_path := os_path_join (NOTES_DIR D) fname in
  combined_text <- (if articles_dir_exists D
                    then review_files start_week (listdir D) []
                    else ret []) ;;
  if negb (truthy combined_text) then ret tt
  else
    review <- get_ai_summary L combined_text (py "gpt-4o") review ;;
    write_file review_path
      (py "# Weekly Review" ++ [NL] ++ str_of_option review).

End Modes.

(** * The specification's wording

    Definitions that follow the sentences of the specification rather than
    the code; the properties below compare the two. *)

Module Spec.

(** ** Filename derivation *)

Definition space_to_underscore (c : N) : N :=
  if c =? SPACE then 95 else c.

(** What a derived file name may consist of. *)
Definition allowed (U : UnicodeData) (c : N) : Prop :=
  isalnum U c = true \/ c = 46 \/ c = 95.

(** The alphanumeric characters, spaces, periods and underscores of a
    title, in their order. *)
Definition retained (U : UnicodeData) (title : str) : str :=
  filter (fun c => isalnum U c || (c =? 32) || (c =? 46) || (c =? 95)) title.

(** A text without its trailing whitespace, read from the front: a
    character goes when it is whitespace and nothing but whitespace
    follows it. *)
Fixpoint trim_trailing (s : str) : str :=
  match s with
  | [] => []
  | c :: r =>
      match trim_trailing r with
      | [] => if isspace c then [] else [c]
      | t => c :: t
      end
  end.

(** ** Content kind *)

Fixpoint take_until (stop : N -> bool) (s : str) : str :=
  match s with
  | [] => []
  | c :: r => if stop c then [] else c :: take_until stop r
  end.

Fixpoint drop_until (stop : N -> bool) (s : str) : str :=
  match s with
  | [] => []
  | c :: r => if stop c then s else drop_until stop r
  end.

(** What follows the first occurrence of [sub] in [s]. *)
Fixpoint after (sub s : str) : option str :=
  if startswith s sub then Some (skipn (length sub) s)
  else match s with
       | [] => None
       | _ :: r => after sub r
       end.

(** The path of a URL: what follows the scheme and the authority, up to
    the query ('?') or the fragment ('#'). *)
Definition url_path (url : str) : str :=
  let hier := take_until (fun c => (c =? 63) || (c =? 35)) url in
  match after (py "://") hier with
  | Some rest => drop_until (fun c => c =? 47) rest
  | None => hier
  end.

(** The final segment of the path of a URL: what follows the last '/' of
    the path. *)
Definition final_path_segment (url : str) : str :=
  last (split (url_path url) (py "/")) [].

(** The final path segment with ".pdf" and ".html" taken out. *)
Definition path_name (url : str) : str :=
  replace (replace (final_path_segment url) (py ".pdf") []) (py ".html") [].

(** The rule of section 4.2, on the path of the URL. *)
Definition is_pdf_by_path (U : UnicodeData) (url content_type : str) : bool :=
  endswith (lower U (url_path url)) (py ".pdf")
  || contains (py "application/pdf") (lower U content_type).

Definition all_ascii (s : str) : Prop := Forall (fun c => is_ascii c = true) s.

(** ** Whitespace normalisation *)

(** Splitting on runs of two or more separator characters ([sp] says which
    characters separate); [in_run] holds while such a run is passed over. *)
Fixpoint split_runs_from (sp : N -> bool) (in_run : bool) (s : str)
  : list str :=
  match s with
  | [] => [[]]
  | c :: r =>
      if in_run then
        if sp c then split_runs_from sp true r
        else cons_head c (split_runs_from sp false r)
      else
        if sp c && match r with [] => false | d :: _ => sp d end
        then [] :: split_runs_from sp true r
        else cons_head c (split_runs_from sp false r)
  end.

Definition split_runs (sp : N -> bool) (s : str) : list str :=
  split_runs_from sp false s.

Definition is_space (c : N) : bool := c =? SPACE.

(** The sentence of section 4.5: lines, each trimmed, split on runs of two
    or more spaces, empty fragments dropped, the rest joined by newlines. *)
Definition normalize_by_runs (sp : N -> bool) (text : str) : str :=
  let lines := map strip (splitlines text) in
  let fragments := flat_map (split_runs sp) lines in
  join [NL] (filter truthy fragments).

(** The same with every fragment trimmed before the empty ones go. *)
Definition normalize_trimmed (text : str) : str :=
  let lines := map strip (splitlines text) in
  let fragments :=
    flat_map (fun line => map strip (split_runs is_space line)) lines in
  join [NL] (filter truthy fragments).

(** ** Outcomes of a fetch *)

(** The invariant of section 3: both fields present and the text
    non-empty, or both absent. *)
Definition FetchResult_invariant (r : FetchResult) : Prop :=
  (exists title text, r = (Some title, Some text) /\ text <> [])
  \/ r = (None, None).

(** The GET fails: the request raises, or the status check does. *)
Definition transport_fails (L : Libraries) (url : str) : Prop :=
  requests_get L url = Raise
  \/ exists r, requests_get L url = Ok r /\ raise_for_status L r = Raise.

Definition fetched (L : Libraries) (url : str) (r : Response) : Prop :=
  requests_get L url = Ok r /\ raise_for_status L r = Ok tt.

(** The PDF does not parse: the reader raises, or the text extraction of
    some page does. *)
Definition pdf_unparseable (L : Libraries) (r : Response) : Prop :=
  PdfReader L (content r) = Raise
  \/ exists reader, PdfReader L (content r) = Ok reader
                    /\ In Raise (pages reader).

Definition pdf_fails (U : UnicodeData) (L : Libraries) (url : str) : Prop :=
  exists r, fetched L url r /\ classify U url r = PDF /\ pdf_unparseable L r.

(** The primary extractor raises or yields 300 characters or fewer. *)
Definition primary_rejected (L : Libraries) (url : str) (r : Response)
  : Prop :=
  Article_parse L url (content r) = Raise
  \/ exists a, Article_parse L url (content r) = Ok a
               /\ (length (article_text a) <= 300)%nat.

Definition fallback_fails (U : UnicodeData) (L : Libraries) (url : str)
  : Prop :=
  exists r, fetched L url r /\ classify U url r = HTML
            /\ primary_rejected L url r
            /\ BeautifulSoup L (content r) = Raise.

(** Page texts in document order, a newline after each. *)
Definition pages_text (texts : list str) : str :=
  concat (map (fun t => t ++ [NL]) texts).

(** The metadata title, when there is one and it is not empty. *)
Definition metadata_title (reader : Reader) : option str :=
  match metadata reader with
  | Some {| info_title := Some (c :: t) |} => Some (c :: t)
  | _ => None
  end.

(** ** The fallback extractor *)

(** The shown strings of an element that lie outside every tag named in
    [names], in document order. *)
Fixpoint visible_text (names : list str) (n : node) : str :=
  match n with
  | Str true s => s
  | Str false _ => []
  | Tag name cs =>
      if name_in names name then []
      else flat_map (visible_text names) cs
  end.

(** The element with every tag named in [names] emptied. *)
Fixpoint blank (names : list str) (n : node) : node :=
  match n with
  | Str _ _ => n
  | Tag name cs =>
      if name_in names name then Tag name []
      else Tag name (map (blank names) cs)
  end.

(** ** The caller *)

(** A call to the summarisation service or a write of a note. *)
Definition summarizes_or_writes (c : call) : bool :=
  match c with
  | CallChat _ _ _ | CallWrite _ _ => true
  | _ => false
  end.

(** Calls among which there is neither. *)
Definition quiet (new : list call) : Prop :=
  Forall (fun c => summarizes_or_writes c = false) new.

(** The fetched title is absent, empty or the PDF placeholder. *)
Definition untitled (title : option str) : Prop :=
  title = None \/ title = Some [] \/ title = Some (py "PDF Document").

(** ** One URL of fetch_mode, step by step *)

(** Lines 152-153: where the note for a fetched title goes. *)
Definition note_path (U : UnicodeData) (C : Config) (url : str)
  (title : option str) : str :=
  os_path_join (ARTICLES_DIR C)
    (clean_filename U (note_title url title) ++ py ".md").

(** The request line 159 sends for a text. *)
Definition summary_call (text : str) : call :=
  CallChat (py "gpt-4o-mini") (system_prompts article)
           (firstn (N.to_nat 25000) text).

(** The summary lines 159-160 go on with: the service's answer when it
    returns a non-empty text. *)
Definition usable_summary (L : Libraries) (text : str) : option str :=
  match chat_completions_create L (py "gpt-4o-mini") (system_prompts article)
          (firstn (N.to_nat 25000) text) with
  | Ok (Some s) => if truthy s then Some s else None
  | _ => None
  end.

(** The URLs of the GET requests among some calls, in order. *)
Definition gets (cs : list call) : list str :=
  flat_map (fun c => match c with CallGet u => [u] | _ => [] end) cs.

(** The files after the run on one URL whose fetch gave [title] and
    [text], from the files before. *)
Definition files_after (U : UnicodeData) (L : Libraries) (C : Config)
  (url : str) (title text : option str) (fs : list (str * str))
  : list (str * str) :=
  if too_short text then fs
  else
    let t := match text with Some t => t | None => [] end in
    let path := note_path U C url title in
    match lookup path fs, usable_summary L t with
    | None, Some s =>
        (path, note_content L url (note_title url title) s t) :: fs
    | _, _ => fs
    end.

(** ** Entries of the aggregated table *)

Definition BAR : N := 124.

(** A date or source note that fits in a cell: no bar, no line end. *)
Definition plain_field (s : str) : Prop :=
  ~ In BAR s /\ ~ In NL s /\ ~ In CR s.

(** A URL as the extractor's pattern finds them, "http" first and no
    whitespace in it, that has no bar in it either. *)
Definition tidy_url (url : str) : Prop :=
  startswith url (py "http") = true
  /\ Forall (fun c => isspace c = false) url
  /\ ~ In BAR url.

Definition tidy_entry (e : entry) : Prop :=
  plain_field (fst (fst e)) /\ plain_field (snd (fst e)) /\ tidy_url (snd e).

(** The row of an entry as a line of the file, without its newline. *)
Definition row_line (e : entry) : str :=
  let '(date, source, url) := e in
  py "| " ++ date ++ py " | " ++ source ++ py " | " ++ url ++ py " |".

(** ** File names *)

Definition SLASH : N := 47.

(** The character database puts no whitespace among the alphanumeric
    characters (as Unicode does). *)
Definition alnum_not_space (U : UnicodeData) : Prop :=
  forall c, uc_isalnum U c = true -> isspace c = false.

(** ** The digest and the review *)

(** The note behind a file name of the articles directory: the name ends
    in ".md", the file is there and its text loads. *)
Definition article_note (C : Config) (D : Desk) (fs : list (str * str))
  (filename : str) : option Post :=
  if endswith filename (py ".md") then
    match lookup (os_path_join (ARTICLES_DIR C) filename) fs with
    | Some text =>
        match frontmatter_loads D text with
        | Ok post => Some post
        | Raise => None
        end
    | None => None
    end
  else None.

Definition today_str (D : Desk) : str := strftime D (py "%Y-%m-%d") (today D).

(** The notes of the listing dated today, in the order listed. *)
Definition todays_notes (C : Config) (D : Desk) (fs : list (str * str))
  : list Post :=
  flat_map (fun filename =>
              match article_note C D fs filename with
              | Some post =>
                  if eqb (post_date_str post) (today_str D)
                  then [post] else []
              | None => []
              end)
           (if articles_dir_exists D then listdir D else []).

(** What a note adds to the digest's input. *)
Definition digest_section (post : Post) : str :=
  [NL; NL] ++ py "Source: " ++ post_url_str post ++ [NL]
  ++ firstn 2000 (post_content post).

Definition digest_input (C : Config) (D : Desk) (fs : list (str * str))
  : str :=
  concat (map digest_section (todays_notes C D fs)).

Definition daily_note_path (D : Desk) : str :=
  os_path_join (NOTES_DIR D) (today_str D ++ py ".md").

Definition digest_heading : str :=
  [NL; NL] ++ py "# " ++ [129504] ++ py " AI Daily Digest" ++ [NL].

(** The day of a note lies in the week under review: from seven days
    before today up to today, both included. *)
Definition in_week (D : Desk) (post : Post) : bool :=
  match post_date_day post with
  | Ok d => ((today D - 7 <=? d) && (d <=? today D))%Z
  | Raise => false
  end.

(** The notes of the listing that fall in the week, with their file
    names, in the order listed. *)
Definition weeks_notes (C : Config) (D : Desk) (fs : list (str * str))
  : list (str * Post) :=
  flat_map (fun filename =>
              match article_note C D fs filename with
              | Some post => if in_week D post then [(filename, post)] else []
              | None => []
              end)
           (if articles_dir_exists D then listdir D else []).

Definition review_section (entry : str * Post) : str :=
  [NL; NL] ++ py "Title: " ++ fst entry ++ [NL] ++ py "Summary: "
  ++ firstn 1500 (post_content (snd entry)).

Definition review_input (C : Config) (D : Desk) (fs : list (str * str))
  : str :=
  concat (map review_section (weeks_notes C D fs)).

Definition review_path (D : Desk) : str :=
  os_path_join (NOTES_DIR D)
    (py "Week-Review-" ++ strftime D (py "%Y%m%d") (today D - 7)%Z
     ++ py "-" ++ strftime D (py "%Y%m%d") (today D) ++ py ".md").

(** ** Normalised text *)

(** A line as the normalisation leaves them: not empty, no whitespace at
    either end, no two spaces in a row, no line boundary inside. *)
Definition tidy_line (s : str) : Prop :=
  s <> []
  /\ strip s = s
  /\ contains (py "  ") s = false
  /\ Forall (fun c => is_linebreak c = false) s.

(** ** Runs of fetch_mode *)

(** What a fetch of the URL returns (it is the same in every world). *)
Definition fetched_at (U : UnicodeData) (L : Libraries) (url : str)
  : FetchResult :=
  match fst (fetch_smart_content U L url {| files := []; calls := [] |}) with
  | Ok r => r
  | Raise => sentinel
  end.

(** The URL is done with, as far as the files go: its text is too short,
    or its note is there, or no summary is to be had. *)
Definition settled (U : UnicodeData) (L : Libraries) (C : Config)
  (url : str) (fs : list (str * str)) : bool :=
  let '(title, text) := fetched_at U L url in
  too_short text
  || match lookup (note_path U C url title) fs with
     | Some _ => true
     | None => false
     end
  || match usable_summary L (match text with Some t => t | None => [] end)
     with
     | Some _ => false
     | None => true
     end.

(** The world after successive runs of fetch_mode, one for each entry of
    [Ls]: the libraries as they answer during that run (the network, the
    summarisation service and the date may differ from run to run). *)
Fixpoint runs (U : UnicodeData) (C : Config) (Ls : list Libraries)
  (w : World) : World :=
  match Ls with
  | [] => w
  | L :: rest => runs U C rest (snd (fetch_mode U L C w))
  end.

(** ** Tags of a document *)

(** The names of the tags of an element, at every depth. *)
Fixpoint tag_names (n : node) : list str :=
  match n with
  | Str _ _ => []
  | Tag name cs => name :: flat_map tag_names cs
  end.

End Spec.

(** * Concrete libraries and inputs *)

Module Examples.

(** A character database that knows no alphanumeric character outside
    ASCII and lower-cases none. *)
Definition ascii_only : UnicodeData :=
  {| uc_isalnum := fun _ => false; uc_lower := fun _ c _ => [c] |}.

Definition html_response (body : bytes) : Response :=
  {| status_code := 200;
     headers_content_type := Some (py "text/html");
     content := body |}.

Definition query_url : str := py "https://example.com/doc.pdf?download=1".

(** "a", two spaces, a tab, "b", a space, a tab, "c". *)
Definition tabbed_text : str :=
  py "a  " ++ [9] ++ py "b " ++ [9] ++ py "c".

Definition no_reader : bytes -> outcome Reader := fun _ => Raise.
Definition no_article : str -> bytes -> outcome Article := fun _ _ => Raise.
Definition no_soup : bytes -> outcome soup := fun _ => Raise.

(** Libraries whose GET and status check succeed, with the given response
    and parsers. *)
Definition serving (response : Response)
  (reader : bytes -> outcome Reader)
  (art : str -> bytes -> outcome Article)
  (parser : bytes -> outcome soup) : Libraries :=
  {| requests_get := fun _ => Ok response;
     raise_for_status := fun _ => Ok tt;
     PdfReader := reader;
     Article_parse := art;
     BeautifulSoup := parser;
     chat_completions_create := fun _ _ _ => Ok (Some (py "A summary."));
     date_today := py "2024-01-01" |}.

(** Libraries whose GET raises. *)
Definition unreachable : Libraries :=
  {| requests_get := fun _ => Raise;
     raise_for_status := fun _ => Ok tt;
     PdfReader := no_reader;
     Article_parse := no_article;
     BeautifulSoup := no_soup;
     chat_completions_create := fun _ _ _ => Raise;
     date_today := py "2024-01-01" |}.

Definition empty_world : World := {| files := []; calls := [] |}.

Definition page_url : str := py "http://example.com/".

(** An article of 301 characters. *)
Definition long_article : Article :=
  {| article_title := py "Headline"; article_text := repeat 97 301 |}.

(** A page the primary extractor accepts. *)
Definition article_site : Libraries :=
  serving (html_response []) no_reader (fun _ _ => Ok long_article) no_soup.

(** A page without any text, which the primary extractor gives up on. *)
Definition blank_site : Libraries :=
  serving (html_response []) no_reader no_article (fun _ => Ok []).

(** A page neither extractor can read. *)
Definition garbled_site : Libraries :=
  serving (html_response []) no_reader no_article no_soup.

Definition pdf_url : str := py "https://example.com/doc.pdf".

(** One page with the text "Hello", no document information. *)
Definition hello_reader : Reader :=
  {| pages := [Ok (py "Hello")]; metadata := None |}.

Definition hello_site : Libraries :=
  serving {| status_code := 200;
             headers_content_type := Some (py "application/pdf");
             content := [] |}
          (fun _ => Ok hello_reader) no_article no_soup.

Definition nav_page_html : bytes :=
  list_byte_of_string
    "<html><title>T</title><body><nav>X</nav><p>Real content here.</p></body></html>".

(** The document html.parser builds from [nav_page_html]. *)
Definition nav_page : soup :=
  [Tag (py "html")
     [Tag (py "title") [Str true (py "T")];
      Tag (py "body")
        [Tag (py "nav") [Str true (py "X")];
         Tag (py "p") [Str true (py "Real content here.")]]]].

(** The same page with another navigation bar. *)
Definition nav_page' : soup :=
  [Tag (py "html")
     [Tag (py "title") [Str true (py "T")];
      Tag (py "body")
        [Tag (py "nav") [Tag (py "a") [Str true (py "Home")]];
         Tag (py "p") [Str true (py "Real content here.")]]]].

(** The page served, with a primary extractor that raises. *)
Definition nav_site : Libraries :=
  serving (html_response nav_page_html) no_reader no_article
          (fun _ => Ok nav_page).

Definition vault : Config :=
  {| AGGREGATED_FILE := py "/vault/_notes/_aggregated-urls.md";
     ARTICLES_DIR := py "/vault/_notes/_articles" |}.

(** A URL whose last segment is the words "PDF Document". *)
Definition spaced_url : str := py "http://example.com/PDF Document".

(** A URL whose query has a '/' in it; its path is "/doc.pdf". *)
Definition slashed_query_url : str := py "https://example.com/doc.pdf?src=a/b".

(** One page of 120 characters, no document information. *)
Definition untitled_reader : Reader :=
  {| pages := [Ok (repeat 97 120)]; metadata := None |}.

Definition untitled_pdf_site : Libraries :=
  serving {| status_code := 200;
             headers_content_type := Some (py "application/pdf");
             content := [] |}
          (fun _ => Ok untitled_reader) no_article no_soup.

(** A page whose text has 50 characters. *)
Definition short_page : soup := [Tag (py "p") [Str true (repeat 97 50)]].

Definition short_site : Libraries :=
  serving (html_response []) no_reader no_article (fun _ => Ok short_page).

Definition headline_path : str := py "/vault/_notes/_articles/Headline.md".

(** A vault in which the note "Headline" exists. *)
Definition noted_world : World :=
  {| files := [(headline_path, py "An older note.")]; calls := [] |}.

(** [article_site] with a summarisation service that raises. *)
Definition mute_article_site : Libraries :=
  {| requests_get := requests_get article_site;
     raise_for_status := raise_for_status article_site;
     PdfReader := PdfReader article_site;
     Article_parse := Article_parse article_site;
     BeautifulSoup := BeautifulSoup article_site;
     chat_completions_create := fun _ _ _ => Raise;
     date_today := date_today article_site |}.

Definition page_entry : entry :=
  (py "2024-01-02", py "[[2024-01-02]]", page_url).

(** A vault whose aggregated file is the table of one entry. *)
Definition table_world : World :=
  {| files := [(AGGREGATED_FILE vault, write_table [page_entry])];
     calls := [] |}.

(** The second of January 2024, as a day number. *)
Definition jan_2 : Z := 738887.

Definition todays_post : Post :=
  {| post_date_str := py "2024-01-02";
     post_date_day := Ok jan_2;
     post_url_str := page_url;
     post_content := py "A summary." |}.

(** A desk on that day: the articles directory lists one note and one
    other file, and every note's text loads as [todays_post]. *)
Definition desk : Desk :=
  {| NOTES_DIR := py "/vault/_notes";
     today := jan_2;
     strftime := fun format day =>
       if eqb format (py "%Y-%m-%d") then py "2024-01-02"
       else if (day =? jan_2)%Z then py "20240102" else py "20231226";
     articles_dir_exists := true;
     listdir := [py "Headline.md"; py "cover.png"];
     frontmatter_loads := fun _ => Ok todays_post |}.

(** The same desk with an articles directory that lists nothing. *)
Definition bare_desk : Desk :=
  {| NOTES_DIR := NOTES_DIR desk;
     today := today desk;
     strftime := strftime desk;
     articles_dir_exists := true;
     listdir := [];
     frontmatter_loads := frontmatter_loads desk |}.

End Examples.

(** * Properties *)

(** ** The builtins on small inputs *)

Example split_two_spaces_example :
  split (py "a    b  c   d") (py "  ")
  = [py "a"; []; py "b"; py "c"; py " d"].
Proof. reflexivity. Qed.

Example split_slash_example :
  split (py "http://a/b/c.pdf") (py "/")
  = [py "http:"; []; py "a"; py "b"; py "c.pdf"].
Proof. reflexivity. Qed.

Example splitlines_example :
  splitlines (py "a" ++ [NL; NL] ++ py "b" ++ [CR; NL] ++ py "c" ++ [NL])
  = [py "a"; []; py "b"; py "c"].
Proof. reflexivity. Qed.

Example strip_example : strip ([9] ++ py "  a b " ++ [160; NL]) = py "a b".
Proof. reflexivity. Qed.

Example replace_example :
  replace (py "a.pdf.b.pdf") (py ".pdf") [] = py "a.b".
Proof. reflexivity. Qed.

Example join_example :
  join [NL] [py "a"; py "b"; py "c"] = py "a" ++ [NL] ++ py "b" ++ [NL] ++ py "c".
Proof. reflexivity. Qed.

Example lower_example :
  lower Examples.ascii_only (py "HTTP://Host/File.PDF")
  = py "http://host/file.pdf".
Proof. reflexivity. Qed.

Example url_name_example :
  url_name (py "https://example.com/files/report.final.pdf")
  = py "report.final".
Proof. reflexivity. Qed.

Example soup_title_example :
  soup_title Examples.nav_page = Some (py "T")
  /\ soup_title [Tag (py "title") []] = None
  /\ soup_title [Tag (py "p") [Str true (py "text")]]
     = Some (py "Web_Capture").
Proof. repeat split. Qed.

(** ** Strings *)

Lemma startswith_app (s sub : str) :
  startswith s sub = true <-> exists rest, s = sub ++ rest.
Proof.
  revert s. induction sub as [|a sub IH]; intros s; simpl.
  - split; [intros _; now exists s | reflexivity].
  - destruct s as [|b s]; simpl.
    + split; [discriminate | intros [rest H]; discriminate].
    + rewrite andb_true_iff, N.eqb_eq, IH. split.
      * intros [-> [rest ->]]. now exists rest.
      * intros [rest H]. injection H as -> ->. eauto.
Qed.

Lemma endswith_app (s sub : str) :
  endswith s sub = true <-> exists front, s = front ++ sub.
Proof.
  unfold endswith. rewrite startswith_app. split.
  - intros [rest H]. exists (rev rest).
    rewrite <- (rev_involutive s), H, rev_app_distr, rev_involutive.
    reflexivity.
  - intros [front ->]. exists (rev front). apply rev_app_distr.
Qed.

Lemma contains_app (sub s : str) :
  contains sub s = true <-> exists front back, s = front ++ sub ++ back.
Proof.
  induction s as [|c s IH]; cbn [contains].
  - rewrite orb_false_r, startswith_app. split.
    + intros [rest H]. now exists [], rest.
    + intros [front [back H]]. destruct front; simpl in H.
      * now exists back.
      * discriminate.
  - rewrite orb_true_iff, startswith_app, IH. split.
    + intros [[rest H] | [front [back H]]].
      * now exists [], rest.
      * exists (c :: front), back. now rewrite H.
    + intros [[|x front] [back H]]; simpl in H.
      * left. now exists back.
      * right. injection H as _ H. now exists front, back.
Qed.

Lemma replace_char (a b : N) (s : str) :
  replace s [a] [b] = map (fun c => if c =? a then b else c) s.
Proof.
  unfold replace. induction s as [|c s IH]; simpl; [reflexivity|].
  rewrite andb_true_r, (N.eqb_sym a c).
  destruct (c =? a); simpl; now rewrite IH.
Qed.

Lemma lstrip_incl (s : str) (c : N) : In c (lstrip s) -> In c s.
Proof.
  induction s as [|x s IH]; simpl; [tauto|].
  destruct (isspace x); simpl; intuition.
Qed.

Lemma rstrip_incl (s : str) (c : N) : In c (rstrip s) -> In c s.
Proof.
  unfold rstrip. intros H. apply in_rev in H. apply lstrip_incl in H.
  now apply in_rev.
Qed.

Lemma firstn_incl {A : Type} (n : nat) (l : list A) (x : A) :
  In x (firstn n l) -> In x l.
Proof.
  revert l. induction n as [|n IH]; intros [|y l]; simpl; try tauto.
  intros [H | H]; [now left | right; now apply IH].
Qed.

Lemma lstrip_snoc (s : str) (c : N) :
  lstrip (s ++ [c])
  = match lstrip s with
    | [] => if isspace c then [] else [c]
    | t => t ++ [c]
    end.
Proof.
  induction s as [|x s IH]; cbn [app lstrip].
  - now destruct (isspace c).
  - destruct (isspace x); [exact IH | reflexivity].
Qed.

(** [rstrip], which works on the reversed text, is the trimming read from
    the front. *)
Lemma rstrip_trim_trailing (s : str) : rstrip s = Spec.trim_trailing s.
Proof.
  unfold rstrip. induction s as [|c s IH]; [reflexivity|].
  cbn [rev Spec.trim_trailing]. rewrite lstrip_snoc, <- IH.
  destruct (lstrip (rev s)) as [|y t].
  - cbn [rev]. now destruct (isspace c).
  - rewrite rev_app_distr. cbn [rev app].
    destruct (rev t ++ [y]) as [|z u] eqn:E; [|reflexivity].
    symmetry in E. now apply app_cons_not_nil in E.
Qed.

(** What the trimming takes away is whitespace, all of it that stands at
    the end. *)
Lemma trim_trailing_spec (s : str) :
  exists blanks,
    s = Spec.trim_trailing s ++ blanks
    /\ Forall (fun c => isspace c = true) blanks
    /\ forall front c, Spec.trim_trailing s = front ++ [c] -> isspace c = false.
Proof.
  induction s as [|x s [blanks [E [Hb Hlast]]]].
  - exists []. repeat split; [constructor|]. intros [|y front] c H; discriminate.
  - cbn [Spec.trim_trailing].
    destruct (Spec.trim_trailing s) as [|y t].
    + cbn [app] in E. subst blanks. destruct (isspace x) eqn:Hx.
      * exists (x :: s). repeat split; [now constructor|].
        intros [|z front] c H; discriminate.
      * exists s. repeat split; [exact Hb|].
        intros [|z front] c H.
        -- injection H as <-. exact Hx.
        -- injection H as _ H. now destruct front.
    + exists blanks. split; [cbn [app]; now rewrite E|]. split; [exact Hb|].
      intros [|z front] c H; [discriminate|].
      injection H as _ H. exact (Hlast front c H).
Qed.

(** ** clean_filename *)

(** C9. [clean_filename] is the composition the specification describes:
    keep the alphanumeric characters, spaces, periods and underscores of
    the title, trim trailing whitespace, turn each space into an
    underscore, and keep the first 60 characters.  The trimming takes away
    exactly the whitespace the kept characters end in: what goes is
    whitespace only, and what stays does not end in whitespace.  The result
    is at most 60 characters long and consists of alphanumeric characters,
    periods and underscores only, with no space left; the title
    "A/B: Report?? 2024" gives "AB_Report_2024", and "Report 2024 / ",
    whose kept characters end in two spaces, gives "Report_2024". *)
Theorem clean_filename_spec (U : UnicodeData) (title : str) :
  clean_filename U title
  = firstn 60 (map Spec.space_to_underscore
                   (Spec.trim_trailing (Spec.retained U title)))
  /\ (exists blanks,
         Spec.retained U title
         = Spec.trim_trailing (Spec.retained U title) ++ blanks
         /\ Forall (fun c => isspace c = true) blanks
         /\ forall front c,
              Spec.trim_trailing (Spec.retained U title) = front ++ [c] ->
              isspace c = false)
  /\ (length (clean_filename U title) <= 60)%nat
  /\ Forall (fun c => Spec.allowed U c /\ c <> SPACE) (clean_filename U title)
  /\ clean_filename U (py "A/B: Report?? 2024") = py "AB_Report_2024"
  /\ clean_filename U (py "Report 2024 / ") = py "Report_2024".
Proof.
  assert (E : clean_filename U title
    = firstn 60 (map Spec.space_to_underscore
                     (Spec.trim_trailing (Spec.retained U title)))).
  { unfold clean_filename, Spec.retained. cbn zeta.
    change (py " ") with [SPACE]. change (py "_") with [95].
    rewrite replace_char, rstrip_trim_trailing. f_equal. f_equal. f_equal.
    apply filter_ext. intros c. unfold kept, keepcharacters. simpl.
    now rewrite orb_false_r, !orb_assoc. }
  split; [exact E|]. split; [apply trim_trailing_spec|].
  split; [|split; [|split]].
  - rewrite E. apply firstn_le_length.
  - rewrite E. apply Forall_forall. intros c Hc.
    apply firstn_incl in Hc. apply in_map_iff in Hc.
    destruct Hc as [d [Hd Hin]].
    rewrite <- rstrip_trim_trailing in Hin. apply rstrip_incl in Hin.
    apply filter_In in Hin. destruct Hin as [_ Hk].
    unfold Spec.space_to_underscore, Spec.allowed, SPACE in *.
    destruct (d =? 32) eqn:Hsp.
    + subst c. split; [auto | discriminate].
    + subst c. apply N.eqb_neq in Hsp. split; [|exact Hsp].
      rewrite !orb_true_iff, !N.eqb_eq in Hk. intuition discriminate.
  - vm_compute. reflexivity.
  - vm_compute. reflexivity.
Qed.

(** ** The content-type classifier *)

Lemma lower_from_ascii (U : UnicodeData) (s before : str) :
  Spec.all_ascii s -> lower_from U before s = map ascii_lower s.
Proof.
  intros H. revert before.
  induction H as [|c s Hc _ IH]; intros before; simpl; [reflexivity|].
  now rewrite Hc, IH.
Qed.

Lemma is_pdf_app (U : UnicodeData) (url content_type : str) :
  is_pdf U url content_type = true <->
  (exists front, lower U url = front ++ py ".pdf") \/
  (exists front back, content_type = front ++ py "application/pdf" ++ back).
Proof.
  unfold is_pdf. now rewrite orb_true_iff, endswith_app, contains_app.
Qed.

(** C5, as the code has it.  The classifier is a total function of the
    URL and the Content-Type header (an absent header counts as empty).
    The payload is a PDF exactly when the whole URL string, lower-cased,
    ends in ".pdf", or the lower-cased header contains "application/pdf",
    and HTML otherwise.  For an ASCII URL and header this says: the URL
    ends in four characters that are ".pdf" up to the case of the letters,
    or the header has a piece that is "application/pdf" up to case. *)
Theorem classify_spec (U : UnicodeData) (url : str) (response : Response) :
  let content_type := headers_get_content_type response in
  let suffix_or_header :=
    (exists front, lower U url = front ++ py ".pdf") \/
    (exists front back,
        lower U content_type = front ++ py "application/pdf" ++ back) in
  (classify U url response = PDF <-> suffix_or_header)
  /\ (classify U url response = HTML <-> ~ suffix_or_header)
  /\ (Spec.all_ascii url -> Spec.all_ascii content_type ->
      (classify U url response = PDF <->
       (exists front tail,
           url = front ++ tail /\ map ascii_lower tail = py ".pdf") \/
       (exists front piece back,
           content_type = front ++ piece ++ back
           /\ map ascii_lower piece = py "application/pdf"))).
Proof.
  cbv zeta.
  assert (E : classify U url response = PDF <->
    (exists front, lower U url = front ++ py ".pdf") \/
    (exists front back,
        lower U (headers_get_content_type response)
        = front ++ py "application/pdf" ++ back)).
  { unfold classify. cbv zeta. rewrite <- is_pdf_app.
    destruct (is_pdf U url _); split; congruence. }
  split; [exact E|]. split.
  - rewrite <- E. destruct (classify U url response); split; congruence.
  - intros Hu Hc. rewrite E. unfold lower.
    rewrite (lower_from_ascii U url [] Hu), (lower_from_ascii U _ [] Hc).
    split.
    + intros [[front H] | [front [back H]]].
      * left. apply map_eq_app in H.
        destruct H as [f [t [-> [_ Ht]]]]. now exists f, t.
      * right. apply map_eq_app in H.
        destruct H as [f [rest [-> [_ H]]]]. apply map_eq_app in H.
        destruct H as [p [b [-> [Hp _]]]]. now exists f, p, b.
    + intros [[front [tail [-> H]]] | [front [piece [back [-> H]]]]].
      * left. exists (map ascii_lower front). now rewrite map_app, H.
      * right. exists (map ascii_lower front), (map ascii_lower back).
        now rewrite !map_app, H.
Qed.

Lemma classify_spec_witness :
  Spec.all_ascii (py "http://example.com/Report.PDF")
  /\ Spec.all_ascii (py "text/html")
  /\ classify Examples.ascii_only (py "http://example.com/Report.PDF")
       (Examples.html_response []) = PDF.
Proof.
  assert (Hu : Spec.all_ascii (py "http://example.com/Report.PDF")).
  { unfold Spec.all_ascii. repeat constructor. }
  assert (Hc : Spec.all_ascii (py "text/html")).
  { unfold Spec.all_ascii. repeat constructor. }
  split; [exact Hu|]. split; [exact Hc|].
  apply (proj2 (proj2 (classify_spec Examples.ascii_only
                         (py "http://example.com/Report.PDF")
                         (Examples.html_response []))) Hu Hc).
  left. exists (py "http://example.com/Report"), (py ".PDF").
  split; reflexivity.
Defined.

(** C5, as the specification words it, fails: the URL below has the path
    "/doc.pdf", which ends in ".pdf", and a query after it; the code looks
    at the end of the whole URL and takes the payload for HTML. *)
Lemma classify_ignores_url_path :
  Spec.url_path Examples.query_url = py "/doc.pdf"
  /\ Spec.is_pdf_by_path Examples.ascii_only Examples.query_url
       (py "text/html") = true
  /\ classify Examples.ascii_only Examples.query_url
       (Examples.html_response []) = HTML.
Proof. repeat split; vm_compute; reflexivity. Qed.

(** ** Whitespace normalisation *)

Section Normalisation.

Let two_spaces : str := [SPACE; SPACE].

(** What survives of a list of fragments: trimmed, the empty ones gone. *)
Let kept_fragments (l : list str) : list str := filter truthy (map strip l).

Lemma split_from_not_nil (sep : str) (k : nat) (s : str) :
  split_from sep k s <> [].
Proof.
  revert k. induction s as [|c s IH]; intros k; simpl; [discriminate|].
  destruct k; [|apply IH].
  destruct (startswith (c :: s) sep); [discriminate|].
  destruct (split_from sep 0 s); discriminate.
Qed.

Lemma split_two_spaces (r : str) :
  split (SPACE :: SPACE :: r) two_spaces = [] :: split r two_spaces.
Proof. reflexivity. Qed.

Lemma split_no_separator (c : N) (r : str) :
  Spec.is_space c && match r with [] => false | d :: _ => Spec.is_space d end
  = false ->
  split (c :: r) two_spaces = cons_head c (split r two_spaces).
Proof.
  unfold split, two_spaces, Spec.is_space. intros H.
  cbn [split_from]. cbn [startswith].
  rewrite (N.eqb_sym SPACE c).
  destruct r as [|d r].
  - rewrite andb_false_r. reflexivity.
  - rewrite (N.eqb_sym SPACE d), andb_true_r, H. reflexivity.
Qed.

Lemma strip_leading_space (x : str) : strip (SPACE :: x) = strip x.
Proof. reflexivity. Qed.

Lemma kept_cons_head_space (l : list str) :
  l <> [] -> kept_fragments (cons_head SPACE l) = kept_fragments l.
Proof.
  destruct l as [|x l]; [congruence|]. intros _.
  unfold kept_fragments. cbn [cons_head map].
  now rewrite strip_leading_space.
Qed.

Lemma kept_cons_head (c : N) (x : str) (l1 l2 : list str) :
  kept_fragments l1 = kept_fragments l2 ->
  kept_fragments (cons_head c (x :: l1)) = kept_fragments (cons_head c (x :: l2)).
Proof.
  unfold kept_fragments. cbn [cons_head map filter]. intros ->. reflexivity.
Qed.

(** A space in front of the text changes nothing that survives. *)
Lemma kept_split_leading_space (s : str) :
  kept_fragments (split (SPACE :: s) two_spaces)
  = kept_fragments (split s two_spaces).
Proof.
  induction s as [|c s IH].
  - reflexivity.
  - destruct (Spec.is_space c) eqn:Hc.
    + apply N.eqb_eq in Hc. subst c.
      rewrite split_two_spaces. rewrite IH. reflexivity.
    + rewrite (split_no_separator SPACE (c :: s)).
      * apply kept_cons_head_space. apply split_from_not_nil.
      * now rewrite Hc, andb_false_r.
Qed.

(** The two ways of splitting agree on the first fragment and, after that,
    on what survives; within a run of spaces they agree on what survives. *)
Lemma split_runs_agree (s : str) :
  (exists x l1 l2,
      split s two_spaces = x :: l1
      /\ Spec.split_runs_from Spec.is_space false s = x :: l2
      /\ kept_fragments l1 = kept_fragments l2)
  /\ kept_fragments (split s two_spaces)
     = kept_fragments (Spec.split_runs_from Spec.is_space true s).
Proof.
  induction s as [|c s [[x [l1 [l2 [H1 [H2 H]]]]] IHrun]].
  - split; [|reflexivity]. now exists [], [], [].
  - split.
    + cbn [Spec.split_runs_from].
      destruct (Spec.is_space c
                && match s with [] => false | d :: _ => Spec.is_space d end)
        eqn:Hsep.
      * apply andb_true_iff in Hsep. destruct Hsep as [Hc Hd].
        destruct s as [|d s]; [discriminate|].
        apply N.eqb_eq in Hc, Hd. subst c d.
        rewrite split_two_spaces.
        exists [], (split s two_spaces),
               (Spec.split_runs_from Spec.is_space true (SPACE :: s)).
        repeat split.
        rewrite <- IHrun. symmetry. apply kept_split_leading_space.
      * rewrite (split_no_separator c s Hsep), H1, H2.
        exists (c :: x), l1, l2. repeat split. exact H.
    + cbn [Spec.split_runs_from]. destruct (Spec.is_space c) eqn:Hc.
      * apply N.eqb_eq in Hc. subst c.
        rewrite kept_split_leading_space. exact IHrun.
      * rewrite (split_no_separator c s) by now rewrite Hc.
        rewrite H1, H2. now apply kept_cons_head.
Qed.

Lemma kept_split_runs (line : str) :
  filter truthy (map strip (split line (py "  ")))
  = filter truthy (map strip (Spec.split_runs Spec.is_space line)).
Proof.
  destruct (split_runs_agree line) as [[x [l1 [l2 [H1 [H2 H]]]]] _].
  change (py "  ") with two_spaces. unfold Spec.split_runs.
  rewrite H1, H2. cbn [map filter]. unfold kept_fragments in H.
  now rewrite H.
Qed.

End Normalisation.

Lemma filter_flat_map {A B : Type} (p : B -> bool) (f : A -> list B)
  (l : list A) :
  filter p (flat_map f l) = flat_map (fun x => filter p (f x)) l.
Proof.
  induction l as [|x l IH]; simpl; [reflexivity|].
  now rewrite filter_app, IH.
Qed.

(** C7, as the code has it.  The fallback extractor's normalisation
    splits the text into lines, trims each line, splits each trimmed line
    on runs of two or more spaces, trims each fragment, drops the empty
    fragments and joins the rest with single newlines. *)
Theorem normalize_spec (text : str) :
  normalize text = Spec.normalize_trimmed text.
Proof.
  unfold normalize, Spec.normalize_trimmed. cbv zeta. f_equal.
  rewrite !filter_flat_map. apply flat_map_ext. intros line.
  apply kept_split_runs.
Qed.

(** C7, as the specification words it, fails: it leaves out that each
    fragment is trimmed.  On the text below the code gives "a", "b <tab>c"
    where the wording gives "a", "<tab>b <tab>c" (two or more spaces) or
    "a", "b", "c" (two or more whitespace characters). *)
Lemma normalize_trims_fragments :
  normalize Examples.tabbed_text
  = py "a" ++ [NL] ++ py "b " ++ [9] ++ py "c"
  /\ normalize Examples.tabbed_text
     <> Spec.normalize_by_runs Spec.is_space Examples.tabbed_text
  /\ normalize Examples.tabbed_text
     <> Spec.normalize_by_runs isspace Examples.tabbed_text.
Proof. repeat split; vm_compute; congruence. Qed.

(** ** The fetch orchestrator *)

Ltac run :=
  unfold fetch_smart_content, pdf_extract, primary_extract,
    fallback_extract, try_except, bind, invoke, lift, ret.

Section Fetch.

Variable U : UnicodeData.
Variable L : Libraries.

Lemma extract_pages_ok (texts : list str) (text : str) (w : World) :
  extract_pages (map Ok texts) text w
  = (Ok (text ++ Spec.pages_text texts), w).
Proof.
  revert text. induction texts as [|t texts IH]; intros text.
  - simpl. unfold ret, Spec.pages_text. simpl. now rewrite app_nil_r.
  - simpl. unfold bind, lift. rewrite IH. unfold Spec.pages_text. simpl.
    now rewrite <- !app_assoc.
Qed.

Lemma extract_pages_raise (ps : list (outcome str)) (text : str) (w : World) :
  In Raise ps -> extract_pages ps text w = (Raise, w).
Proof.
  revert text. induction ps as [|p ps IH]; intros text H; [destruct H|].
  simpl. unfold bind, lift. destruct p as [t|]; [|reflexivity].
  destruct H as [H | H]; [discriminate|]. now apply IH.
Qed.

Lemma pages_cases (ps : list (outcome str)) :
  (exists texts, ps = map Ok texts) \/ In Raise ps.
Proof.
  induction ps as [|p ps [[texts ->] | H]].
  - left. now exists [].
  - destruct p as [t|].
    + left. now exists (t :: texts).
    + right. now left.
  - right. now right.
Qed.

Lemma fetch_get_raises (url : str) (w : World) :
  requests_get L url = Raise ->
  fetch_smart_content U L url w = (Ok sentinel, log (CallGet url) w).
Proof. intros H. run. now rewrite H. Qed.

Lemma fetch_status_raises (url : str) (w : World) (response : Response) :
  requests_get L url = Ok response ->
  raise_for_status L response = Raise ->
  fetch_smart_content U L url w = (Ok sentinel, log (CallGet url) w).
Proof. intros H1 H2. run. now rewrite H1, H2. Qed.

Section Fetched.

Variables (url : str) (w : World) (response : Response).
Hypothesis Hget : requests_get L url = Ok response.
Hypothesis Hstatus : raise_for_status L response = Ok tt.

Let w_get : World := log (CallGet url) w.
Let w_pdf : World := log (CallPdfReader (content response)) w_get.
Let w_article : World := log (CallArticle url (content response)) w_get.
Let w_soup : World := log (CallBeautifulSoup (content response)) w_article.

Lemma fetch_pdf_reader_raises :
  classify U url response = PDF ->
  PdfReader L (content response) = Raise ->
  fetch_smart_content U L url w = (Ok sentinel, w_pdf).
Proof. intros Hk H. run. now rewrite Hget, Hstatus, Hk, H. Qed.

Lemma fetch_pdf_page_raises (reader : Reader) :
  classify U url response = PDF ->
  PdfReader L (content response) = Ok reader ->
  In Raise (pages reader) ->
  fetch_smart_content U L url w = (Ok sentinel, w_pdf).
Proof.
  intros Hk H Hp. run. rewrite Hget, Hstatus, Hk, H.
  now rewrite (extract_pages_raise _ _ _ Hp).
Qed.

Lemma fetch_pdf_parsed (reader : Reader) (texts : list str) :
  classify U url response = PDF ->
  PdfReader L (content response) = Ok reader ->
  pages reader = map Ok texts ->
  fetch_smart_content U L url w
  = (Ok (Some (pdf_title reader), Some (Spec.pages_text texts)), w_pdf).
Proof.
  intros Hk H Hp. run. rewrite Hget, Hstatus, Hk, H, Hp.
  now rewrite extract_pages_ok.
Qed.

Lemma fetch_pdf_world :
  classify U url response = PDF ->
  snd (fetch_smart_content U L url w) = w_pdf.
Proof.
  intros Hk.
  destruct (PdfReader L (content response)) as [reader|] eqn:Hr.
  - destruct (pages_cases (pages reader)) as [[texts Hp] | Hp].
    + now rewrite (fetch_pdf_parsed reader texts Hk Hr Hp).
    + now rewrite (fetch_pdf_page_raises reader Hk Hr Hp).
  - now rewrite (fetch_pdf_reader_raises Hk Hr).
Qed.

Lemma fetch_primary_accepted (a : Article) :
  classify U url response = HTML ->
  Article_parse L url (content response) = Ok a ->
  (300 < length (article_text a))%nat ->
  fetch_smart_content U L url w
  = (Ok (Some (article_title a), Some (article_text a)), w_article).
Proof.
  intros Hk H Hlen. run. rewrite Hget, Hstatus, Hk, H.
  apply Nat.ltb_lt in Hlen. unfold PRIMARY_MIN_LENGTH. now rewrite Hlen.
Qed.

Lemma fetch_primary_rejected :
  classify U url response = HTML ->
  Spec.primary_rejected L url response ->
  fetch_smart_content U L url w
  = (Ok (match BeautifulSoup L (content response) with
         | Ok doc => scrape doc
         | Raise => sentinel
         end), w_soup).
Proof.
  intros Hk [H | [a [H Hlen]]]; run; rewrite Hget, Hstatus, Hk, H.
  - now destruct (BeautifulSoup L (content response)).
  - apply Nat.ltb_ge in Hlen. unfold PRIMARY_MIN_LENGTH. rewrite Hlen.
    now destruct (BeautifulSoup L (content response)).
Qed.

Lemma primary_cases :
  (exists a, Article_parse L url (content response) = Ok a
             /\ (300 < length (article_text a))%nat)
  \/ Spec.primary_rejected L url response.
Proof.
  unfold Spec.primary_rejected.
  destruct (Article_parse L url (content response)) as [a|]; [|now right; left].
  destruct (Nat.le_gt_cases (length (article_text a)) 300).
  - right. right. now exists a.
  - left. now exists a.
Qed.

End Fetched.

Lemma transport_cases (url : str) :
  Spec.transport_fails L url \/ exists r, Spec.fetched L url r.
Proof.
  unfold Spec.transport_fails, Spec.fetched.
  destruct (requests_get L url) as [r|]; [|now left; left].
  destruct (raise_for_status L r) as [[]|] eqn:H.
  - right. now exists r.
  - left. right. now exists r.
Qed.

End Fetch.

Lemma raise_not_among_ok {A : Type} (l : list A) : ~ In Raise (map Ok l).
Proof.
  induction l as [|x l IH]; simpl; [tauto|].
  intros [H | H]; [discriminate | tauto].
Qed.

(** Two readings of the same library call agree. *)
Ltac agree :=
  repeat match goal with
    | H1 : ?f = Ok ?a, H2 : ?f = Ok ?b |- _ =>
        first [ is_var a; assert (a = b) by congruence; subst a
              | is_var b; assert (b = a) by congruence; subst b ];
        clear H2
    end.

Ltac refute_failure :=
  let H := fresh "H" in
  intros H;
  unfold Spec.transport_fails, Spec.pdf_fails, Spec.fallback_fails,
    Spec.pdf_unparseable, Spec.primary_rejected, Spec.fetched in H;
  repeat match type of H with
    | _ \/ _ => destruct H as [H | H]
    | exists _, _ => let x := fresh "x" in destruct H as [x H]
    | _ /\ _ => let H' := fresh "H" in destruct H as [H' H]
    end;
  repeat match goal with
    | H1 : _ \/ _ |- _ => destruct H1 as [H1 | H1]
    | H1 : exists _, _ |- _ => let x := fresh "x" in destruct H1 as [x H1]
    | H1 : _ /\ _ |- _ => let H' := fresh "H" in destruct H1 as [H' H1]
    end;
  agree;
  try congruence;
  try lia;
  try match goal with
    | Hin : In Raise (pages ?r), Hp : pages ?r = map Ok _ |- _ =>
        rewrite Hp in Hin; exact (raise_not_among_ok _ Hin)
    end.

(** Every way a fetch can end: by one of three failures with the sentinel,
    or with a text while none of the failures occurred. *)
Lemma fetch_outcomes (U : UnicodeData) (L : Libraries) (url : str)
  (w : World) :
  (fst (fetch_smart_content U L url w) = Ok sentinel
   /\ (Spec.transport_fails L url \/ Spec.pdf_fails U L url
       \/ Spec.fallback_fails U L url))
  \/ (exists title text,
        fst (fetch_smart_content U L url w) = Ok (title, Some text)
        /\ ~ Spec.transport_fails L url
        /\ ~ Spec.pdf_fails U L url
        /\ ~ Spec.fallback_fails U L url).
Proof.
  destruct (transport_cases L url) as [Ht | [r [Hget Hstatus]]].
  - left. split; [|now left].
    destruct Ht as [H | [r [H1 H2]]].
    + now rewrite (fetch_get_raises U L url w H).
    + now rewrite (fetch_status_raises U L url w r H1 H2).
  - destruct (classify U url r) eqn:Hk.
    + destruct (PdfReader L (content r)) as [reader|] eqn:Hr.
      * destruct (pages_cases (pages reader)) as [[texts Hp] | Hp].
        -- right. exists (Some (pdf_title reader)), (Spec.pages_text texts).
           rewrite (fetch_pdf_parsed U L url w r Hget Hstatus reader texts
                      Hk Hr Hp).
           repeat split; refute_failure.
        -- left.
           rewrite (fetch_pdf_page_raises U L url w r Hget Hstatus reader
                      Hk Hr Hp).
           split; [reflexivity|]. right; left. exists r.
           repeat split; try assumption. right. now exists reader.
      * left.
        rewrite (fetch_pdf_reader_raises U L url w r Hget Hstatus Hk Hr).
        split; [reflexivity|]. right; left. exists r.
        repeat split; try assumption. now left.
    + destruct (primary_cases L url r) as [[a [Ha Hlen]] | Hrej].
      * right. exists (Some (article_title a)), (article_text a).
        rewrite (fetch_primary_accepted U L url w r Hget Hstatus a
                   Hk Ha Hlen).
        repeat split; refute_failure.
      * rewrite (fetch_primary_rejected U L url w r Hget Hstatus Hk Hrej).
        destruct (BeautifulSoup L (content r)) as [doc|] eqn:Hs.
        -- right. exists (fst (scrape doc)), (normalize
             (get_text (extract_all killed doc))).
           repeat split; refute_failure.
        -- left. split; [reflexivity|]. right; right. exists r.
           repeat split; assumption.
Qed.

(** C1, as the code has it.  On an HTML payload, when the primary
    extractor returns an article whose text is longer than 300 characters,
    that article's title and text are the result and the only library
    calls made are the GET and the primary extractor: the fallback parser
    is not called.  When the primary extractor raises or its text has 300
    characters or fewer, the fallback parser is called: when it returns a
    document, both fields of the result are the fallback's; when it
    raises, the result is the sentinel (None, None).  One of the two cases
    always applies. *)
Theorem primary_then_fallback (U : UnicodeData) (L : Libraries) (url : str)
  (w : World) (response : Response) :
  requests_get L url = Ok response ->
  raise_for_status L response = Ok tt ->
  classify U url response = HTML ->
  (forall a,
      Article_parse L url (content response) = Ok a ->
      (300 < length (article_text a))%nat ->
      fetch_smart_content U L url w
      = (Ok (Some (article_title a), Some (article_text a)),
         log (CallArticle url (content response)) (log (CallGet url) w)))
  /\ (Spec.primary_rejected L url response ->
      fetch_smart_content U L url w
      = (Ok (match BeautifulSoup L (content response) with
             | Ok doc => scrape doc
             | Raise => sentinel
             end),
         log (CallBeautifulSoup (content response))
           (log (CallArticle url (content response))
              (log (CallGet url) w))))
  /\ ((exists a, Article_parse L url (content response) = Ok a
                 /\ (300 < length (article_text a))%nat)
      \/ Spec.primary_rejected L url response).
Proof.
  intros Hget Hstatus Hk. split; [|split].
  - intros a Ha Hlen. now apply fetch_primary_accepted.
  - intros Hrej. now apply fetch_primary_rejected.
  - apply primary_cases.
Qed.

Lemma primary_then_fallback_witness :
  fetch_smart_content Examples.ascii_only Examples.article_site
    Examples.page_url Examples.empty_world
  = (Ok (Some (py "Headline"), Some (repeat 97 301)),
     log (CallArticle Examples.page_url [])
       (log (CallGet Examples.page_url) Examples.empty_world))
  /\ fetch_smart_content Examples.ascii_only Examples.blank_site
       Examples.page_url Examples.empty_world
     = (Ok (scrape []),
        log (CallBeautifulSoup [])
          (log (CallArticle Examples.page_url [])
             (log (CallGet Examples.page_url) Examples.empty_world)))
  /\ fetch_smart_content Examples.ascii_only Examples.garbled_site
       Examples.page_url Examples.empty_world
     = (Ok sentinel,
        log (CallBeautifulSoup [])
          (log (CallArticle Examples.page_url [])
             (log (CallGet Examples.page_url) Examples.empty_world))).
Proof.
  split; [|split].
  - apply (proj1 (primary_then_fallback Examples.ascii_only
                    Examples.article_site Examples.page_url
                    Examples.empty_world (Examples.html_response [])
                    eq_refl eq_refl eq_refl) Examples.long_article).
    + reflexivity.
    + vm_compute. repeat constructor.
  - apply (proj1 (proj2 (primary_then_fallback Examples.ascii_only
                    Examples.blank_site Examples.page_url
                    Examples.empty_world (Examples.html_response [])
                    eq_refl eq_refl eq_refl))).
    left. reflexivity.
  - apply (proj1 (proj2 (primary_then_fallback Examples.ascii_only
                    Examples.garbled_site Examples.page_url
                    Examples.empty_world (Examples.html_response [])
                    eq_refl eq_refl eq_refl))).
    left. reflexivity.
Defined.

(** C1, as the specification words it, fails: the page below is served and
    is HTML, the primary extractor raises on it, and so does the fallback
    parser; the fetch returns (None, None), which is the title and text of
    no fallback extraction, since those always have a text. *)
Lemma fallback_result_missing :
  Spec.fetched Examples.garbled_site Examples.page_url
    (Examples.html_response [])
  /\ classify Examples.ascii_only Examples.page_url
       (Examples.html_response []) = HTML
  /\ Spec.primary_rejected Examples.garbled_site Examples.page_url
       (Examples.html_response [])
  /\ fst (fetch_smart_content Examples.ascii_only Examples.garbled_site
            Examples.page_url Examples.empty_world) = Ok (None, None)
  /\ forall doc, scrape doc <> (None, None).
Proof.
  split; [split; reflexivity|]. split; [reflexivity|].
  split; [left; reflexivity|]. split; [reflexivity|].
  intros doc. unfold scrape. discriminate.
Qed.

(** C2, as the code has it.  A fetch returns either the sentinel
    (None, None) or a result whose text is present; the text is never
    absent beside a present title.  (The text may be empty.) *)
Theorem fetch_result_shape (U : UnicodeData) (L : Libraries) (url : str)
  (w : World) :
  exists r,
    fst (fetch_smart_content U L url w) = Ok r
    /\ (r = sentinel \/ exists text, snd r = Some text)
    /\ (snd r = None -> fst r = None).
Proof.
  destruct (fetch_outcomes U L url w) as [[H _] | [title [text [H _]]]].
  - exists sentinel. repeat split; auto.
  - exists (title, Some text). repeat split.
    + exact H.
    + right. now exists text.
    + discriminate.
Qed.

(** C2, as the specification words it, fails: a page without any text,
    which the primary extractor gives up on, is fetched as the placeholder
    title beside an empty text. *)
Lemma fetch_result_invariant_fails :
  fst (fetch_smart_content Examples.ascii_only Examples.blank_site
         Examples.page_url Examples.empty_world)
  = Ok (Some (py "Web_Capture"), Some [])
  /\ ~ Spec.FetchResult_invariant (Some (py "Web_Capture"), Some []).
Proof.
  split; [reflexivity|].
  intros [[title [text [H Hne]]] | H]; [|discriminate].
  injection H as _ <-. now apply Hne.
Qed.

(** C3, as the code has it.  A fetch never raises.  It returns the
    sentinel exactly when the GET fails, or the payload is a PDF that does
    not parse, or the payload is HTML, the primary extractor is rejected
    and the fallback parser raises.  When the GET to
    "http://bad-host-that-fails" raises, the result is the sentinel. *)
Theorem sentinel_spec (U : UnicodeData) (L : Libraries) (url : str)
  (w : World) :
  (exists r,
      fst (fetch_smart_content U L url w) = Ok r
      /\ (r = sentinel <->
          Spec.transport_fails L url \/ Spec.pdf_fails U L url
          \/ Spec.fallback_fails U L url))
  /\ (requests_get L (py "http://bad-host-that-fails") = Raise ->
      fst (fetch_smart_content U L (py "http://bad-host-that-fails") w)
      = Ok sentinel).
Proof.
  split.
  - destruct (fetch_outcomes U L url w)
      as [[H Hf] | [title [text [H [H1 [H2 H3]]]]]].
    + exists sentinel. split; [exact H|]. split; auto.
    + exists (title, Some text). split; [exact H|]. split.
      * discriminate.
      * tauto.
  - intros H. now rewrite (fetch_get_raises U L _ w H).
Qed.

Lemma sentinel_spec_witness :
  requests_get Examples.unreachable (py "http://bad-host-that-fails") = Raise
  /\ fst (fetch_smart_content Examples.ascii_only Examples.unreachable
            (py "http://bad-host-that-fails") Examples.empty_world)
     = Ok sentinel.
Proof.
  split; [reflexivity|].
  apply (proj2 (sentinel_spec Examples.ascii_only Examples.unreachable
                  (py "http://bad-host-that-fails") Examples.empty_world)).
  reflexivity.
Defined.

(** C3, as the specification words it, fails: the page below is served,
    is HTML, and neither extractor can read it; the fetch returns the
    sentinel although the GET succeeded and no PDF was involved. *)
Lemma sentinel_without_transport_or_pdf_failure :
  fst (fetch_smart_content Examples.ascii_only Examples.garbled_site
         Examples.page_url Examples.empty_world) = Ok sentinel
  /\ ~ Spec.transport_fails Examples.garbled_site Examples.page_url
  /\ ~ Spec.pdf_fails Examples.ascii_only Examples.garbled_site
         Examples.page_url.
Proof.
  split; [reflexivity|]. split.
  - intros [H | [r [_ H]]]; discriminate.
  - intros [r [[Hget _] [Hk _]]].
    injection Hget as <-. vm_compute in Hk. discriminate.
Qed.

(** C4. On a PDF payload the only library calls made are the GET and the
    PDF reader: neither HTML extractor is called.  When the PDF parses, the
    text is the texts of the pages in document order, each followed by a
    newline, and the title is the metadata title when there is one and it
    is not empty, "PDF Document" otherwise.  A single page "Hello" without
    metadata title is fetched from "https://example.com/doc.pdf" as
    ("PDF Document", "Hello\n"). *)
Theorem pdf_path_spec (U : UnicodeData) (L : Libraries) (url : str)
  (w : World) (response : Response) :
  requests_get L url = Ok response ->
  raise_for_status L response = Ok tt ->
  classify U url response = PDF ->
  snd (fetch_smart_content U L url w)
  = log (CallPdfReader (content response)) (log (CallGet url) w)
  /\ (forall reader texts,
         PdfReader L (content response) = Ok reader ->
         pages reader = map Ok texts ->
         fst (fetch_smart_content U L url w)
         = Ok (Some (match Spec.metadata_title reader with
                     | Some t => t
                     | None => py "PDF Document"
                     end),
               Some (Spec.pages_text texts))
         /\ (url = py "https://example.com/doc.pdf" ->
             texts = [py "Hello"] ->
             Spec.metadata_title reader = None ->
             fst (fetch_smart_content U L url w)
             = Ok (Some (py "PDF Document"), Some (py "Hello" ++ [NL])))).
Proof.
  intros Hget Hstatus Hk. split.
  - now apply fetch_pdf_world.
  - intros reader texts Hr Hp.
    assert (E : pdf_title reader
                = match Spec.metadata_title reader with
                  | Some t => t
                  | None => py "PDF Document"
                  end).
    { unfold pdf_title, Spec.metadata_title.
      destruct (metadata reader) as [[[[|c t]|]]|]; reflexivity. }
    rewrite (fetch_pdf_parsed U L url w response Hget Hstatus reader texts
               Hk Hr Hp), E.
    split; [reflexivity|].
    intros _ -> ->. reflexivity.
Qed.

Lemma pdf_path_spec_witness :
  fst (fetch_smart_content Examples.ascii_only Examples.hello_site
         Examples.pdf_url Examples.empty_world)
  = Ok (Some (py "PDF Document"), Some (py "Hello" ++ [NL]))
  /\ snd (fetch_smart_content Examples.ascii_only Examples.hello_site
            Examples.pdf_url Examples.empty_world)
     = log (CallPdfReader [])
         (log (CallGet Examples.pdf_url) Examples.empty_world).
Proof.
  pose proof (pdf_path_spec Examples.ascii_only Examples.hello_site
                Examples.pdf_url Examples.empty_world _
                eq_refl eq_refl eq_refl) as [Hcalls Hparsed].
  split; [|exact Hcalls].
  exact (proj2 (Hparsed Examples.hello_reader [py "Hello"] eq_refl eq_refl)
           eq_refl eq_refl eq_refl).
Defined.

(** ** The fallback extractor *)

Fixpoint node_ind' (P : node -> Prop)
  (HStr : forall shown s, P (Str shown s))
  (HTag : forall name cs, Forall P cs -> P (Tag name cs))
  (n : node) : P n :=
  match n with
  | Str shown s => HStr shown s
  | Tag name cs =>
      HTag name cs
        ((fix all (l : list node) : Forall P l :=
            match l with
            | [] => Forall_nil P
            | c :: r => Forall_cons c (node_ind' P HStr HTag c) (all r)
            end) cs)
  end.

Lemma text_of_extract_named (names : list str) (n : node) :
  flat_map node_text (extract_named names n) = Spec.visible_text names n.
Proof.
  induction n as [shown s | name cs IH] using node_ind'.
  - simpl. now rewrite app_nil_r.
  - simpl. destruct (name_in names name); [reflexivity|].
    simpl. rewrite app_nil_r.
    induction IH as [|c cs Hc _ IHcs]; simpl; [reflexivity|].
    now rewrite flat_map_app, Hc, IHcs.
Qed.

Lemma text_of_extract_all (names : list str) (doc : soup) :
  get_text (extract_all names doc) = flat_map (Spec.visible_text names) doc.
Proof.
  unfold get_text, extract_all.
  induction doc as [|n doc IH]; simpl; [reflexivity|].
  now rewrite flat_map_app, text_of_extract_named, IH.
Qed.

Lemma extract_named_blank (names : list str) (n : node) :
  extract_named names (Spec.blank names n) = extract_named names n.
Proof.
  induction n as [shown s | name cs IH] using node_ind'; [reflexivity|].
  simpl. destruct (name_in names name) eqn:Hn; simpl; rewrite Hn;
    [reflexivity|].
  f_equal. f_equal.
  induction IH as [|c cs Hc _ IHcs]; simpl; [reflexivity|].
  now rewrite Hc, IHcs.
Qed.

Lemma extract_all_blank (names : list str) (doc : soup) :
  extract_all names (map (Spec.blank names) doc) = extract_all names doc.
Proof.
  unfold extract_all.
  induction doc as [|n doc IH]; simpl; [reflexivity|].
  now rewrite extract_named_blank, IH.
Qed.

(** C6, as the code has it.  The text the fallback extractor returns is
    the normalisation of the shown strings that lie outside every script,
    style, nav, footer and header element, the string of the title element
    among them; it is the same for two documents that differ only inside
    such elements.  The title is "Web_Capture" when no title element is
    left outside them, and the string of the first such element when that
    is a single string.  The page
    <html><title>T</title><body><nav>X</nav><p>Real content here.</p></body></html>,
    the primary extractor failing, is fetched as
    ("T", "TReal content here."), and "X" is not in its text. *)
Theorem scrape_spec :
  (forall doc,
      snd (scrape doc)
      = Some (normalize (flat_map (Spec.visible_text killed) doc)))
  /\ (forall doc1 doc2,
         map (Spec.blank killed) doc1 = map (Spec.blank killed) doc2 ->
         scrape doc1 = scrape doc2)
  /\ (forall doc,
         find (py "title") (extract_all killed doc) = None ->
         fst (scrape doc) = Some (py "Web_Capture"))
  /\ (forall doc shown s,
         find (py "title") (extract_all killed doc)
         = Some (Tag (py "title") [Str shown s]) ->
         fst (scrape doc) = Some s)
  /\ (forall U L url w response,
         requests_get L url = Ok response ->
         raise_for_status L response = Ok tt ->
         classify U url response = HTML ->
         Spec.primary_rejected L url response ->
         BeautifulSoup L (content response) = Ok Examples.nav_page ->
         fst (fetch_smart_content U L url w)
         = Ok (Some (py "T"), Some (py "TReal content here."))
         /\ contains (py "X") (py "TReal content here.") = false).
Proof.
  split; [|split; [|split; [|split]]].
  - intros doc. unfold scrape. cbv zeta. cbn [snd].
    now rewrite text_of_extract_all.
  - intros doc1 doc2 H. unfold scrape. cbv zeta.
    rewrite <- (extract_all_blank killed doc1), H, extract_all_blank.
    reflexivity.
  - intros doc H. unfold scrape, soup_title. cbv zeta. cbn [fst].
    now rewrite H.
  - intros doc shown s H. unfold scrape, soup_title. cbv zeta. cbn [fst].
    now rewrite H.
  - intros U L url w response Hget Hstatus Hk Hrej Hdoc.
    rewrite (fetch_primary_rejected U L url w response Hget Hstatus Hk Hrej).
    rewrite Hdoc. split; reflexivity.
Qed.

Lemma scrape_spec_witness :
  scrape Examples.nav_page = scrape Examples.nav_page'
  /\ fst (fetch_smart_content Examples.ascii_only Examples.nav_site
            Examples.page_url Examples.empty_world)
     = Ok (Some (py "T"), Some (py "TReal content here.")).
Proof.
  destruct scrape_spec as [_ [Hsame [_ [_ Hpage]]]].
  split.
  - apply Hsame. reflexivity.
  - apply (Hpage Examples.ascii_only Examples.nav_site Examples.page_url
             Examples.empty_world (Examples.html_response
                                     Examples.nav_page_html)
             eq_refl eq_refl eq_refl (or_introl eq_refl) eq_refl).
Defined.

(** C6, as the specification words it, fails on its own example: the
    title element is not among the elements removed, so its string "T"
    opens the text. *)
Lemma scrape_keeps_title_text :
  fst (fetch_smart_content Examples.ascii_only Examples.nav_site
         Examples.page_url Examples.empty_world)
  = Ok (Some (py "T"), Some (py "TReal content here."))
  /\ fst (fetch_smart_content Examples.ascii_only Examples.nav_site
            Examples.page_url Examples.empty_world)
     <> Ok (Some (py "T"), Some (py "Real content here.")).
Proof. split; vm_compute; congruence. Qed.

(** ** The caller: one URL of fetch_mode *)

(** A fetch leaves the files alone and calls neither the summarisation
    service nor the note writer. *)
Lemma fetch_world (U : UnicodeData) (L : Libraries) (url : str) (w : World) :
  files (snd (fetch_smart_content U L url w)) = files w
  /\ exists new,
       calls (snd (fetch_smart_content U L url w)) = calls w ++ new
       /\ Spec.quiet new.
Proof.
  destruct (transport_cases L url) as [Ht | [r [Hget Hstatus]]].
  - assert (E : fetch_smart_content U L url w
                = (Ok sentinel, log (CallGet url) w)).
    { destruct Ht as [H | [r [H1 H2]]].
      - now apply fetch_get_raises.
      - now apply (fetch_status_raises U L url w r). }
    rewrite E. split; [reflexivity|].
    exists [CallGet url]. split; [reflexivity | now repeat constructor].
  - destruct (classify U url r) eqn:Hk.
    + rewrite (fetch_pdf_world U L url w r Hget Hstatus Hk).
      split; [reflexivity|].
      exists [CallGet url; CallPdfReader (content r)]. simpl.
      rewrite <- app_assoc. split; [reflexivity | now repeat constructor].
    + destruct (primary_cases L url r) as [[a [Ha Hlen]] | Hrej].
      * rewrite (fetch_primary_accepted U L url w r Hget Hstatus a
                   Hk Ha Hlen).
        split; [reflexivity|].
        exists [CallGet url; CallArticle url (content r)]. simpl.
        rewrite <- app_assoc. split; [reflexivity | now repeat constructor].
      * rewrite (fetch_primary_rejected U L url w r Hget Hstatus Hk Hrej).
        split; [reflexivity|].
        exists [CallGet url; CallArticle url (content r);
                CallBeautifulSoup (content r)]. simpl.
        rewrite <- !app_assoc. split; [reflexivity | now repeat constructor].
Qed.

Lemma fetch_returns (U : UnicodeData) (L : Libraries) (url : str) (w : World) :
  exists r, fst (fetch_smart_content U L url w) = Ok r.
Proof.
  destruct (fetch_outcomes U L url w) as [[H _] | [title [text [H _]]]];
    eauto.
Qed.

Lemma too_short_iff (text : option str) :
  too_short text = true <->
  text = None \/ exists t, text = Some t /\ (length t < 100)%nat.
Proof.
  unfold too_short, USABLE_MIN_LENGTH. destruct text as [t|].
  - rewrite orb_true_iff, Nat.ltb_lt. split.
    + intros [H | H]; right; exists t; split; auto.
      destruct t; [simpl; lia | discriminate].
    + intros [H | [t' [H Hlen]]]; [discriminate|].
      injection H as <-. now right.
  - split; auto.
Qed.

(** C8. When the fetched text is absent or shorter than 100 characters,
    the URL is done with as soon as it is fetched: the files are as
    before, and the calls made are those of the fetch, none of them to the
    summarisation service or to the note writer.  The threshold, 100, is
    another constant than the primary extractor's 300, and below it. *)
Theorem short_text_skipped (U : UnicodeData) (L : Libraries) (C : Config)
  (url : str) (w : World) (title text : option str) :
  fst (fetch_smart_content U L url w) = Ok (title, text) ->
  text = None \/ (exists t, text = Some t /\ (length t < 100)%nat) ->
  fetch_mode_url U L C url w = (Ok tt, snd (fetch_smart_content U L url w))
  /\ files (snd (fetch_mode_url U L C url w)) = files w
  /\ (exists new,
         calls (snd (fetch_mode_url U L C url w)) = calls w ++ new
         /\ Spec.quiet new)
  /\ USABLE_MIN_LENGTH = 100%nat
  /\ PRIMARY_MIN_LENGTH = 300%nat
  /\ (USABLE_MIN_LENGTH < PRIMARY_MIN_LENGTH)%nat.
Proof.
  intros Hres Hshort. apply too_short_iff in Hshort.
  assert (E : fetch_mode_url U L C url w
              = (Ok tt, snd (fetch_smart_content U L url w))).
  { unfold fetch_mode_url, try_except, bind.
    destruct (fetch_smart_content U L url w) as [o w1]. simpl in Hres.
    subst o. rewrite Hshort. reflexivity. }
  rewrite E. cbn [snd].
  destruct (fetch_world U L url w) as [Hfiles Hcalls].
  repeat split; auto. unfold USABLE_MIN_LENGTH, PRIMARY_MIN_LENGTH. lia.
Qed.

Lemma short_text_skipped_witness :
  fst (fetch_smart_content Examples.ascii_only Examples.short_site
         Examples.page_url Examples.empty_world)
  = Ok (Some (py "Web_Capture"), Some (repeat 97 50))
  /\ (length (repeat 97 50) < 100)%nat
  /\ fetch_mode_url Examples.ascii_only Examples.short_site Examples.vault
       Examples.page_url Examples.empty_world
     = (Ok tt,
        snd (fetch_smart_content Examples.ascii_only Examples.short_site
               Examples.page_url Examples.empty_world)).
Proof.
  assert (Hlen : (length (repeat 97 50) < 100)%nat).
  { rewrite repeat_length. lia. }
  split; [reflexivity|]. split; [exact Hlen|].
  apply (short_text_skipped Examples.ascii_only Examples.short_site
           Examples.vault Examples.page_url Examples.empty_world
           (Some (py "Web_Capture")) (Some (repeat 97 50)) eq_refl).
  right. exists (repeat 97 50). split; [reflexivity | exact Hlen].
Defined.

(** *** The title a note is filed under *)

Lemma replace_from_incl (old : str) (k : nat) (s : str) (c : N) :
  In c (replace_from old [] k s) -> In c s.
Proof.
  revert k. induction s as [|x s IH]; intros k; simpl; [tauto|].
  destruct k as [|k].
  - destruct (startswith (x :: s) old); simpl.
    + intros H. right. now apply (IH _ H).
    + intros [H | H]; [now left | right; now apply (IH _ H)].
  - intros H. right. now apply (IH _ H).
Qed.

Lemma split_from_incl (sep : str) (k : nat) (s x : str) (c : N) :
  In x (split_from sep k s) -> In c x -> In c s.
Proof.
  revert k x. induction s as [|y s IH]; intros k x; simpl.
  - intros [<- | []] [].
  - destruct k as [|k].
    + destruct (startswith (y :: s) sep).
      * intros [<- | H] Hc; [destruct Hc|]. right. now apply (IH _ _ H).
      * destruct (split_from sep 0 s) as [|z l] eqn:E; simpl.
        -- intros [<- | []] [<- | []]. now left.
        -- intros [<- | H] Hc.
           ++ destruct Hc as [<- | Hc]; [now left|].
              right. apply (IH 0%nat z); [rewrite E; now left | exact Hc].
           ++ right. apply (IH 0%nat x); [rewrite E; now right | exact Hc].
    + intros H Hc. right. now apply (IH _ _ H).
Qed.

Lemma last_in_or_default {A : Type} (l : list A) (d : A) :
  l = [] \/ In (last l d) l.
Proof.
  induction l as [|x l IH]; [now left|]. right.
  destruct l as [|y l]; [now left|].
  destruct IH as [H | H]; [discriminate|].
  right. exact H.
Qed.

Lemma url_name_incl (url : str) (c : N) : In c (url_name url) -> In c url.
Proof.
  unfold url_name, replace. intros H.
  apply replace_from_incl, replace_from_incl in H.
  destruct (last_in_or_default (split url (py "/")) []) as [E | Hin].
  - exfalso. exact (split_from_not_nil _ _ _ E).
  - exact (split_from_incl _ _ _ _ _ Hin H).
Qed.

Lemma eqb_refl (s : str) : eqb s s = true.
Proof.
  induction s as [|c s IH]; simpl; [reflexivity|].
  now rewrite N.eqb_refl, IH.
Qed.

Lemma eqb_eq (a b : str) : eqb a b = true <-> a = b.
Proof.
  split; [|intros <-; apply eqb_refl].
  revert b. induction a as [|x a IH]; intros [|y b]; simpl;
    try discriminate; [reflexivity|].
  rewrite andb_true_iff, N.eqb_eq. intros [-> H]. f_equal. now apply IH.
Qed.

Lemma unnamed_iff (title : option str) :
  unnamed title = true <-> Spec.untitled title.
Proof.
  unfold unnamed, Spec.untitled. destruct title as [t|].
  - rewrite orb_true_iff, eqb_eq. split.
    + intros [H | ->]; [|now right; right].
      destruct t; [now right; left | discriminate].
    + intros [H | [H | H]]; [discriminate | |]; injection H as ->;
        [now left | now right].
  - split; auto.
Qed.

(** The notes a run on one URL writes are all filed under the title of
    lines 148-150. *)
Lemma fetch_mode_url_writes (U : UnicodeData) (L : Libraries) (C : Config)
  (url : str) (w : World) (title text : option str) (path body : str) :
  fst (fetch_smart_content U L url w) = Ok (title, text) ->
  In (CallWrite path body) (calls (snd (fetch_mode_url U L C url w))) ->
  In (CallWrite path body) (calls w)
  \/ path = os_path_join (ARTICLES_DIR C)
              (clean_filename U (note_title url title) ++ py ".md").
Proof.
  intros Hres.
  destruct (fetch_world U L url w) as [_ [new [Hcalls Hquiet]]].
  unfold fetch_mode_url, try_except, bind.
  destruct (fetch_smart_content U L url w) as [o w1].
  cbn [fst snd] in Hres, Hcalls. subst o.
  assert (Hold : In (CallWrite path body) (calls w1) ->
                 In (CallWrite path body) (calls w)).
  { rewrite Hcalls. intros H. apply in_app_or in H.
    destruct H as [H | H]; [exact H|].
    unfold Spec.quiet in Hquiet. rewrite Forall_forall in Hquiet.
    apply Hquiet in H. discriminate. }
  destruct (too_short text); [cbn; auto|].
  unfold os_path_exists.
  destruct (lookup _ (files w1)); [cbn; auto|].
  unfold get_ai_summary, try_except, invoke.
  destruct (chat_completions_create L _ _ _) as [[s|]|]; cbn [snd ret].
  - destruct (truthy s); cbn [snd ret write_file log calls].
    + rewrite <- app_assoc. intros H. apply in_app_or in H.
      destruct H as [H | [H | [H | []]]]; [auto | discriminate|].
      injection H as <- _. now right.
    + intros H. apply in_app_or in H.
      destruct H as [H | [H | []]]; [auto | discriminate].
  - intros H. apply in_app_or in H.
    destruct H as [H | [H | []]]; [auto | discriminate].
  - intros H. apply in_app_or in H.
    destruct H as [H | [H | []]]; [auto | discriminate].
Qed.

(** *** The URL-derived name and the final path segment *)

Lemma take_until_all (stop : N -> bool) (s : str) :
  Forall (fun c => stop c = false) s -> Spec.take_until stop s = s.
Proof.
  induction 1 as [|c s Hc _ IH]; [reflexivity|].
  cbn [Spec.take_until]. now rewrite Hc, IH.
Qed.

Lemma skipn_prefix (sub r : str) : skipn (length sub) (sub ++ r) = r.
Proof. induction sub as [|x sub IH]; [reflexivity | exact IH]. Qed.

Lemma after_app (sub s rest : str) :
  Spec.after sub s = Some rest -> exists pre, s = pre ++ sub ++ rest.
Proof.
  induction s as [|c s IH]; cbn [Spec.after].
  - destruct (startswith [] sub) eqn:E; [|discriminate].
    apply startswith_app in E. destruct E as [r E]. intros H.
    injection H as H. rewrite E, skipn_prefix in H. subst r.
    now exists [].
  - destruct (startswith (c :: s) sub) eqn:E.
    + apply startswith_app in E. destruct E as [r E]. intros H.
      injection H as H. rewrite E, skipn_prefix in H. subst r.
      now exists [].
    + intros H. destruct (IH H) as [pre ->]. now exists (c :: pre).
Qed.

Lemma drop_until_app (stop : N -> bool) (s : str) :
  exists a, s = a ++ Spec.drop_until stop s.
Proof.
  induction s as [|c s [a IH]]; [now exists []|].
  cbn [Spec.drop_until]. destruct (stop c).
  - now exists [].
  - exists (c :: a). cbn [app]. now rewrite <- IH.
Qed.

Lemma drop_until_head (stop : N -> bool) (s : str) (c : N) (r : str) :
  Spec.drop_until stop s = c :: r -> stop c = true.
Proof.
  induction s as [|x s IH]; [discriminate|].
  cbn [Spec.drop_until]. destruct (stop x) eqn:E; [|exact IH].
  intros H. injection H as <- _. exact E.
Qed.

Lemma split_slash_cons (c : N) (s : str) :
  split (c :: s) (py "/")
  = if c =? 47 then [] :: split s (py "/")
    else cons_head c (split s (py "/")).
Proof.
  unfold split. change (py "/") with [47]. cbn [split_from startswith length pred].
  rewrite andb_true_r, (N.eqb_sym 47 c). reflexivity.
Qed.

Lemma split_slash_two (a b : str) :
  exists x y l, split (a ++ 47 :: b) (py "/") = x :: y :: l.
Proof.
  induction a as [|c a [x [y [l IH]]]]; cbn [app]; rewrite split_slash_cons.
  - rewrite N.eqb_refl.
    destruct (split b (py "/")) as [|y l] eqn:E.
    + exfalso. exact (split_from_not_nil _ _ _ E).
    + now exists [], y, l.
  - rewrite IH. destruct (c =? 47).
    + now exists [], x, (y :: l).
    + now exists (c :: x), y, l.
Qed.

(** What follows the last '/' of a text follows the last '/' of any end
    of it that starts with a '/'. *)
Lemma last_split_after_slash (a b : str) :
  last (split (a ++ 47 :: b) (py "/")) [] = last (split b (py "/")) [].
Proof.
  induction a as [|c a IH]; cbn [app]; rewrite split_slash_cons.
  - rewrite N.eqb_refl.
    destruct (split b (py "/")) as [|y l] eqn:E; [|reflexivity].
    exfalso. exact (split_from_not_nil _ _ _ E).
  - destruct (split_slash_two a b) as [x [y [l E]]].
    rewrite E in *. destruct (c =? 47); exact IH.
Qed.

(** On a URL without query and fragment whose path is not empty, the
    URL-derived name is the final path segment with ".pdf" and ".html"
    taken out. *)
Lemma url_name_path_name (url : str) :
  Forall (fun c => (c =? 63) || (c =? 35) = false) url ->
  Spec.url_path url <> [] ->
  url_name url = Spec.path_name url.
Proof.
  intros Hq Hpath.
  unfold url_name, Spec.path_name, Spec.final_path_segment. do 2 f_equal.
  unfold Spec.url_path in *.
  rewrite (take_until_all _ url Hq) in *.
  destruct (Spec.after (py "://") url) as [rest|] eqn:E; [|reflexivity].
  apply after_app in E. destruct E as [pre ->].
  destruct (drop_until_app (fun c => c =? 47) rest) as [a Ha].
  destruct (Spec.drop_until (fun c => c =? 47) rest) as [|c r] eqn:Ed;
    [congruence|].
  apply drop_until_head in Ed. apply N.eqb_eq in Ed. subst c.
  rewrite Ha, !app_assoc.
  rewrite last_split_after_slash.
  symmetry. exact (last_split_after_slash [] r).
Qed.

(** C10, as the code has it.  The title a note is filed under is the
    URL-derived name (the last "/"-separated piece of the whole URL, query
    and fragment included, with ".pdf" and ".html" taken out) whenever the
    fetched title is absent, empty or "PDF Document", and the fetched title
    otherwise; every note written for the URL has the file name derived
    from that title.  On a URL without query ('?') and fragment ('#') whose
    path is not empty, the URL-derived name is the one of the final path
    segment.  A fetched "PDF Document" is never kept: the title filed under
    is "PDF Document" only when the URL-derived name is, which does not
    happen for a URL without a space. *)
Theorem note_title_spec (U : UnicodeData) (L : Libraries) (C : Config)
  (url : str) (w : World) (title text : option str) :
  (Spec.untitled title -> note_title url title = url_name url)
  /\ (forall t, title = Some t -> ~ Spec.untitled title ->
                note_title url title = t)
  /\ (note_title url title = py "PDF Document" ->
      Spec.untitled title /\ url_name url = py "PDF Document")
  /\ (~ In SPACE url -> note_title url title <> py "PDF Document")
  /\ (fst (fetch_smart_content U L url w) = Ok (title, text) ->
      forall path body,
        In (CallWrite path body) (calls (snd (fetch_mode_url U L C url w))) ->
        In (CallWrite path body) (calls w)
        \/ path = os_path_join (ARTICLES_DIR C)
                    (clean_filename U (note_title url title) ++ py ".md"))
  /\ (~ In 63 url -> ~ In 35 url -> Spec.url_path url <> [] ->
      url_name url = Spec.path_name url).
Proof.
  assert (Hun : Spec.untitled title -> note_title url title = url_name url).
  { intros H. apply unnamed_iff in H. unfold note_title.
    destruct title; [now rewrite H | reflexivity]. }
  assert (Hkeep : forall t, title = Some t -> ~ Spec.untitled title ->
                            note_title url title = t).
  { intros t -> H. unfold note_title.
    destruct (unnamed (Some t)) eqn:E; [|reflexivity].
    apply unnamed_iff in E. contradiction. }
  assert (Hpdf : note_title url title = py "PDF Document" ->
                 Spec.untitled title /\ url_name url = py "PDF Document").
  { intros H. destruct (unnamed title) eqn:E.
    - apply unnamed_iff in E. split; [exact E|]. now rewrite <- (Hun E).
    - exfalso. destruct title as [t|]; [|discriminate].
      assert (Hno : ~ Spec.untitled (Some t)).
      { intros Hu. apply unnamed_iff in Hu. congruence. }
      rewrite (Hkeep t eq_refl Hno) in H. apply Hno. right; right.
      now rewrite H. }
  split; [exact Hun|]. split; [exact Hkeep|]. split; [exact Hpdf|].
  split; [|split].
  - intros Hsp H. apply Hsp. apply (url_name_incl url SPACE).
    destruct (Hpdf H) as [_ ->]. vm_compute. tauto.
  - intros Hres path body. now apply fetch_mode_url_writes with (text := text).
  - intros Hq Hf. apply url_name_path_name.
    apply Forall_forall. intros c Hc. apply orb_false_iff.
    split; apply N.eqb_neq; intros ->; contradiction.
Qed.

Lemma note_title_spec_witness :
  note_title Examples.pdf_url (Some (py "PDF Document")) = py "doc"
  /\ note_title Examples.pdf_url (Some (py "PDF Document"))
     <> py "PDF Document"
  /\ url_name Examples.pdf_url = Spec.path_name Examples.pdf_url.
Proof.
  pose proof (note_title_spec Examples.ascii_only Examples.hello_site
                Examples.vault Examples.pdf_url Examples.empty_world
                (Some (py "PDF Document")) None)
    as [Hun [_ [_ [Hsp [_ Hseg]]]]].
  split; [|split].
  - rewrite Hun; [reflexivity|]. right; right. reflexivity.
  - apply Hsp. vm_compute. intuition discriminate.
  - apply Hseg.
    + vm_compute. intuition discriminate.
    + vm_compute. intuition discriminate.
    + vm_compute. discriminate.
Defined.

(** C10, as the specification words it, fails.  The first URL below is as
    the extractor finds them; its path is "/doc.pdf", so that its final
    path segment gives the name "doc", but its query has a '/' in it:
    fetched as a PDF without metadata title, the note is filed under "b",
    what follows the last '/' of the whole URL.  The second URL has a space
    in it and ends in the words "PDF Document": fetched in the same way,
    its URL-derived name is again "PDF Document", and the note is filed
    under it. *)
Lemma url_name_not_path_segment :
  (Spec.tidy_url Examples.slashed_query_url
   /\ Spec.url_path Examples.slashed_query_url = py "/doc.pdf"
   /\ Spec.path_name Examples.slashed_query_url = py "doc"
   /\ fst (fetch_smart_content Examples.ascii_only Examples.untitled_pdf_site
             Examples.slashed_query_url Examples.empty_world)
      = Ok (Some (py "PDF Document"), Some (repeat 97 120 ++ [NL]))
   /\ note_title Examples.slashed_query_url (Some (py "PDF Document"))
      = py "b"
   /\ exists body,
        files (snd (fetch_mode_url Examples.ascii_only
                      Examples.untitled_pdf_site Examples.vault
                      Examples.slashed_query_url Examples.empty_world))
        = [(py "/vault/_notes/_articles/b.md", body)])
  /\ (fst (fetch_smart_content Examples.ascii_only Examples.untitled_pdf_site
             Examples.spaced_url Examples.empty_world)
      = Ok (Some (py "PDF Document"), Some (repeat 97 120 ++ [NL]))
      /\ note_title Examples.spaced_url (Some (py "PDF Document"))
         = py "PDF Document"
      /\ exists body,
           files (snd (fetch_mode_url Examples.ascii_only
                         Examples.untitled_pdf_site Examples.vault
                         Examples.spaced_url Examples.empty_world))
           = [(py "/vault/_notes/_articles/PDF_Document.md", body)]).
Proof.
  split.
  - split; [|split; [|split; [|split; [|split]]]];
      try (vm_compute; reflexivity).
    + split; [reflexivity|]. split.
      * vm_compute. repeat constructor.
      * vm_compute. intuition discriminate.
    + eexists. vm_compute. reflexivity.
  - split; [vm_compute; reflexivity|]. split; [vm_compute; reflexivity|].
    eexists. vm_compute. reflexivity.
Qed.

(** * Further properties of the program *)

(** ** get_ai_summary *)

(** The summariser never raises: it makes one request, whose user text is
    the first 25000 characters of the text it is given (the whole text when
    that is no longer), and returns the service's answer, or None when the
    request raised. *)
Theorem get_ai_summary_contained (L : Libraries) (text model : str)
  (p : prompt_type) (w : World) :
  let user := firstn (N.to_nat 25000) text in
  get_ai_summary L text model p w
  = (Ok (match chat_completions_create L model (system_prompts p) user with
         | Ok answer => answer
         | Raise => None
         end),
     log (CallChat model (system_prompts p) user) w)
  /\ (length user <= N.to_nat 25000)%nat
  /\ (exists rest, text = user ++ rest)
  /\ ((length text <= N.to_nat 25000)%nat -> user = text).
Proof.
  cbv zeta. split; [|split; [|split]].
  - unfold get_ai_summary, try_except, invoke, ret.
    now destruct (chat_completions_create L model (system_prompts p) _).
  - apply firstn_le_length.
  - exists (skipn (N.to_nat 25000) text). symmetry. apply firstn_skipn.
  - intros H. now apply firstn_all2.
Qed.

Lemma get_ai_summary_contained_witness :
  (length (py "short") <= N.to_nat 25000)%nat
  /\ firstn (N.to_nat 25000) (py "short") = py "short".
Proof.
  assert (H : (length (py "short") <= N.to_nat 25000)%nat).
  { change (length (py "short")) with 5%nat. lia. }
  split; [exact H|].
  exact (proj2 (proj2 (proj2 (get_ai_summary_contained Examples.unreachable
           (py "short") (py "gpt-4o") digest Examples.empty_world))) H).
Defined.

(** ** One URL of fetch_mode *)

(** The run on one URL, step by step: what the world is afterwards. *)
Lemma fetch_mode_url_steps (U : UnicodeData) (L : Libraries) (C : Config)
  (url : str) (w : World) (title text : option str) :
  fst (fetch_smart_content U L url w) = Ok (title, text) ->
  fetch_mode_url U L C url w
  = (Ok tt,
     let w1 := snd (fetch_smart_content U L url w) in
     if too_short text then w1
     else
       let t := match text with Some t => t | None => [] end in
       let path := Spec.note_path U C url title in
       match lookup path (files w1) with
       | Some _ => w1
       | None =>
           let w2 := log (Spec.summary_call t) w1 in
           match Spec.usable_summary L t with
           | Some s =>
               let body := note_content L url (note_title url title) s t in
               {| files := (path, body) :: files w2;
                  calls := calls w2 ++ [CallWrite path body] |}
           | None => w2
           end
       end).
Proof.
  intros Hres. unfold fetch_mode_url, try_except, bind.
  destruct (fetch_smart_content U L url w) as [o w1].
  cbn [fst snd] in *. subst o. cbv zeta.
  destruct (too_short text); [reflexivity|].
  unfold os_path_exists. fold (Spec.note_path U C url title).
  destruct (lookup (Spec.note_path U C url title) (files w1));
    [reflexivity|].
  unfold get_ai_summary, try_except, invoke, Spec.usable_summary,
    Spec.summary_call.
  destruct (chat_completions_create L _ _ _) as [[s|]|]; try reflexivity.
  destruct (truthy s); reflexivity.
Qed.

Lemma long_enough (text : option str) (t : str) :
  text = Some t -> (100 <= length t)%nat -> too_short text = false.
Proof.
  intros -> H. destruct (too_short (Some t)) eqn:E; [|reflexivity].
  apply too_short_iff in E. destruct E as [E | [t' [E Hlen]]];
    [discriminate|]. injection E as <-. lia.
Qed.

Lemma lookup_head (path body : str) (fs : list (str * str)) :
  lookup path ((path, body) :: fs) = Some body.
Proof. unfold lookup. cbn. now rewrite eqb_refl. Qed.

Lemma lookup_other (p path body : str) (fs : list (str * str)) :
  p <> path -> lookup p ((path, body) :: fs) = lookup p fs.
Proof.
  intros H. unfold lookup. cbn.
  destruct (eqb path p) eqn:E; [|reflexivity].
  apply eqb_eq in E. congruence.
Qed.

(** A note that is already there is left alone: when the fetched text is
    long enough and a file exists at the note's path, the URL is done with
    after the fetch, without a call to the summarisation service and
    without a write. *)
Theorem existing_note_skipped (U : UnicodeData) (L : Libraries) (C : Config)
  (url : str) (w : World) (title : option str) (t old : str) :
  fst (fetch_smart_content U L url w) = Ok (title, Some t) ->
  (100 <= length t)%nat ->
  lookup (Spec.note_path U C url title) (files w) = Some old ->
  fetch_mode_url U L C url w = (Ok tt, snd (fetch_smart_content U L url w))
  /\ files (snd (fetch_mode_url U L C url w)) = files w
  /\ exists new,
       calls (snd (fetch_mode_url U L C url w)) = calls w ++ new
       /\ Spec.quiet new.
Proof.
  intros Hres Hlen Hold.
  destruct (fetch_world U L url w) as [Hfiles Hcalls].
  assert (E : fetch_mode_url U L C url w
              = (Ok tt, snd (fetch_smart_content U L url w))).
  { rewrite (fetch_mode_url_steps U L C url w title (Some t) Hres).
    cbv zeta. rewrite (long_enough (Some t) t eq_refl Hlen).
    now rewrite Hfiles, Hold. }
  rewrite E. cbn [snd]. auto.
Qed.

Lemma existing_note_skipped_witness :
  fetch_mode_url Examples.ascii_only Examples.article_site Examples.vault
    Examples.page_url Examples.noted_world
  = (Ok tt,
     snd (fetch_smart_content Examples.ascii_only Examples.article_site
            Examples.page_url Examples.noted_world)).
Proof.
  apply (existing_note_skipped Examples.ascii_only Examples.article_site
           Examples.vault Examples.page_url Examples.noted_world
           (Some (py "Headline")) (repeat 97 301) (py "An older note.")).
  - reflexivity.
  - rewrite repeat_length. lia.
  - reflexivity.
Defined.

(** Without a usable summary nothing is saved: when the fetched text is
    long enough, no file exists at the note's path and the summarisation
    service raises or answers with nothing or with an empty text, the
    files are as before and the one call made after the fetch is the
    request to the service. *)
Theorem failed_summary_not_saved (U : UnicodeData) (L : Libraries)
  (C : Config) (url : str) (w : World) (title : option str) (t : str) :
  fst (fetch_smart_content U L url w) = Ok (title, Some t) ->
  (100 <= length t)%nat ->
  lookup (Spec.note_path U C url title) (files w) = None ->
  Spec.usable_summary L t = None ->
  fetch_mode_url U L C url w
  = (Ok tt, log (Spec.summary_call t)
                (snd (fetch_smart_content U L url w)))
  /\ files (snd (fetch_mode_url U L C url w)) = files w.
Proof.
  intros Hres Hlen Hnew Hsum.
  destruct (fetch_world U L url w) as [Hfiles _].
  assert (E : fetch_mode_url U L C url w
              = (Ok tt, log (Spec.summary_call t)
                            (snd (fetch_smart_content U L url w)))).
  { rewrite (fetch_mode_url_steps U L C url w title (Some t) Hres).
    cbv zeta. rewrite (long_enough (Some t) t eq_refl Hlen).
    now rewrite Hfiles, Hnew, Hsum. }
  rewrite E. cbn [snd log files]. auto.
Qed.

Lemma failed_summary_not_saved_witness :
  files (snd (fetch_mode_url Examples.ascii_only Examples.mute_article_site
                Examples.vault Examples.page_url Examples.empty_world))
  = [].
Proof.
  apply (failed_summary_not_saved Examples.ascii_only
           Examples.mute_article_site Examples.vault Examples.page_url
           Examples.empty_world (Some (py "Headline")) (repeat 97 301)).
  - reflexivity.
  - rewrite repeat_length. lia.
  - reflexivity.
  - reflexivity.
Defined.

(** A fresh note is saved once: when the fetched text is long enough, no
    file exists at the note's path and the service returns a non-empty
    summary, exactly one file is added, at the note's path; reading it
    back gives the note built from the URL, the title, the summary and the
    text, and the note would be the same for any text with the same first
    5000 characters.  The calls after the fetch are the request to the
    service and the write. *)
Theorem note_saved (U : UnicodeData) (L : Libraries) (C : Config)
  (url : str) (w : World) (title : option str) (t s : str) :
  fst (fetch_smart_content U L url w) = Ok (title, Some t) ->
  (100 <= length t)%nat ->
  lookup (Spec.note_path U C url title) (files w) = None ->
  Spec.usable_summary L t = Some s ->
  let path := Spec.note_path U C url title in
  let body := note_content L url (note_title url title) s t in
  let w' := snd (fetch_mode_url U L C url w) in
  files w' = (path, body) :: files w
  /\ lookup path (files w') = Some body
  /\ calls w'
     = calls (snd (fetch_smart_content U L url w))
       ++ [Spec.summary_call t; CallWrite path body]
  /\ body = note_content L url (note_title url title) s
              (firstn (N.to_nat 5000) t).
Proof.
  intros Hres Hlen Hnew Hsum. cbv zeta.
  destruct (fetch_world U L url w) as [Hfiles _].
  rewrite (fetch_mode_url_steps U L C url w title (Some t) Hres).
  cbv zeta. rewrite (long_enough (Some t) t eq_refl Hlen).
  rewrite Hfiles, Hnew, Hsum. cbn [snd files calls log].
  rewrite Hfiles. split; [reflexivity|]. split; [apply lookup_head|].
  split; [now rewrite <- app_assoc|].
  unfold note_content. now rewrite firstn_firstn, Nat.min_id.
Qed.

Lemma note_saved_witness :
  lookup Examples.headline_path
    (files (snd (fetch_mode_url Examples.ascii_only Examples.article_site
                   Examples.vault Examples.page_url Examples.empty_world)))
  = Some (note_content Examples.article_site Examples.page_url
            (py "Headline") (py "A summary.") (repeat 97 301)).
Proof.
  apply (note_saved Examples.ascii_only Examples.article_site Examples.vault
           Examples.page_url Examples.empty_world (Some (py "Headline"))
           (repeat 97 301) (py "A summary.")).
  - reflexivity.
  - rewrite repeat_length. lia.
  - reflexivity.
  - reflexivity.
Defined.

(** What a fetch returns does not depend on the world it starts in. *)
Lemma fetch_result_any_world (U : UnicodeData) (L : Libraries) (url : str)
  (w1 w2 : World) :
  fst (fetch_smart_content U L url w1) = fst (fetch_smart_content U L url w2).
Proof.
  destruct (transport_cases L url) as [Ht | [r [Hget Hstatus]]].
  - destruct Ht as [H | [r [H H']]].
    + now rewrite !(fetch_get_raises U L url _ H).
    + now rewrite !(fetch_status_raises U L url _ r H H').
  - destruct (classify U url r) eqn:Hk.
    + destruct (PdfReader L (content r)) as [reader|] eqn:Hr.
      * destruct (pages_cases (pages reader)) as [[texts Hp] | Hp].
        -- now rewrite !(fetch_pdf_parsed U L url _ r Hget Hstatus reader
                           texts Hk Hr Hp).
        -- now rewrite !(fetch_pdf_page_raises U L url _ r Hget Hstatus
                           reader Hk Hr Hp).
      * now rewrite !(fetch_pdf_reader_raises U L url _ r Hget Hstatus Hk Hr).
    + destruct (primary_cases L url r) as [[a [Ha Hlen]] | Hrej].
      * now rewrite !(fetch_primary_accepted U L url _ r Hget Hstatus a
                        Hk Ha Hlen).
      * now rewrite !(fetch_primary_rejected U L url _ r Hget Hstatus Hk Hrej).
Qed.

Lemma fetch_mode_url_files_after (U : UnicodeData) (L : Libraries)
  (C : Config) (url : str) (w : World) (title text : option str) :
  fst (fetch_smart_content U L url w) = Ok (title, text) ->
  fst (fetch_mode_url U L C url w) = Ok tt
  /\ files (snd (fetch_mode_url U L C url w))
     = Spec.files_after U L C url title text (files w).
Proof.
  intros Hres.
  destruct (fetch_world U L url w) as [Hfiles _].
  rewrite (fetch_mode_url_steps U L C url w title text Hres).
  cbv zeta. cbn [fst snd]. split; [reflexivity|].
  unfold Spec.files_after.
  destruct (too_short text); [exact Hfiles|].
  cbv zeta. rewrite Hfiles.
  destruct (lookup (Spec.note_path U C url title) (files w));
    [exact Hfiles|].
  destruct (Spec.usable_summary L _) as [s|]; cbn [files log].
  - now rewrite Hfiles.
  - exact Hfiles.
Qed.

(** The files after the run on one URL: those before, with at most one
    new file in front, at a path where there was none. *)
Lemma fetch_mode_url_files (U : UnicodeData) (L : Libraries) (C : Config)
  (url : str) (w : World) :
  fst (fetch_mode_url U L C url w) = Ok tt
  /\ (files (snd (fetch_mode_url U L C url w)) = files w
      \/ exists path body,
           files (snd (fetch_mode_url U L C url w)) = (path, body) :: files w
           /\ lookup path (files w) = None).
Proof.
  destruct (fetch_returns U L url w) as [[title text] Hres].
  destruct (fetch_mode_url_files_after U L C url w title text Hres)
    as [Hok ->].
  split; [exact Hok|]. unfold Spec.files_after.
  destruct (too_short text); [now left|]. cbv zeta.
  destruct (lookup (Spec.note_path U C url title) (files w)) eqn:Hnew;
    [now left|].
  destruct (Spec.usable_summary L _) as [s|]; [right; eauto | now left].
Qed.

Lemma lookup_kept (p c path body : str) (fs : list (str * str)) :
  lookup p fs = Some c -> lookup path fs = None ->
  lookup p ((path, body) :: fs) = Some c.
Proof.
  intros Hp Hpath. rewrite lookup_other; [exact Hp|].
  intros ->. congruence.
Qed.

(** Running the same URL again changes no file: once a URL has been
    processed, processing it again with the same answers from the
    libraries leaves the files as the first run left them. *)
Theorem fetch_mode_url_idempotent (U : UnicodeData) (L : Libraries)
  (C : Config) (url : str) (w : World) :
  let once := snd (fetch_mode_url U L C url w) in
  files (snd (fetch_mode_url U L C url once)) = files once.
Proof.
  cbv zeta.
  destruct (fetch_returns U L url w) as [[title text] Hres].
  assert (Hres' : fst (fetch_smart_content U L url
                         (snd (fetch_mode_url U L C url w)))
                  = Ok (title, text)).
  { now rewrite (fetch_result_any_world U L url _ w). }
  destruct (fetch_mode_url_files_after U L C url _ title text Hres')
    as [_ ->].
  destruct (fetch_mode_url_files_after U L C url w title text Hres)
    as [_ ->].
  unfold Spec.files_after.
  destruct (too_short text); [reflexivity|]. cbv zeta.
  destruct (lookup (Spec.note_path U C url title) (files w)) eqn:Hold.
  - now rewrite Hold.
  - destruct (Spec.usable_summary L _) as [s|] eqn:Hsum.
    + now rewrite lookup_head.
    + now rewrite Hold.
Qed.

(** ** The requests of a fetch and of a run *)

Lemma gets_app (a b : list call) :
  Spec.gets (a ++ b) = Spec.gets a ++ Spec.gets b.
Proof. unfold Spec.gets. apply flat_map_app. Qed.

Lemma gets_get (u : str) (rest : list call) :
  Spec.gets (CallGet u :: rest) = u :: Spec.gets rest.
Proof. reflexivity. Qed.

(** The calls of a fetch: the GET, then at most two parser calls. *)
Lemma fetch_calls (U : UnicodeData) (L : Libraries) (url : str) (w : World) :
  exists rest,
    calls (snd (fetch_smart_content U L url w))
    = calls w ++ CallGet url :: rest
    /\ Spec.gets rest = []
    /\ (length rest <= 2)%nat.
Proof.
  destruct (transport_cases L url) as [Ht | [r [Hget Hstatus]]].
  - exists []. destruct Ht as [H | [r [H H']]].
    + rewrite (fetch_get_raises U L url w H). cbn. auto.
    + rewrite (fetch_status_raises U L url w r H H'). cbn. auto.
  - destruct (classify U url r) eqn:Hk.
    + exists [CallPdfReader (content r)].
      rewrite (fetch_pdf_world U L url w r Hget Hstatus Hk). cbn.
      rewrite <- app_assoc. auto.
    + destruct (primary_cases L url r) as [[a [Ha Hlen]] | Hrej].
      * exists [CallArticle url (content r)].
        rewrite (fetch_primary_accepted U L url w r Hget Hstatus a
                   Hk Ha Hlen). cbn.
        rewrite <- app_assoc. auto.
      * exists [CallArticle url (content r); CallBeautifulSoup (content r)].
        rewrite (fetch_primary_rejected U L url w r Hget Hstatus Hk Hrej).
        cbn. rewrite <- !app_assoc. auto.
Qed.

(** A fetch asks for the URL once: whatever happens afterwards, one GET
    is made, for the URL given, it is the first call, and at most two more
    calls follow, none of them a GET. *)
Theorem one_get_per_fetch (U : UnicodeData) (L : Libraries) (url : str)
  (w : World) :
  let w' := snd (fetch_smart_content U L url w) in
  Spec.gets (calls w') = Spec.gets (calls w) ++ [url]
  /\ exists rest,
       calls w' = calls w ++ CallGet url :: rest
       /\ (length rest <= 2)%nat
       /\ Forall (fun c => forall u, c <> CallGet u) rest.
Proof.
  cbv zeta. destruct (fetch_calls U L url w) as [rest [E [Hg Hlen]]].
  split.
  - now rewrite E, gets_app, gets_get, Hg.
  - exists rest. repeat split; auto.
    apply Forall_forall. intros c Hin u ->.
    apply in_split in Hin. destruct Hin as [a [b ->]].
    rewrite gets_app, gets_get in Hg.
    now destruct (Spec.gets a).
Qed.

(** The GETs of the run on one URL: the one of its fetch. *)
Lemma fetch_mode_url_gets (U : UnicodeData) (L : Libraries) (C : Config)
  (url : str) (w : World) :
  Spec.gets (calls (snd (fetch_mode_url U L C url w)))
  = Spec.gets (calls w) ++ [url].
Proof.
  destruct (fetch_returns U L url w) as [[title text] Hres].
  destruct (fetch_calls U L url w) as [rest [E [Hg _]]].
  assert (G : Spec.gets (calls (snd (fetch_smart_content U L url w)))
              = Spec.gets (calls w) ++ [url]).
  { now rewrite E, gets_app, gets_get, Hg. }
  rewrite (fetch_mode_url_steps U L C url w title text Hres).
  cbv zeta. cbn [snd].
  destruct (too_short text); [exact G|].
  destruct (lookup _ _); [exact G|].
  destruct (Spec.usable_summary L _) as [s|]; cbn [calls log].
  - rewrite !gets_app, G. cbn. now rewrite !app_nil_r.
  - rewrite gets_app, G. cbn. now rewrite app_nil_r.
Qed.

Lemma for_each_run (U : UnicodeData) (L : Libraries) (C : Config)
  (urls : list str) (w : World) :
  fst (for_each U L C urls w) = Ok tt
  /\ (forall p c, lookup p (files w) = Some c ->
                  lookup p (files (snd (for_each U L C urls w))) = Some c)
  /\ Spec.gets (calls (snd (for_each U L C urls w)))
     = Spec.gets (calls w) ++ urls.
Proof.
  revert w. induction urls as [|url urls IH]; intros w.
  - cbn. rewrite app_nil_r. auto.
  - cbn [for_each]. unfold bind.
    destruct (fetch_mode_url_files U L C url w) as [Hok Hfiles].
    pose proof (fetch_mode_url_gets U L C url w) as Hgets.
    destruct (fetch_mode_url U L C url w) as [o w1].
    cbn [fst snd] in *. subst o.
    destruct (IH w1) as [IHok [IHfiles IHgets]].
    split; [exact IHok|]. split.
    + intros p c Hp. apply IHfiles.
      destruct Hfiles as [-> | [path [body [-> Hnone]]]]; [exact Hp|].
      now apply lookup_kept.
    + rewrite IHgets, Hgets, <- app_assoc. reflexivity.
Qed.

(** A run of fetch_mode returns normally whatever the libraries do, leaves
    every file that existed with the text it had, does nothing at all when
    the aggregated file is missing, and otherwise asks for the first five
    URLs of the table, in the order of its rows, once each and for no
    other. *)
Theorem fetch_mode_run (U : UnicodeData) (L : Libraries) (C : Config)
  (w : World) :
  let w' := snd (fetch_mode U L C w) in
  fst (fetch_mode U L C w) = Ok tt
  /\ (forall p c, lookup p (files w) = Some c ->
                  lookup p (files w') = Some c)
  /\ (lookup (AGGREGATED_FILE C) (files w) = None -> w' = w)
  /\ (forall text,
         lookup (AGGREGATED_FILE C) (files w) = Some text ->
         Spec.gets (calls w')
         = Spec.gets (calls w)
           ++ firstn 5 (flat_map row_url (file_lines text)))
  /\ (length (Spec.gets (calls w')) <= length (Spec.gets (calls w)) + 5)%nat.
Proof.
  cbv zeta. unfold fetch_mode.
  destruct (lookup (AGGREGATED_FILE C) (files w)) as [text|].
  - destruct (for_each_run U L C
                (firstn 5 (flat_map row_url (file_lines text))) w)
      as [Hok [Hfiles Hgets]].
    repeat split; auto.
    + discriminate.
    + intros text' H. injection H as <-. exact Hgets.
    + rewrite Hgets, length_app.
      pose proof (firstn_le_length 5
                    (flat_map row_url (file_lines text))). lia.
  - cbn. repeat split; auto; try discriminate. lia.
Qed.

(** ** The aggregated table, written and read back *)

Lemma lines_from_line (brk : N -> bool) (line rest : str) :
  brk NL = true ->
  Forall (fun c => brk c = false) line ->
  lines_from brk false (line ++ NL :: rest)
  = line :: lines_from brk false rest.
Proof.
  intros Hnl H. induction H as [|c line Hc _ IH]; cbn.
  - now rewrite Hnl.
  - now rewrite Hc, IH.
Qed.

Lemma split_at_separator (sep : N) (a b : str) :
  ~ In sep a -> split (a ++ sep :: b) [sep] = a :: split b [sep].
Proof.
  unfold split. induction a as [|c a IH]; intros H; cbn.
  - now rewrite N.eqb_refl.
  - destruct (sep =? c) eqn:E.
    + apply N.eqb_eq in E. subst c. exfalso. apply H. now left.
    + cbn. rewrite IH; [reflexivity|]. intros Hin. apply H. now right.
Qed.

Lemma split_without_separator (sep : N) (a : str) :
  ~ In sep a -> split a [sep] = [a].
Proof.
  unfold split. induction a as [|c a IH]; intros H; cbn; [reflexivity|].
  destruct (sep =? c) eqn:E.
  - apply N.eqb_eq in E. subst c. exfalso. apply H. now left.
  - cbn. rewrite IH; [reflexivity|]. intros Hin. apply H. now right.
Qed.

Lemma lstrip_no_space (s : str) :
  Forall (fun c => isspace c = false) s -> lstrip s = s.
Proof. intros [|c s' Hc _]; cbn; [reflexivity | now rewrite Hc]. Qed.

Lemma strip_no_space (s : str) :
  Forall (fun c => isspace c = false) s -> strip s = s.
Proof.
  intros H. unfold strip, rstrip.
  rewrite (lstrip_no_space s H), (lstrip_no_space (rev s)).
  - apply rev_involutive.
  - now apply Forall_rev.
Qed.

(** A cell: the text between two bars, a space on either side. *)
Lemma strip_cell (s : str) :
  Forall (fun c => isspace c = false) s ->
  strip (SPACE :: s ++ [SPACE]) = s.
Proof.
  intros H. unfold strip, rstrip. change (lstrip (SPACE :: s ++ [SPACE]))
    with (lstrip (s ++ [SPACE])).
  destruct H as [|c s Hc Hs]; [reflexivity|].
  cbn [app lstrip]. rewrite Hc.
  change (c :: s ++ [SPACE]) with ((c :: s) ++ [SPACE]).
  rewrite rev_app_distr. cbn [rev app lstrip].
  change (isspace SPACE) with true. cbn iota.
  rewrite lstrip_no_space.
  - change (rev s ++ [c]) with (rev (c :: s)). apply rev_involutive.
  - change (rev s ++ [c]) with (rev (c :: s)). apply Forall_rev.
    now constructor.
Qed.

Lemma table_row_line (e : entry) : table_row e = Spec.row_line e ++ [NL].
Proof.
  destruct e as [[date source] url]. unfold table_row, Spec.row_line.
  now rewrite <- !app_assoc.
Qed.

Lemma cell_no_bar (s : str) :
  ~ In Spec.BAR s -> ~ In Spec.BAR (SPACE :: s ++ [SPACE]).
Proof.
  intros H [E | Hin]; [discriminate|].
  apply in_app_or in Hin. destruct Hin as [Hin | [E | []]];
    [auto | discriminate].
Qed.

(** The cells of a row: an empty one before the first bar, the date, the
    source note, and what the URL and the end of the row split into. *)
Lemma row_cells (date source url : str) :
  ~ In Spec.BAR date -> ~ In Spec.BAR source ->
  split (Spec.row_line (date, source, url)) (py "|")
  = [] :: (SPACE :: date ++ [SPACE]) :: (SPACE :: source ++ [SPACE])
       :: split (SPACE :: url ++ [SPACE; Spec.BAR]) (py "|").
Proof.
  intros Hd Hs.
  assert (E : Spec.row_line (date, source, url)
              = [] ++ Spec.BAR ::
                ((SPACE :: date ++ [SPACE]) ++ Spec.BAR ::
                 ((SPACE :: source ++ [SPACE]) ++ Spec.BAR ::
                  (SPACE :: url ++ [SPACE; Spec.BAR])))).
  { unfold Spec.row_line. cbn. rewrite <- !app_assoc. reflexivity. }
  rewrite E. change (py "|") with [Spec.BAR].
  rewrite split_at_separator by (intros []).
  rewrite split_at_separator by now apply cell_no_bar.
  rewrite split_at_separator by now apply cell_no_bar.
  reflexivity.
Qed.

Lemma row_has_bar_and_http (date source url : str) :
  startswith url (py "http") = true ->
  contains (py "|") (Spec.row_line (date, source, url))
  && contains (py "http") (Spec.row_line (date, source, url)) = true.
Proof.
  intros H. apply startswith_app in H. destruct H as [rest ->].
  apply andb_true_iff. split; apply contains_app.
  - eexists [], _. unfold Spec.row_line. cbn. reflexivity.
  - exists (py "| " ++ date ++ py " | " ++ source ++ py " | "),
           (rest ++ py " |").
    unfold Spec.row_line. now rewrite <- !app_assoc.
Qed.

Lemma row_url_of_cells (line first : str) (others : list str) (url : str) :
  contains (py "|") line && contains (py "http") line = true ->
  (exists c1 c2 c3, split line (py "|") = c1 :: c2 :: c3 :: first :: others) ->
  strip first = url ->
  row_url line = [url].
Proof.
  intros H [c1 [c2 [c3 E]]] Hs. unfold row_url. rewrite H, E.
  cbn [map length nth]. now rewrite Hs.
Qed.

Lemma header_lines (rest : str) :
  file_lines (table_header ++ rest)
  = py "# Aggregated URLs" :: [] :: py "| Date | Source Note | URL |"
    :: py "| :--- | :--- | :--- |" :: file_lines rest.
Proof. reflexivity. Qed.

(** What the extractor writes, fetch_mode reads: the row written for an
    entry whose date and source note hold no bar and whose URL starts with
    "http" and holds neither whitespace nor a bar is read back as that
    URL, and the table written for such entries as their URLs, in the
    order of the rows; a run on a vault whose aggregated file is that
    table asks for the first five of them. *)
Theorem table_read_back (U : UnicodeData) (L : Libraries) (C : Config)
  (entries : list entry) :
  Forall Spec.tidy_entry entries ->
  Forall (fun e => row_url (Spec.row_line e) = [entry_url e]) entries
  /\ flat_map row_url (file_lines (write_table entries))
     = map entry_url entries
  /\ (forall w,
         lookup (AGGREGATED_FILE C) (files w) = Some (write_table entries) ->
         Spec.gets (calls (snd (fetch_mode U L C w)))
         = Spec.gets (calls w) ++ firstn 5 (map entry_url entries)).
Proof.
  intros Htidy.
  assert (Hrow : forall e, Spec.tidy_entry e ->
                           row_url (Spec.row_line e) = [entry_url e]).
  { intros [[date source] url] [[Hd _] [[Hs _] [Hhttp [Hsp Hbar]]]].
    cbn [fst snd] in *.
    apply (row_url_of_cells _ (SPACE :: url ++ [SPACE]) [[]]).
    - now apply row_has_bar_and_http.
    - eexists _, _, _. rewrite (row_cells date source url Hd Hs).
      change (SPACE :: url ++ [SPACE; Spec.BAR])
        with ((SPACE :: url) ++ [SPACE; Spec.BAR]).
      replace ((SPACE :: url) ++ [SPACE; Spec.BAR])
        with ((SPACE :: url ++ [SPACE]) ++ Spec.BAR :: []).
      + change (py "|") with [Spec.BAR].
        rewrite split_at_separator by now apply cell_no_bar.
        reflexivity.
      + cbn. now rewrite <- app_assoc.
    - now apply strip_cell. }
  assert (Hread : flat_map row_url (file_lines (write_table entries))
                  = map entry_url entries).
  { unfold write_table. rewrite header_lines. cbn [flat_map].
    change (row_url (py "# Aggregated URLs")) with (@nil str).
    change (row_url []) with (@nil str).
    change (row_url (py "| Date | Source Note | URL |")) with (@nil str).
    change (row_url (py "| :--- | :--- | :--- |")) with (@nil str).
    cbn [app]. unfold file_lines.
    induction Htidy as [|e entries He _ IH]; [reflexivity|].
    cbn [map concat]. rewrite table_row_line, <- app_assoc. cbn [app].
    rewrite lines_from_line.
    - cbn [flat_map map]. rewrite (Hrow e He), IH. reflexivity.
    - reflexivity.
    - destruct e as [[date source] url].
      destruct He as [[_ [Hd1 Hd2]] [[_ [Hs1 Hs2]] [_ [Hsp _]]]].
      cbn [fst snd] in *. unfold Spec.row_line.
      repeat (apply Forall_app; split); try (repeat constructor).
      + apply Forall_forall. intros c Hc.
        apply orb_false_iff. split; apply N.eqb_neq; congruence.
      + apply Forall_forall. intros c Hc.
        apply orb_false_iff. split; apply N.eqb_neq; congruence.
      + apply Forall_forall. intros c Hc.
        rewrite Forall_forall in Hsp. specialize (Hsp c Hc).
        apply orb_false_iff. split; apply N.eqb_neq; intros ->;
          discriminate. }
  split; [|split].
  - apply Forall_forall. intros e He. apply Hrow.
    rewrite Forall_forall in Htidy. now apply Htidy.
  - exact Hread.
  - intros w Hw. unfold fetch_mode. rewrite Hw, Hread.
    apply for_each_run.
Qed.

Lemma page_entry_tidy : Spec.tidy_entry Examples.page_entry.
Proof.
  unfold Spec.tidy_entry, Spec.plain_field, Spec.tidy_url. cbn [fst snd].
  repeat split; try (cbn; intuition discriminate).
  repeat constructor.
Qed.

Lemma table_read_back_witness :
  flat_map row_url (file_lines (write_table [Examples.page_entry]))
  = [Examples.page_url].
Proof.
  apply (table_read_back Examples.ascii_only Examples.article_site
           Examples.vault [Examples.page_entry]).
  constructor; [exact page_entry_tidy | constructor].
Defined.

Lemma fetch_mode_run_witness :
  Spec.gets (calls (snd (fetch_mode Examples.ascii_only Examples.article_site
                           Examples.vault Examples.table_world)))
  = [Examples.page_url].
Proof.
  destruct (fetch_mode_run Examples.ascii_only Examples.article_site
              Examples.vault Examples.table_world) as [_ [_ [_ [H _]]]].
  rewrite (H _ eq_refl). reflexivity.
Defined.

(** A bar cuts a URL short: in a row whose URL holds a bar, fetch_mode
    reads the URL only up to its first bar. *)
Theorem bar_cuts_url (date source a b : str) :
  ~ In Spec.BAR date -> ~ In Spec.BAR source ->
  startswith a (py "http") = true ->
  Forall (fun c => isspace c = false) a ->
  ~ In Spec.BAR a ->
  row_url (Spec.row_line (date, source, a ++ Spec.BAR :: b)) = [a].
Proof.
  intros Hd Hs Hhttp Hsp Hbar.
  apply (row_url_of_cells _ (SPACE :: a)
           (split (b ++ [SPACE; Spec.BAR]) (py "|"))).
  - apply row_has_bar_and_http. apply startswith_app in Hhttp.
    destruct Hhttp as [rest ->]. apply startswith_app.
    exists (rest ++ Spec.BAR :: b). now rewrite <- app_assoc.
  - eexists _, _, _. rewrite (row_cells date source _ Hd Hs).
    replace (SPACE :: (a ++ Spec.BAR :: b) ++ [SPACE; Spec.BAR])
      with ((SPACE :: a) ++ Spec.BAR :: (b ++ [SPACE; Spec.BAR])).
    + change (py "|") with [Spec.BAR].
      rewrite split_at_separator; [reflexivity|].
      intros [E | Hin]; [discriminate | auto].
    + cbn. now rewrite <- app_assoc.
  - rewrite strip_leading_space. now apply strip_no_space.
Qed.

Lemma bar_cuts_url_witness :
  row_url (Spec.row_line (py "2024-01-02", py "[[2024-01-02]]",
                          py "http://example.com/a|b"))
  = [py "http://example.com/a"].
Proof.
  apply (bar_cuts_url (py "2024-01-02") (py "[[2024-01-02]]")
           (py "http://example.com/a") (py "b")).
  - cbn. intuition discriminate.
  - cbn. intuition discriminate.
  - reflexivity.
  - repeat constructor.
  - cbn. intuition discriminate.
Defined.

(** ** File names *)

Lemma clean_filename_chars (U : UnicodeData) (title : str) (c : N) :
  In c (clean_filename U title) ->
  c <> SPACE /\ (c = 95 \/ kept U c = true).
Proof.
  unfold clean_filename. cbv zeta.
  change (py " ") with [SPACE]. change (py "_") with [95].
  rewrite replace_char. intros H. apply firstn_incl in H.
  apply in_map_iff in H. destruct H as [d [Hd Hin]].
  apply rstrip_incl in Hin. apply filter_In in Hin. destruct Hin as [_ Hk].
  destruct (d =? SPACE) eqn:E.
  - subst c. split; [discriminate | now left].
  - subst c. apply N.eqb_neq in E. split; [exact E | now right].
Qed.

Lemma slash_not_kept (U : UnicodeData) : kept U Spec.SLASH = false.
Proof. reflexivity. Qed.

Lemma note_name_no_slash (U : UnicodeData) (title : str) :
  ~ In Spec.SLASH (clean_filename U title ++ py ".md").
Proof.
  intros H. apply in_app_or in H. destruct H as [H | H].
  - apply clean_filename_chars in H. destruct H as [_ [H | H]].
    + discriminate.
    + now rewrite slash_not_kept in H.
  - cbn in H. intuition discriminate.
Qed.

(** A note never leaves the articles directory: whatever the title and
    the URL, the name of the note holds no "/", so its path is the
    directory followed by that name (with a "/" between them unless the
    directory ends in one or is empty), and every note a run on one URL
    writes is written to such a path. *)
Theorem note_stays_in_articles_dir (U : UnicodeData) (L : Libraries)
  (C : Config) (url : str) (w : World) :
  (forall title,
      let name := clean_filename U (note_title url title) ++ py ".md" in
      ~ In Spec.SLASH name
      /\ Spec.note_path U C url title
         = if endswith (ARTICLES_DIR C) (py "/")
              || negb (truthy (ARTICLES_DIR C))
           then ARTICLES_DIR C ++ name
           else ARTICLES_DIR C ++ py "/" ++ name)
  /\ (forall path body,
         In (CallWrite path body) (calls (snd (fetch_mode_url U L C url w))) ->
         In (CallWrite path body) (calls w)
         \/ exists name,
              ~ In Spec.SLASH name
              /\ (path = ARTICLES_DIR C ++ name
                  \/ path = ARTICLES_DIR C ++ py "/" ++ name)).
Proof.
  assert (Hpath : forall title,
    ~ In Spec.SLASH (clean_filename U (note_title url title) ++ py ".md")
    /\ Spec.note_path U C url title
       = if endswith (ARTICLES_DIR C) (py "/")
            || negb (truthy (ARTICLES_DIR C))
         then ARTICLES_DIR C
              ++ (clean_filename U (note_title url title) ++ py ".md")
         else ARTICLES_DIR C ++ py "/"
              ++ (clean_filename U (note_title url title) ++ py ".md")).
  { intros title. split; [apply note_name_no_slash|].
    unfold Spec.note_path, os_path_join.
    destruct (startswith _ (py "/")) eqn:E; [|reflexivity].
    exfalso. apply startswith_app in E. destruct E as [rest E].
    apply (note_name_no_slash U (note_title url title)).
    rewrite E. now left. }
  split; [exact Hpath|].
  intros path body Hin.
  destruct (fetch_returns U L url w) as [[title text] Hres].
  destruct (fetch_mode_url_writes U L C url w title text path body Hres Hin)
    as [H | H]; [now left|].
  right. exists (clean_filename U (note_title url title) ++ py ".md").
  destruct (Hpath title) as [Hno Hp]. split; [exact Hno|].
  fold (Spec.note_path U C url title) in H. rewrite H, Hp.
  destruct (endswith _ _ || negb _); auto.
Qed.

Lemma split_ends_empty (sep : N) (a : str) :
  exists l, split (a ++ [sep]) [sep] = l ++ [[]] /\ l <> [].
Proof.
  unfold split. induction a as [|c a [l [IH Hl]]]; cbn.
  - rewrite N.eqb_refl. now exists [[]].
  - destruct (sep =? c); cbn.
    + rewrite IH. exists ([] :: l). split; [reflexivity | discriminate].
    + rewrite IH. destruct l as [|x l]; [congruence|].
      exists ((c :: x) :: l). split; [reflexivity | discriminate].
Qed.

(** A URL that ends in "/" has an empty URL-derived name, for which the
    derived file name is empty too: every page fetched without a title (or
    as "PDF Document") from such a URL is filed under the bare name ".md"
    of the articles directory. *)
Theorem trailing_slash_note (U : UnicodeData) (C : Config) (url : str) :
  endswith url (py "/") = true ->
  url_name url = []
  /\ forall title,
       Spec.untitled title ->
       Spec.note_path U C url title
       = os_path_join (ARTICLES_DIR C) (py ".md").
Proof.
  intros H. apply endswith_app in H. destruct H as [front ->].
  assert (E : url_name (front ++ py "/") = []).
  { unfold url_name. change (py "/") with [Spec.SLASH].
    destruct (split_ends_empty Spec.SLASH front) as [l [-> _]].
    now rewrite last_last. }
  split; [exact E|]. intros title Hu.
  unfold Spec.note_path, note_title. apply unnamed_iff in Hu.
  destruct title as [t|]; [rewrite Hu|]; now rewrite E.
Qed.

Lemma trailing_slash_note_witness :
  url_name Examples.page_url = []
  /\ Spec.note_path Examples.ascii_only Examples.vault Examples.page_url None
     = py "/vault/_notes/_articles/.md".
Proof.
  destruct (trailing_slash_note Examples.ascii_only Examples.vault
              Examples.page_url eq_refl) as [H1 H2].
  split; [exact H1|]. rewrite (H2 None); [reflexivity | now left].
Defined.

Lemma note_stays_in_articles_dir_witness :
  In (CallWrite Examples.headline_path
        (note_content Examples.article_site Examples.page_url
           (py "Headline") (py "A summary.") (repeat 97 301)))
     (calls Examples.empty_world)
  \/ exists name,
       ~ In Spec.SLASH name
       /\ (Examples.headline_path = ARTICLES_DIR Examples.vault ++ name
           \/ Examples.headline_path
              = ARTICLES_DIR Examples.vault ++ py "/" ++ name).
Proof.
  apply (proj2 (note_stays_in_articles_dir Examples.ascii_only
                  Examples.article_site Examples.vault Examples.page_url
                  Examples.empty_world)).
  vm_compute. do 3 right. left. reflexivity.
Defined.

Lemma ascii_alnum_not_space (c : N) :
  ascii_isalnum c = true -> isspace c = false.
Proof.
  intros H. apply not_true_is_false. intros Hs.
  unfold ascii_isalnum, isspace, in_range in *.
  rewrite ?orb_true_iff, ?andb_true_iff, ?N.leb_le, ?N.eqb_eq in *.
  lia.
Qed.

Lemma filter_all {A : Type} (f : A -> bool) (l : list A) :
  Forall (fun x => f x = true) l -> filter f l = l.
Proof.
  induction 1 as [|x l Hx _ IH]; cbn; [reflexivity|]. now rewrite Hx, IH.
Qed.

Lemma rstrip_no_space (s : str) :
  Forall (fun c => isspace c = false) s -> rstrip s = s.
Proof.
  intros H. unfold rstrip. rewrite lstrip_no_space.
  - apply rev_involutive.
  - now apply Forall_rev.
Qed.

(** Cleaning a clean name changes nothing: with a character database that
    has no whitespace among its alphanumeric characters, [clean_filename]
    applied to one of its own results gives that result back. *)
Theorem clean_filename_idempotent (U : UnicodeData) (title : str) :
  Spec.alnum_not_space U ->
  clean_filename U (clean_filename U title) = clean_filename U title.
Proof.
  intros HU.
  assert (Hlen : (length (clean_filename U title) <= 60)%nat).
  { unfold clean_filename. cbv zeta. apply firstn_le_length. }
  pose proof (clean_filename_chars U title) as Hc.
  set (r := clean_filename U title) in *.
  assert (Hkept : Forall (fun c => kept U c = true) r).
  { apply Forall_forall. intros c Hin.
    destruct (Hc c Hin) as [_ [-> | H]]; [reflexivity | exact H]. }
  assert (Hns : Forall (fun c => isspace c = false) r).
  { apply Forall_forall. intros c Hin.
    destruct (Hc c Hin) as [Hsp [-> | H]]; [reflexivity|].
    unfold kept, keepcharacters, isalnum in H. cbn [existsb] in H.
    rewrite !orb_true_iff, !N.eqb_eq in H.
    destruct H as [H | [H | [H | [H | H]]]]; subst; try reflexivity;
      try (now elim Hsp); try discriminate.
    destruct (is_ascii c).
    - now apply ascii_alnum_not_space.
    - now apply HU. }
  unfold clean_filename at 1. cbv zeta.
  rewrite (filter_all _ _ Hkept), (rstrip_no_space _ Hns).
  change (py " ") with [SPACE]. change (py "_") with [95].
  rewrite replace_char.
  rewrite (map_ext_in _ (fun c => c)), map_id.
  - now apply firstn_all2.
  - intros c Hin. destruct (Hc c Hin) as [Hsp _].
    apply N.eqb_neq in Hsp. now rewrite Hsp.
Qed.

Lemma clean_filename_idempotent_witness :
  clean_filename Examples.ascii_only
    (clean_filename Examples.ascii_only (py "A/B: Report?? 2024"))
  = clean_filename Examples.ascii_only (py "A/B: Report?? 2024").
Proof.
  apply (clean_filename_idempotent Examples.ascii_only).
  intros c H. discriminate.
Defined.

(** ** digest_mode *)

Section ModeProperties.

Variable L : Libraries.
Variable C : Config.
Variable D : Desk.

Lemma digest_file_run (filename summaries : str) (w : World) :
  digest_file C D (Spec.today_str D) filename summaries w
  = (Ok (summaries
         ++ match Spec.article_note C D (files w) filename with
            | Some post =>
                if eqb (post_date_str post) (Spec.today_str D)
                then Spec.digest_section post else []
            | None => []
            end), w).
Proof.
  unfold digest_file, Spec.article_note.
  destruct (endswith filename (py ".md")); [|cbn; now rewrite app_nil_r].
  unfold try_except, bind, frontmatter_load, ret.
  destruct (lookup _ (files w)) as [text|]; [|now rewrite app_nil_r].
  destruct (frontmatter_loads D text) as [post|]; [|now rewrite app_nil_r].
  destruct (eqb (post_date_str post) (Spec.today_str D));
    [reflexivity | now rewrite app_nil_r].
Qed.

Lemma digest_files_run (filenames : list str) (summaries : str) (w : World) :
  digest_files C D (Spec.today_str D) filenames summaries w
  = (Ok (summaries
         ++ concat (map Spec.digest_section
              (flat_map (fun filename =>
                 match Spec.article_note C D (files w) filename with
                 | Some post =>
                     if eqb (post_date_str post) (Spec.today_str D)
                     then [post] else []
                 | None => []
                 end) filenames))), w).
Proof.
  revert summaries. induction filenames as [|f rest IH]; intros summaries.
  - cbn. now rewrite app_nil_r.
  - cbn [digest_files flat_map]. unfold bind. rewrite digest_file_run, IH.
    rewrite map_app, concat_app, <- app_assoc. do 3 f_equal.
    destruct (Spec.article_note C D (files w) f) as [post|];
      [|reflexivity].
    destruct (eqb _ _); [cbn; now rewrite app_nil_r | reflexivity].
Qed.

(** The run of digest_mode: nothing, or one request and one append. *)
Lemma digest_mode_run (w : World) :
  digest_mode L C D w
  = (Ok tt,
     let input := Spec.digest_input C D (files w) in
     if truthy input then
       let user := firstn (N.to_nat 25000) input in
       let answer :=
         match chat_completions_create L (py "gpt-4o")
                 (system_prompts digest) user with
         | Ok a => a
         | Raise => None
         end in
       let section := Spec.digest_heading ++ str_of_option answer ++ [NL] in
       let old := match lookup (Spec.daily_note_path D) (files w) with
                  | Some t => t
                  | None => []
                  end in
       {| files := (Spec.daily_note_path D, old ++ section) :: files w;
          calls := calls w
                   ++ [CallChat (py "gpt-4o") (system_prompts digest) user;
                       CallWrite (Spec.daily_note_path D) section] |}
     else w).
Proof.
  unfold digest_mode. cbv zeta. fold (Spec.today_str D).
  fold (Spec.daily_note_path D). unfold bind at 1.
  assert (E : (if articles_dir_exists D
               then digest_files C D (Spec.today_str D) (listdir D) []
               else ret []) w
              = (Ok (Spec.digest_input C D (files w)), w)).
  { unfold Spec.digest_input, Spec.todays_notes.
    destruct (articles_dir_exists D); [|reflexivity].
    now rewrite digest_files_run. }
  rewrite E. destruct (truthy (Spec.digest_input C D (files w)));
    [|reflexivity].
  cbn [negb]. unfold bind, get_ai_summary, try_except, invoke, append_file.
  destruct (chat_completions_create L _ _ _) as [a|];
    unfold ret, log; cbn [files calls]; rewrite <- app_assoc; reflexivity.
Qed.

End ModeProperties.

Lemma sections_truthy {A : Type} (section : A -> str) (l : list A) :
  (forall x, exists c rest, section x = c :: rest) ->
  l <> [] -> truthy (concat (map section l)) = true.
Proof.
  intros H Hl. destruct l as [|x l]; [congruence|].
  cbn. destruct (H x) as [c [rest ->]]. reflexivity.
Qed.

(** Nothing to digest, nothing done: when the articles directory is
    missing, or none of the notes it lists that load is dated today,
    digest_mode leaves the world as it is, without a request and without
    touching the daily note. *)
Theorem digest_mode_quiet (L : Libraries) (C : Config) (D : Desk)
  (w : World) :
  articles_dir_exists D = false
  \/ Forall (fun filename =>
               forall post,
                 Spec.article_note C D (files w) filename = Some post ->
                 post_date_str post <> Spec.today_str D)
            (listdir D) ->
  digest_mode L C D w = (Ok tt, w).
Proof.
  intros H. rewrite digest_mode_run. cbv zeta.
  assert (E : Spec.todays_notes C D (files w) = []).
  { unfold Spec.todays_notes. destruct H as [-> | H]; [reflexivity|].
    destruct (articles_dir_exists D); [|reflexivity].
    induction H as [|f rest Hf _ IH]; [reflexivity|].
    cbn [flat_map]. rewrite IH, app_nil_r.
    destruct (Spec.article_note C D (files w) f) as [post|]; [|reflexivity].
    destruct (eqb _ _) eqn:Heq; [|reflexivity].
    apply eqb_eq in Heq. now elim (Hf post eq_refl). }
  unfold Spec.digest_input. now rewrite E.
Qed.

Lemma digest_mode_quiet_witness :
  digest_mode Examples.article_site Examples.vault Examples.bare_desk
    Examples.noted_world
  = (Ok tt, Examples.noted_world).
Proof.
  apply (digest_mode_quiet Examples.article_site Examples.vault
           Examples.bare_desk Examples.noted_world).
  right. constructor.
Defined.

(** The digest is appended: when some listed note is dated today,
    digest_mode makes one request, to "gpt-4o" with the digest prompt and
    the first 25000 characters of the notes' sections, and then one write,
    to the daily note.  The daily note keeps the text it had and gains the
    digest heading followed by the service's answer, or by the word "None"
    when the request raised or came back empty-handed; every other file
    reads as before. *)
Theorem digest_mode_appends (L : Libraries) (C : Config) (D : Desk)
  (w : World) (post : Post) :
  In post (Spec.todays_notes C D (files w)) ->
  let w' := snd (digest_mode L C D w) in
  let user := firstn (N.to_nat 25000) (Spec.digest_input C D (files w)) in
  let section :=
    Spec.digest_heading
    ++ match chat_completions_create L (py "gpt-4o")
               (system_prompts digest) user with
       | Ok (Some answer) => answer
       | _ => py "None"
       end
    ++ [NL] in
  calls w'
  = calls w ++ [CallChat (py "gpt-4o") (system_prompts digest) user;
                CallWrite (Spec.daily_note_path D) section]
  /\ lookup (Spec.daily_note_path D) (files w')
     = Some (match lookup (Spec.daily_note_path D) (files w) with
             | Some old => old
             | None => []
             end ++ section)
  /\ (forall p, p <> Spec.daily_note_path D ->
                lookup p (files w') = lookup p (files w)).
Proof.
  intros Hin. cbv zeta. rewrite digest_mode_run. cbv zeta. cbn [snd].
  assert (E : truthy (Spec.digest_input C D (files w)) = true).
  { apply sections_truthy.
    - intros x. now eexists _, _.
    - intros E. now rewrite E in Hin. }
  rewrite E. cbn [files calls].
  assert (S : str_of_option
                match chat_completions_create L (py "gpt-4o")
                        (system_prompts digest)
                        (firstn (N.to_nat 25000)
                           (Spec.digest_input C D (files w))) with
                | Ok a => a
                | Raise => None
                end
              = match chat_completions_create L (py "gpt-4o")
                        (system_prompts digest)
                        (firstn (N.to_nat 25000)
                           (Spec.digest_input C D (files w))) with
                | Ok (Some answer) => answer
                | _ => py "None"
                end).
  { now destruct (chat_completions_create L _ _ _) as [[a|]|]. }
  rewrite S. split; [reflexivity|]. split.
  - apply lookup_head.
  - intros p Hp. now apply lookup_other.
Qed.

Lemma digest_mode_appends_witness :
  lookup (py "/vault/_notes/2024-01-02.md")
    (files (snd (digest_mode Examples.mute_article_site Examples.vault
                   Examples.desk Examples.noted_world)))
  = Some (Spec.digest_heading ++ py "None" ++ [NL]).
Proof.
  apply (digest_mode_appends Examples.mute_article_site Examples.vault
           Examples.desk Examples.noted_world Examples.todays_post).
  vm_compute. now left.
Defined.

(** ** review_mode *)

Section ReviewProperties.

Variable L : Libraries.
Variable C : Config.
Variable D : Desk.

Lemma review_file_run (filename combined_text : str) (w : World) :
  review_file C D (today D - 7)%Z filename combined_text w
  = (Ok (combined_text
         ++ match Spec.article_note C D (files w) filename with
            | Some post =>
                if Spec.in_week D post
                then Spec.review_section (filename, post) else []
            | None => []
            end), w).
Proof.
  unfold review_file, Spec.article_note, Spec.in_week.
  destruct (endswith filename (py ".md")); [|cbn; now rewrite app_nil_r].
  unfold try_except, bind, frontmatter_load, lift, ret.
  destruct (lookup _ (files w)) as [text|]; [|now rewrite app_nil_r].
  destruct (frontmatter_loads D text) as [post|]; [|now rewrite app_nil_r].
  destruct (post_date_day post) as [d|]; [|now rewrite app_nil_r].
  destruct ((today D - 7 <=? d) && (d <=? today D))%Z;
    [reflexivity | now rewrite app_nil_r].
Qed.

Lemma review_files_run (filenames : list str) (combined_text : str)
  (w : World) :
  review_files C D (today D - 7)%Z filenames combined_text w
  = (Ok (combined_text
         ++ concat (map Spec.review_section
              (flat_map (fun filename =>
                 match Spec.article_note C D (files w) filename with
                 | Some post =>
                     if Spec.in_week D post then [(filename, post)] else []
                 | None => []
                 end) filenames))), w).
Proof.
  revert combined_text.
  induction filenames as [|f rest IH]; intros combined_text.
  - cbn. now rewrite app_nil_r.
  - cbn [review_files flat_map]. unfold bind. rewrite review_file_run, IH.
    rewrite map_app, concat_app, <- app_assoc. do 3 f_equal.
    destruct (Spec.article_note C D (files w) f) as [post|];
      [|reflexivity].
    destruct (Spec.in_week D post); [cbn; now rewrite app_nil_r | reflexivity].
Qed.

(** The run of review_mode: nothing, or one request and one write. *)
Lemma review_mode_run (w : World) :
  review_mode L C D w
  = (Ok tt,
     let input := Spec.review_input C D (files w) in
     if truthy input then
       let user := firstn (N.to_nat 25000) input in
       let answer :=
         match chat_completions_create L (py "gpt-4o")
                 (system_prompts review) user with
         | Ok a => a
         | Raise => None
         end in
       let text := py "# Weekly Review" ++ [NL] ++ str_of_option answer in
       {| files := (Spec.review_path D, text) :: files w;
          calls := calls w
                   ++ [CallChat (py "gpt-4o") (system_prompts review) user;
                       CallWrite (Spec.review_path D) text] |}
     else w).
Proof.
  unfold review_mode. cbv zeta. fold (Spec.review_path D).
  unfold bind at 1.
  assert (E : (if articles_dir_exists D
               then review_files C D (today D - 7)%Z (listdir D) []
               else ret []) w
              = (Ok (Spec.review_input C D (files w)), w)).
  { unfold Spec.review_input, Spec.weeks_notes.
    destruct (articles_dir_exists D); [|reflexivity].
    now rewrite review_files_run. }
  rewrite E. destruct (truthy (Spec.review_input C D (files w)));
    [|reflexivity].
  cbn [negb]. unfold bind, get_ai_summary, try_except, invoke, write_file.
  destruct (chat_completions_create L _ _ _) as [a|];
    unfold ret, log; cbn [files calls]; rewrite <- app_assoc; reflexivity.
Qed.

End ReviewProperties.

Lemma in_week_iff (D : Desk) (post : Post) :
  Spec.in_week D post = true <->
  exists d, post_date_day post = Ok d
            /\ (today D - 7 <= d <= today D)%Z.
Proof.
  unfold Spec.in_week. destruct (post_date_day post) as [d|].
  - rewrite andb_true_iff, !Z.leb_le. split.
    + intros H. now exists d.
    + intros [d' [E H]]. injection E as <-. exact H.
  - split; [discriminate | intros [d [E _]]; discriminate].
Qed.

(** Nothing in the week, nothing done: when the articles directory is
    missing, or every listed note that loads has no usable date or a date
    more than seven days back or after today, review_mode leaves the
    world as it is. *)
Theorem review_mode_quiet (L : Libraries) (C : Config) (D : Desk)
  (w : World) :
  articles_dir_exists D = false
  \/ Forall (fun filename =>
               forall post d,
                 Spec.article_note C D (files w) filename = Some post ->
                 post_date_day post = Ok d ->
                 (d < today D - 7 \/ today D < d)%Z)
            (listdir D) ->
  review_mode L C D w = (Ok tt, w).
Proof.
  intros H. rewrite review_mode_run. cbv zeta.
  assert (E : Spec.weeks_notes C D (files w) = []).
  { unfold Spec.weeks_notes. destruct H as [-> | H]; [reflexivity|].
    destruct (articles_dir_exists D); [|reflexivity].
    induction H as [|f rest Hf _ IH]; [reflexivity|].
    cbn [flat_map]. rewrite IH, app_nil_r.
    destruct (Spec.article_note C D (files w) f) as [post|]; [|reflexivity].
    destruct (Spec.in_week D post) eqn:Hin; [|reflexivity].
    apply in_week_iff in Hin. destruct Hin as [d [Hd Hrange]].
    specialize (Hf post d eq_refl Hd). lia. }
  unfold Spec.review_input. now rewrite E.
Qed.

Lemma review_mode_quiet_witness :
  review_mode Examples.article_site Examples.vault Examples.bare_desk
    Examples.noted_world
  = (Ok tt, Examples.noted_world).
Proof.
  apply (review_mode_quiet Examples.article_site Examples.vault
           Examples.bare_desk Examples.noted_world).
  right. constructor.
Defined.

(** The review replaces what was there: when a listed note ending in
    ".md" loads with a date from seven days before today up to today,
    review_mode makes one request, to "gpt-4o" with the review prompt, and
    writes the review file, named after the two ends of the week.  Read
    back, the file is the heading and the service's answer, or the word
    "None" when the request raised or answered with nothing, whatever
    the file held before; every other file reads as before. *)
Theorem review_mode_overwrites (L : Libraries) (C : Config) (D : Desk)
  (w : World) (filename : str) (post : Post) (d : Z) :
  articles_dir_exists D = true ->
  In filename (listdir D) ->
  Spec.article_note C D (files w) filename = Some post ->
  post_date_day post = Ok d ->
  (today D - 7 <= d <= today D)%Z ->
  let w' := snd (review_mode L C D w) in
  let user := firstn (N.to_nat 25000) (Spec.review_input C D (files w)) in
  let text :=
    py "# Weekly Review" ++ [NL]
    ++ match chat_completions_create L (py "gpt-4o")
               (system_prompts review) user with
       | Ok (Some answer) => answer
       | _ => py "None"
       end in
  calls w'
  = calls w ++ [CallChat (py "gpt-4o") (system_prompts review) user;
                CallWrite (Spec.review_path D) text]
  /\ lookup (Spec.review_path D) (files w') = Some text
  /\ (forall p, p <> Spec.review_path D ->
                lookup p (files w') = lookup p (files w))
  /\ In (filename, post) (Spec.weeks_notes C D (files w)).
Proof.
  intros Hdir Hlist Hnote Hday Hrange. cbv zeta.
  assert (Hin : In (filename, post) (Spec.weeks_notes C D (files w))).
  { unfold Spec.weeks_notes. rewrite Hdir. apply in_flat_map.
    exists filename. split; [exact Hlist|]. rewrite Hnote.
    assert (Hw : Spec.in_week D post = true).
    { apply in_week_iff. now exists d. }
    rewrite Hw. now left. }
  rewrite review_mode_run. cbv zeta. cbn [snd].
  assert (E : truthy (Spec.review_input C D (files w)) = true).
  { apply sections_truthy.
    - intros x. now eexists _, _.
    - intros E. now rewrite E in Hin. }
  rewrite E. cbn [files calls].
  assert (S : str_of_option
                match chat_completions_create L (py "gpt-4o")
                        (system_prompts review)
                        (firstn (N.to_nat 25000)
                           (Spec.review_input C D (files w))) with
                | Ok a => a
                | Raise => None
                end
              = match chat_completions_create L (py "gpt-4o")
                        (system_prompts review)
                        (firstn (N.to_nat 25000)
                           (Spec.review_input C D (files w))) with
                | Ok (Some answer) => answer
                | _ => py "None"
                end).
  { now destruct (chat_completions_create L _ _ _) as [[a|]|]. }
  rewrite S. split; [reflexivity|]. split; [apply lookup_head|].
  split; [|exact Hin].
  intros p Hp. now apply lookup_other.
Qed.

Lemma review_mode_overwrites_witness :
  lookup (py "/vault/_notes/Week-Review-20231226-20240102.md")
    (files (snd (review_mode Examples.article_site Examples.vault
                   Examples.desk Examples.noted_world)))
  = Some (py "# Weekly Review" ++ [NL] ++ py "A summary.").
Proof.
  apply (review_mode_overwrites Examples.article_site Examples.vault
           Examples.desk Examples.noted_world (py "Headline.md")
           Examples.todays_post Examples.jan_2).
  - reflexivity.
  - now left.
  - reflexivity.
  - reflexivity.
  - unfold Examples.desk, Examples.jan_2. cbn. lia.
Defined.

(** ** The shape of normalised text *)

Lemma lstrip_suffix (s : str) : exists a, s = a ++ lstrip s.
Proof.
  induction s as [|c s [a IH]]; [now exists []|]. cbn.
  destruct (isspace c).
  - exists (c :: a). cbn. now rewrite <- IH.
  - now exists [].
Qed.

Lemma rstrip_prefix (s : str) : exists b, s = rstrip s ++ b.
Proof.
  unfold rstrip. destruct (lstrip_suffix (rev s)) as [a H].
  exists (rev a). rewrite <- rev_app_distr, <- H. symmetry.
  apply rev_involutive.
Qed.

Lemma strip_segment (s : str) : exists a b, s = a ++ strip s ++ b.
Proof.
  unfold strip. destruct (lstrip_suffix s) as [a Ha].
  destruct (rstrip_prefix (lstrip s)) as [b Hb].
  exists a, b. now rewrite <- Hb.
Qed.

Lemma lstrip_head (s : str) :
  lstrip s = [] \/ exists c r, lstrip s = c :: r /\ isspace c = false.
Proof.
  induction s as [|c s IH]; [now left|]. cbn.
  destruct (isspace c) eqn:E; [exact IH|]. right. now exists c, s.
Qed.

Lemma lstrip_fixed (s : str) :
  s = [] \/ (exists c r, s = c :: r /\ isspace c = false) -> lstrip s = s.
Proof. intros [-> | [c [r [-> H]]]]; cbn; [reflexivity | now rewrite H]. Qed.

Lemma lstrip_lstrip (s : str) : lstrip (lstrip s) = lstrip s.
Proof. apply lstrip_fixed. apply lstrip_head. Qed.

Lemma rstrip_rstrip (s : str) : rstrip (rstrip s) = rstrip s.
Proof. unfold rstrip. now rewrite rev_involutive, lstrip_lstrip. Qed.

Lemma strip_strip (s : str) : strip (strip s) = strip s.
Proof.
  unfold strip.
  assert (E : lstrip (rstrip (lstrip s)) = rstrip (lstrip s)).
  { apply lstrip_fixed.
    destruct (rstrip_prefix (lstrip s)) as [b Hb].
    destruct (rstrip (lstrip s)) as [|c r]; [now left|]. right.
    exists c, r. split; [reflexivity|].
    destruct (lstrip_head s) as [H | [c' [r' [H Hc]]]];
      rewrite H in Hb; [discriminate|].
    cbn in Hb. injection Hb as -> _. exact Hc. }
  now rewrite E, rstrip_rstrip.
Qed.

Lemma contains_segment (sub s a b : str) :
  contains sub (a ++ s ++ b) = false -> contains sub s = false.
Proof.
  intros H. apply not_true_is_false. intros Hs. apply contains_app in Hs.
  destruct Hs as [front [back ->]].
  assert (Ht : contains sub (a ++ (front ++ sub ++ back) ++ b) = true).
  { apply contains_app. exists (a ++ front), (back ++ b).
    now rewrite <- !app_assoc. }
  congruence.
Qed.

Lemma strip_incl (s : str) (c : N) : In c (strip s) -> In c s.
Proof. intros H. now apply lstrip_incl, rstrip_incl. Qed.

Lemma lines_no_boundary (brk : N -> bool) (after_cr : bool) (s line : str) :
  In line (lines_from brk after_cr s) -> Forall (fun c => brk c = false) line.
Proof.
  revert after_cr line.
  induction s as [|c s IH]; intros after_cr line; cbn; [tauto|].
  destruct (after_cr && (c =? NL)); [apply IH|].
  destruct (brk c) eqn:E.
  - intros [<- | H]; [constructor | now apply (IH _ _ H)].
  - destruct (lines_from brk false s) as [|x l] eqn:El; cbn.
    + intros [<- | []]. now repeat constructor.
    + intros [<- | H].
      * constructor; [exact E|]. apply (IH false). rewrite El. now left.
      * apply (IH false). rewrite El. now right.
Qed.

Lemma lines_from_one (brk : N -> bool) (line : str) :
  Forall (fun c => brk c = false) line -> line <> [] ->
  lines_from brk false line = [line].
Proof.
  intros H. induction H as [|c l Hc Hl IH]; [congruence|]. intros _.
  cbn. rewrite Hc. destruct l as [|d l]; [reflexivity|].
  rewrite IH; [reflexivity | discriminate].
Qed.

Lemma splitlines_join (lines : list str) :
  Forall (fun l => l <> [] /\ Forall (fun c => is_linebreak c = false) l)
    lines ->
  splitlines (join [NL] lines) = lines.
Proof.
  unfold splitlines. intros H.
  induction H as [|l rest [Hne Hl] Hrest IH]; [reflexivity|].
  destruct rest as [|l' rest].
  - cbn [join]. now apply lines_from_one.
  - change (join [NL] (l :: l' :: rest))
      with (l ++ [NL] ++ join [NL] (l' :: rest)).
    cbn [app]. rewrite lines_from_line; [|reflexivity | exact Hl].
    now rewrite IH.
Qed.

Lemma split_head_space (s x : str) (l : list str) :
  split s (py "  ") = x :: l ->
  startswith x [SPACE] = true -> startswith s [SPACE] = true.
Proof.
  unfold split. destruct s as [|c s]; cbn [split_from].
  - intros E. injection E as <- _. discriminate.
  - destruct (startswith (c :: s) (py "  ")).
    + intros E. injection E as <- _. discriminate.
    + destruct (split_from (py "  ") 0 s) as [|y l']; cbn [cons_head];
        intros E; injection E as <- _; cbn; intros H; exact H.
Qed.

Lemma split_pieces_single_spaced (k : nat) (s x : str) :
  In x (split_from (py "  ") k s) -> contains (py "  ") x = false.
Proof.
  revert k x. induction s as [|c s IH]; intros k x; cbn [split_from].
  - intros [<- | []]. reflexivity.
  - destruct k as [|k]; [|apply IH].
    destruct (startswith (c :: s) (py "  ")) eqn:Hsep.
    + intros [<- | H]; [reflexivity | now apply (IH _ _ H)].
    + destruct (split_from (py "  ") 0 s) as [|y l] eqn:E; cbn [cons_head].
      * intros [<- | []]. cbn. now rewrite !andb_false_r.
      * intros [<- | H].
        -- assert (Hy : contains (py "  ") y = false).
           { apply (IH 0%nat). rewrite E. now left. }
           cbn [contains]. rewrite Hy, orb_false_r.
           destruct (startswith (c :: y) (py "  ")) eqn:Hc; [|reflexivity].
           exfalso. cbn in Hc. apply andb_true_iff in Hc.
           destruct Hc as [Hc Hy'].
           assert (Hs : startswith s [SPACE] = true).
           { apply (split_head_space s y l E).
             destruct y as [|d y]; [discriminate|]. cbn in *.
             now rewrite andb_true_r in *. }
           cbn in Hsep. rewrite Hc in Hsep. cbn in Hsep.
           destruct s as [|d s]; [discriminate|]. cbn in Hs, Hsep.
           rewrite andb_true_r in *. congruence.
        -- apply (IH 0%nat). rewrite E. now right.
Qed.

Lemma split_single_spaced (x : str) :
  contains (py "  ") x = false -> split x (py "  ") = [x].
Proof.
  unfold split. induction x as [|c x IH]; [reflexivity|].
  cbn [contains]. intros H. apply orb_false_iff in H. destruct H as [H1 H2].
  cbn [split_from]. rewrite H1, (IH H2). reflexivity.
Qed.

(** The lines of a normalised text. *)
Lemma normalize_lines (text : str) :
  exists lines,
    normalize text = join [NL] lines /\ Forall Spec.tidy_line lines.
Proof.
  unfold normalize. cbv zeta.
  eexists. split; [reflexivity|].
  apply Forall_forall. intros ch Hch.
  apply filter_In in Hch. destruct Hch as [Hch Htruthy].
  apply in_flat_map in Hch. destruct Hch as [line [Hline Hch]].
  apply in_map_iff in Hch. destruct Hch as [piece [<- Hpiece]].
  apply in_map_iff in Hline. destruct Hline as [l0 [<- Hl0]].
  split; [|split; [|split]].
  - intros E. rewrite E in Htruthy. discriminate.
  - apply strip_strip.
  - destruct (strip_segment piece) as [a [b E]].
    apply (contains_segment _ _ a b). rewrite <- E.
    exact (split_pieces_single_spaced _ _ _ Hpiece).
  - apply Forall_forall. intros c Hc.
    apply strip_incl in Hc.
    apply (split_from_incl _ _ _ _ _ Hpiece) in Hc.
    apply strip_incl in Hc.
    pose proof (lines_no_boundary _ _ _ _ Hl0) as Hb.
    rewrite Forall_forall in Hb. now apply Hb.
Qed.

Lemma tidy_lines_read_back (lines : list str) :
  Forall Spec.tidy_line lines -> splitlines (join [NL] lines) = lines.
Proof.
  intros H. apply splitlines_join.
  apply Forall_forall. intros l Hl. rewrite Forall_forall in H.
  destruct (H l Hl) as [Hne [_ [_ Hb]]]. now split.
Qed.

(** Normalised text is made of tidy lines: its lines, as [splitlines]
    gives them back, are each non-empty, without whitespace at either
    end, without two spaces in a row; so it has no blank line and neither
    starts nor ends with a newline. *)
Theorem normalize_shape (text : str) :
  exists lines,
    normalize text = join [NL] lines
    /\ splitlines (normalize text) = lines
    /\ Forall Spec.tidy_line lines.
Proof.
  destruct (normalize_lines text) as [lines [E H]].
  exists lines. rewrite E. split; [reflexivity|]. split; [|exact H].
  now apply tidy_lines_read_back.
Qed.

(** Normalising twice is normalising once. *)
Theorem normalize_idempotent (text : str) :
  normalize (normalize text) = normalize text.
Proof.
  destruct (normalize_lines text) as [lines [E H]]. rewrite E.
  unfold normalize at 1. cbv zeta.
  rewrite (tidy_lines_read_back lines H). f_equal. clear E.
  induction H as [|l rest [Hne [Hs [Hd _]]] _ IH]; [reflexivity|].
  cbn [map flat_map]. rewrite Hs, (split_single_spaced l Hd).
  cbn [map app]. rewrite Hs. cbn [filter app].
  destruct l as [|c l]; [congruence|]. cbn [truthy].
  now rewrite IH.
Qed.

(** ** Running fetch_mode again *)

Section Reruns.

Variable U : UnicodeData.
Variable L : Libraries.
Variable C : Config.

Lemma fetch_is_fetched_at (url : str) (w : World) :
  fst (fetch_smart_content U L url w)
  = Ok (fst (Spec.fetched_at U L url), snd (Spec.fetched_at U L url)).
Proof.
  unfold Spec.fetched_at.
  rewrite (fetch_result_any_world U L url w {| files := []; calls := [] |}).
  destruct (fetch_returns U L url {| files := []; calls := [] |}) as [r ->].
  now destruct r.
Qed.

Lemma files_after_url (url : str) (w : World) :
  files (snd (fetch_mode_url U L C url w))
  = Spec.files_after U L C url (fst (Spec.fetched_at U L url))
      (snd (Spec.fetched_at U L url)) (files w).
Proof.
  apply (fetch_mode_url_files_after U L C url w).
  apply fetch_is_fetched_at.
Qed.

Lemma settled_files_after (url : str) (fs : list (str * str)) :
  Spec.settled U L C url fs = true ->
  Spec.files_after U L C url (fst (Spec.fetched_at U L url))
    (snd (Spec.fetched_at U L url)) fs = fs.
Proof.
  unfold Spec.settled, Spec.files_after.
  destruct (Spec.fetched_at U L url) as [title text]. cbn [fst snd].
  destruct (too_short text); [reflexivity|]. cbv zeta.
  destruct (lookup _ fs); [reflexivity|].
  destruct (Spec.usable_summary L _); [discriminate | reflexivity].
Qed.

Lemma files_after_settled (url : str) (fs : list (str * str)) :
  Spec.settled U L C url
    (Spec.files_after U L C url (fst (Spec.fetched_at U L url))
       (snd (Spec.fetched_at U L url)) fs) = true.
Proof.
  unfold Spec.settled, Spec.files_after.
  destruct (Spec.fetched_at U L url) as [title text]. cbn [fst snd].
  destruct (too_short text); [reflexivity|]. cbv zeta.
  destruct (lookup _ fs) eqn:E.
  - now rewrite E.
  - destruct (Spec.usable_summary L _) eqn:Es.
    + now rewrite lookup_head.
    + now rewrite E.
Qed.

Lemma settled_kept (url path body : str) (fs : list (str * str)) :
  Spec.settled U L C url fs = true ->
  Spec.settled U L C url ((path, body) :: fs) = true.
Proof.
  unfold Spec.settled.
  destruct (Spec.fetched_at U L url) as [title text].
  destruct (too_short text); [reflexivity|].
  destruct (Spec.usable_summary L _);
    [|intros _; now rewrite orb_true_r].
  rewrite !orb_false_r. cbn [orb].
  destruct (lookup _ fs) eqn:E; [|discriminate]. intros _.
  unfold lookup in *. cbn [List.find fst].
  destruct (eqb path _); [reflexivity|].
  destruct (List.find _ fs); [reflexivity | discriminate].
Qed.

Lemma settled_after_url (url url' : str) (w : World) :
  Spec.settled U L C url (files w) = true ->
  Spec.settled U L C url (files (snd (fetch_mode_url U L C url' w))) = true.
Proof.
  intros H.
  destruct (fetch_mode_url_files U L C url' w)
    as [_ [-> | [path [body [-> _]]]]]; [exact H|].
  now apply settled_kept.
Qed.

Lemma settled_after_for_each (url : str) (urls : list str) (w : World) :
  Spec.settled U L C url (files w) = true ->
  Spec.settled U L C url (files (snd (for_each U L C urls w))) = true.
Proof.
  revert w. induction urls as [|url' urls IH]; intros w H; [exact H|].
  cbn [for_each]. unfold bind.
  pose proof (settled_after_url url url' w H) as H'.
  destruct (fetch_mode_url_files U L C url' w) as [Hok _].
  destruct (fetch_mode_url U L C url' w) as [o w1]. cbn [fst snd] in *.
  subst o. now apply IH.
Qed.

Lemma for_each_settles (urls : list str) (w : World) :
  Forall (fun url =>
            Spec.settled U L C url (files (snd (for_each U L C urls w)))
            = true) urls.
Proof.
  revert w. induction urls as [|url urls IH]; intros w; [constructor|].
  cbn [for_each]. unfold bind.
  pose proof (files_after_url url w) as Hf.
  destruct (fetch_mode_url_files U L C url w) as [Hok _].
  destruct (fetch_mode_url U L C url w) as [o w1]. cbn [fst snd] in *.
  subst o. constructor; [|apply IH].
  apply settled_after_for_each. rewrite Hf. apply files_after_settled.
Qed.

Lemma for_each_settled (urls : list str) (w : World) :
  Forall (fun url => Spec.settled U L C url (files w) = true) urls ->
  files (snd (for_each U L C urls w)) = files w.
Proof.
  revert w. induction urls as [|url urls IH]; intros w H; [reflexivity|].
  cbn [for_each]. unfold bind.
  pose proof (files_after_url url w) as Hf.
  destruct (fetch_mode_url_files U L C url w) as [Hok _].
  destruct (fetch_mode_url U L C url w) as [o w1]. cbn [fst snd] in *.
  subst o. inversion H as [|? ? Hurl Hrest]; subst.
  rewrite (settled_files_after url _ Hurl) in Hf.
  rewrite IH; [exact Hf|]. now rewrite Hf.
Qed.

End Reruns.

Lemma fetch_mode_with_table (U : UnicodeData) (L : Libraries) (C : Config)
  (w : World) (text : str) :
  lookup (AGGREGATED_FILE C) (files w) = Some text ->
  snd (fetch_mode U L C w)
  = snd (for_each U L C (firstn 5 (flat_map row_url (file_lines text))) w).
Proof. intros H. unfold fetch_mode. now rewrite H. Qed.

(** Runs whose libraries answer as they please. *)
Lemma runs_any_answers (U : UnicodeData) (C : Config) (text : str)
  (Ls : list Libraries) (w : World) :
  lookup (AGGREGATED_FILE C) (files w) = Some text ->
  Spec.gets (calls (Spec.runs U C Ls w))
  = Spec.gets (calls w)
    ++ concat (repeat (firstn 5 (flat_map row_url (file_lines text)))
                      (length Ls))
  /\ (forall p c, lookup p (files w) = Some c ->
                  lookup p (files (Spec.runs U C Ls w)) = Some c).
Proof.
  revert w. induction Ls as [|L Ls IH]; intros w Hagg.
  - cbn. rewrite app_nil_r. auto.
  - cbn [Spec.runs length repeat concat].
    rewrite (fetch_mode_with_table U L C w text Hagg).
    destruct (for_each_run U L C
                (firstn 5 (flat_map row_url (file_lines text))) w)
      as [_ [Hkept Hgets]].
    destruct (IH _ (Hkept _ _ Hagg)) as [IHgets IHkept].
    split.
    + now rewrite IHgets, Hgets, <- app_assoc.
    + intros p c Hp. apply IHkept, Hkept, Hp.
Qed.

(** Runs whose libraries answer the same each time, from a world in which
    every URL of the table is settled. *)
Lemma runs_same_answers (U : UnicodeData) (L : Libraries) (C : Config)
  (text : str) (n : nat) (w : World) :
  lookup (AGGREGATED_FILE C) (files w) = Some text ->
  Forall (fun url => Spec.settled U L C url (files w) = true)
         (firstn 5 (flat_map row_url (file_lines text))) ->
  files (Spec.runs U C (repeat L n) w) = files w.
Proof.
  revert w. induction n as [|n IH]; intros w Hagg Hset; [reflexivity|].
  cbn [repeat Spec.runs].
  rewrite (fetch_mode_with_table U L C w text Hagg).
  pose proof (for_each_settled U L C _ w Hset) as Hfiles.
  rewrite IH; [exact Hfiles | now rewrite Hfiles | now rewrite Hfiles].
Qed.

(** Running fetch_mode again.  As long as the aggregated file is there,
    every run, whatever the libraries answer in it, asks for the same
    URLs, the first five of the table, so that a sixth row is never
    reached, and leaves every file that exists with the text it has.  When
    every run gets the same answers from the libraries as the first, no
    run after the first changes a file.  With other answers a later run
    does change the files: a note that was not saved while the
    summarisation service failed is saved by the next run, in which it
    answers. *)
Theorem fetch_mode_reruns (U : UnicodeData) (C : Config) (w : World)
  (text : str) (Ls : list Libraries) :
  lookup (AGGREGATED_FILE C) (files w) = Some text ->
  let five := firstn 5 (flat_map row_url (file_lines text)) in
  Spec.gets (calls (Spec.runs U C Ls w))
  = Spec.gets (calls w) ++ concat (repeat five (length Ls))
  /\ (forall p c, lookup p (files w) = Some c ->
                  lookup p (files (Spec.runs U C Ls w)) = Some c)
  /\ (forall L n,
         files (Spec.runs U C (repeat L (S n)) w)
         = files (Spec.runs U C [L] w))
  /\ files (Spec.runs Examples.ascii_only Examples.vault
              [Examples.mute_article_site; Examples.article_site]
              Examples.table_world)
     <> files (Spec.runs Examples.ascii_only Examples.vault
                 [Examples.mute_article_site] Examples.table_world).
Proof.
  intros Hagg. cbv zeta.
  destruct (runs_any_answers U C text Ls w Hagg) as [Hgets Hkept].
  split; [exact Hgets|]. split; [exact Hkept|]. split.
  - intros L n.
    change (repeat L (S n)) with (L :: repeat L n).
    cbn [Spec.runs].
    rewrite (fetch_mode_with_table U L C w text Hagg).
    apply (runs_same_answers U L C text).
    + now apply for_each_run.
    + apply for_each_settles.
  - vm_compute. discriminate.
Qed.

Lemma fetch_mode_reruns_witness :
  files (Spec.runs Examples.ascii_only Examples.vault
           (repeat Examples.article_site 2) Examples.table_world)
  = files (Spec.runs Examples.ascii_only Examples.vault
             [Examples.article_site] Examples.table_world).
Proof.
  exact (proj1 (proj2 (proj2
           (fetch_mode_reruns Examples.ascii_only Examples.vault
              Examples.table_world (write_table [Examples.page_entry]) []
              eq_refl)))
           Examples.article_site 1%nat).
Defined.

(** ** What the extraction leaves *)

Lemma extract_named_names (names : list str) (n : node) (name : str) :
  In name (flat_map Spec.tag_names (extract_named names n)) ->
  name_in names name = false.
Proof.
  revert name.
  induction n as [shown s | tag cs IH] using node_ind'; intros name.
  - cbn. tauto.
  - cbn [extract_named]. destruct (name_in names tag) eqn:E; [intros []|].
    cbn [flat_map Spec.tag_names]. rewrite app_nil_r.
    intros [<- | H]; [exact E|].
    induction IH as [|c cs Hc _ IHcs]; [destruct H|].
    cbn [flat_map] in H. rewrite flat_map_app in H.
    apply in_app_or in H. destruct H as [H | H]; [now apply Hc | now apply IHcs].
Qed.

Lemma extract_named_again (names : list str) (n : node) :
  flat_map (extract_named names) (extract_named names n)
  = extract_named names n.
Proof.
  induction n as [shown s | tag cs IH] using node_ind'; [reflexivity|].
  cbn [extract_named]. destruct (name_in names tag) eqn:E; [reflexivity|].
  cbn [flat_map extract_named]. rewrite E, app_nil_r. do 2 f_equal.
  induction IH as [|c cs Hc _ IHcs]; [reflexivity|].
  cbn [flat_map]. now rewrite flat_map_app, Hc, IHcs.
Qed.

Lemma find_in_absent (name : str) (n : node) :
  ~ In name (Spec.tag_names n) -> find_in name n = None.
Proof.
  induction n as [shown s | tag cs IH] using node_ind'; [reflexivity|].
  cbn [Spec.tag_names find_in]. intros H.
  destruct (eqb tag name) eqn:E.
  - apply eqb_eq in E. exfalso. apply H. now left.
  - assert (Hcs : ~ In name (flat_map Spec.tag_names cs)).
    { intros Hin. apply H. now right. }
    clear H E. induction IH as [|c cs Hc _ IHcs]; [reflexivity|].
    cbn [map first_some fold_right]. rewrite Hc.
    + apply IHcs. intros Hin. apply Hcs. cbn. apply in_or_app. now right.
    + intros Hin. apply Hcs. cbn. apply in_or_app. now left.
Qed.

Lemma find_absent (name : str) (doc : soup) :
  ~ In name (flat_map Spec.tag_names doc) -> find name doc = None.
Proof.
  unfold find. induction doc as [|n rest IH]; [reflexivity|]. intros Habs.
  cbn [map first_some fold_right]. rewrite find_in_absent.
  - apply IH. intros H. apply Habs. cbn. apply in_or_app. now right.
  - intros H. apply Habs. cbn. apply in_or_app. now left.
Qed.

(** The extraction is thorough: once the listed tags are taken out, no
    tag of a listed name is left at any depth of the document, searching
    for one finds nothing, and taking them out again changes nothing. *)
Theorem extraction_thorough (names : list str) (doc : soup) :
  (forall name,
      In name (flat_map Spec.tag_names (extract_all names doc)) ->
      name_in names name = false)
  /\ (forall name,
         name_in names name = true ->
         find name (extract_all names doc) = None)
  /\ extract_all names (extract_all names doc) = extract_all names doc.
Proof.
  assert (Hnames : forall name,
             In name (flat_map Spec.tag_names (extract_all names doc)) ->
             name_in names name = false).
  { intros name. unfold extract_all.
    induction doc as [|n doc IH]; [intros []|].
    cbn [flat_map]. rewrite flat_map_app. intros H.
    apply in_app_or in H. destruct H as [H | H]; [|now apply IH].
    now apply (extract_named_names names n). }
  split; [exact Hnames|]. split.
  - intros name Hn. apply find_absent.
    intros H. apply Hnames in H. congruence.
  - clear Hnames. unfold extract_all.
    induction doc as [|n doc IH]; [reflexivity|].
    cbn [flat_map]. now rewrite flat_map_app, extract_named_again, IH.
Qed.

Lemma extraction_thorough_witness :
  find (py "nav") (extract_all killed Examples.nav_page) = None.
Proof.
  apply (proj1 (proj2 (extraction_thorough killed Examples.nav_page))).
  reflexivity.
Defined.

(** ** From the primary extractor to the summariser *)

(** An accepted article is always long enough for the caller: when the
    primary extractor returns a text of more than 300 characters and no
    note exists at the article's path, the run on the URL goes on to ask
    the summarisation service, with the article's text cut to 25000
    characters. *)
Theorem accepted_article_is_summarised (U : UnicodeData) (L : Libraries)
  (C : Config) (url : str) (w : World) (response : Response) (a : Article) :
  requests_get L url = Ok response ->
  raise_for_status L response = Ok tt ->
  classify U url response = HTML ->
  Article_parse L url (content response) = Ok a ->
  (300 < length (article_text a))%nat ->
  lookup (Spec.note_path U C url (Some (article_title a))) (files w) = None ->
  exists rest,
    calls (snd (fetch_mode_url U L C url w))
    = calls w
      ++ [CallGet url; CallArticle url (content response);
          Spec.summary_call (article_text a)] ++ rest
    /\ (rest = [] \/ exists path body, rest = [CallWrite path body]).
Proof.
  intros Hget Hstatus Hk Ha Hlen Hnew.
  pose proof (fetch_primary_accepted U L url w response Hget Hstatus a
                Hk Ha Hlen) as E.
  assert (Hres : fst (fetch_smart_content U L url w)
                 = Ok (Some (article_title a), Some (article_text a))).
  { now rewrite E. }
  rewrite (fetch_mode_url_steps U L C url w _ _ Hres). cbv zeta.
  rewrite (long_enough (Some (article_text a)) (article_text a) eq_refl)
    by lia.
  rewrite E. cbn [snd log files calls]. rewrite Hnew.
  destruct (Spec.usable_summary L (article_text a)) as [s|];
    cbn [files calls log].
  - eexists [_]. rewrite <- !app_assoc. split; [reflexivity|].
    right. now eexists _, _.
  - exists []. rewrite <- !app_assoc. split; [reflexivity | now left].
Qed.

Lemma accepted_article_is_summarised_witness :
  exists rest,
    calls (snd (fetch_mode_url Examples.ascii_only Examples.article_site
                  Examples.vault Examples.page_url Examples.empty_world))
    = calls Examples.empty_world
      ++ [CallGet Examples.page_url; CallArticle Examples.page_url [];
          Spec.summary_call (repeat 97 301)] ++ rest
    /\ (rest = [] \/ exists path body, rest = [CallWrite path body]).
Proof.
  apply (accepted_article_is_summarised Examples.ascii_only
           Examples.article_site Examples.vault Examples.page_url
           Examples.empty_world (Examples.html_response [])
           Examples.long_article); try reflexivity.
  vm_compute. repeat constructor.
Defined.
